(** * Safire Appraisal v2.2: the valuation engine of [App.jsx]

    A shallow embedding of the costing and diagnosis code of the
    appraisal calculator, with the properties its specification states.

    - Numbers are JavaScript Numbers, that is IEEE 754 binary64 values.
      They are represented by [spec_float] and computed with the
      operations of the Standard Library's specification of binary64
      arithmetic (round to nearest, ties to even), so overflow,
      infinities, signed zeros and NaN are those of the source.
    - Strings are sequences of code units, here restricted to the range
      0-255.  The fields of a line, the quoted price and the labour
      override are the texts of form controls.
    - The patterns of the alias rules are abstract syntax trees, read by
      a matcher for the constructs they use.
    - The React state is passed explicitly: a derived value of the
      component is a function of the state record.  The piece type and
      the complexity range over the options of their controls.
    - A handler is the function it gives to the setter of the state it
      changes.  The identifier drawn for a new line, the answers to the
      dialogs and the current time are arguments of the handler, and
      so is the text [String] gives for a Number. *)

From Stdlib Require Import ZArith List String Ascii Bool Lia.
From Stdlib Require Import SpecFloat.
From Stdlib Require PrimFloat FloatOps.
From Stdlib Require DecimalString DecimalNat.
Import ListNotations.

Local Open Scope Z_scope.

(* ================================================================== *)
(** * JavaScript Numbers *)
(* ================================================================== *)

Module Num.

Definition prec : Z := 53.
Definition emax : Z := 1024.

Definition num : Type := spec_float.

Definition NaN : num := S754_nan.
Definition zero : num := S754_zero false.

Definition add : num -> num -> num := SFadd prec emax.
Definition sub : num -> num -> num := SFsub prec emax.
Definition mul : num -> num -> num := SFmul prec emax.
Definition div : num -> num -> num := SFdiv prec emax.

(** [x < y], [x <= y], [x > y]: false as soon as an operand is NaN. *)
Definition ltb : num -> num -> bool := SFltb.
Definition leb : num -> num -> bool := SFleb.
Definition gtb (x y : num) : bool := SFltb y x.

(** The Number of a mathematical integer, correctly rounded. *)
Definition of_Z (z : Z) : num := binary_normalize prec emax z 0 false.

(** [Math.abs] *)
Definition abs : num -> num := SFabs.

(** [Number.isFinite] *)
Definition isFinite (x : num) : bool :=
  match x with
  | S754_zero _ | S754_finite _ _ _ => true
  | S754_infinity _ | S754_nan => false
  end.

Definition isNaN (x : num) : bool :=
  match x with S754_nan => true | _ => false end.

(** ToBoolean on a Number: [+0], [-0] and [NaN] are falsy. *)
Definition truthy (x : num) : bool :=
  match x with
  | S754_zero _ | S754_nan => false
  | _ => true
  end.

(** The sign bit of a Number that is not NaN. *)
Definition signbit (x : num) : bool :=
  match x with
  | S754_zero s | S754_infinity s | S754_finite s _ _ => s
  | S754_nan => false
  end.

(** [Math.max(x, y)]: NaN if an operand is NaN, and [+0] is larger
    than [-0]. *)
Definition max (x y : num) : num :=
  match x, y with
  | S754_nan, _ | _, S754_nan => S754_nan
  | _, _ =>
      if SFltb x y then y
      else if SFltb y x then x
      else if signbit x then y else x
  end.

(** [Math.floor(x)].  A finite value [m * 2^e] with [e < 0] has a
    magnitude below [2^53], so the integer below it is a Number. *)
Definition floor (x : num) : num :=
  match x with
  | S754_finite s m e =>
      if 0 <=? e then x
      else
        let q := Z.shiftr (Zpos m) (- e) in
        if s then
          if Zpos m =? Z.shiftl q (- e) then of_Z (- q) else of_Z (- (q + 1))
        else
          if q =? 0 then S754_zero false else of_Z q
  | _ => x
  end.

(** Not below zero: [-0], [+0], the positive Numbers, [+Infinity], and
    also NaN, which compares below nothing. *)
Definition nonneg (x : num) : bool := negb (SFltb x zero).

(** A mantissa of at most 53 bits. *)
Definition wellFormed (x : num) : bool :=
  match x with
  | S754_finite _ m _ => Zpos (digits2_pos m) <=? prec
  | _ => true
  end.

(** The shape of a rounded result: its sign is the one asked for, it
    is never NaN, and its mantissa has at most 53 bits. *)
Inductive rounded (s : bool) : num -> Prop :=
| rounded_zero : rounded s (S754_zero s)
| rounded_infinity : rounded s (S754_infinity s)
| rounded_finite (m : positive) (e : Z) :
    Zpos (digits2_pos m) <= 53 -> rounded s (S754_finite s m e).

(** [Number.isInteger] *)
Definition isInteger (x : num) : bool :=
  match x with
  | S754_zero _ => true
  | S754_finite _ m e =>
      (0 <=? e) || (Zpos m =? Z.shiftl (Z.shiftr (Zpos m) (- e)) (- e))
  | _ => false
  end.

(** The Number of the decimal numeral [(-1)^s * m * 10^e], correctly
    rounded: what a numeric literal and [parseFloat] denote. *)
Definition of_decimal (s : bool) (m : Z) (e : Z) : num :=
  if m <=? 0 then S754_zero s
  else if 0 <=? e then
    binary_normalize prec emax (cond_Zopp s (m * 10 ^ e)) 0 s
  else
    let '(q, e', l) := SFdiv_core_binary prec emax m 0 (10 ^ (- e)) 0 in
    binary_round_aux prec emax s q e' l.

End Num.

Declare Scope num_scope.
Delimit Scope num_scope with num.
Bind Scope num_scope with Num.num.
Infix "+" := Num.add : num_scope.
Infix "-" := Num.sub : num_scope.
Infix "*" := Num.mul : num_scope.
Infix "/" := Num.div : num_scope.
Infix "<?" := Num.ltb : num_scope.
Infix "<=?" := Num.leb : num_scope.
Infix ">?" := Num.gtb : num_scope.

(* ================================================================== *)
(** * JavaScript Strings *)
(* ================================================================== *)

Module Str.

Definition code (c : ascii) : N := N_of_ascii c.

(** WhiteSpace and LineTerminator code units below 256: TAB, LF, VT,
    FF, CR, SP and NBSP. *)
Definition isWhiteSpace (c : ascii) : bool :=
  match code c with
  | 9 | 10 | 11 | 12 | 13 | 32 | 160 => true
  | _ => false
  end%N.

Definition isDigit (c : ascii) : bool :=
  ((48 <=? code c) && (code c <=? 57))%N.

Definition digitValue (c : ascii) : Z := Z.of_N (code c) - 48.

Definition isLower (c : ascii) : bool :=
  ((97 <=? code c) && (code c <=? 122))%N.

Definition isUpper (c : ascii) : bool :=
  ((65 <=? code c) && (code c <=? 90))%N.

(** The canonical form of a code unit under the [i] flag.  Only the
    ASCII letters are folded: no code unit above 127 is canonically
    equal to an ASCII character. *)
Definition canonicalize (c : ascii) : ascii :=
  if isLower c then ascii_of_N (code c - 32) else c.

(** [\w] *)
Definition isWordChar (c : ascii) : bool :=
  isLower c || isUpper c || isDigit c || (c =? "_")%char.

Fixpoint trimStart (s : string) : string :=
  match s with
  | String c r => if isWhiteSpace c then trimStart r else s
  | EmptyString => EmptyString
  end.

Fixpoint reverse (s acc : string) : string :=
  match s with
  | String c r => reverse r (String c acc)
  | EmptyString => acc
  end.

Definition trimEnd (s : string) : string :=
  reverse (trimStart (reverse s EmptyString)) EmptyString.

(** [String.prototype.trim] *)
Definition trim (s : string) : string := trimEnd (trimStart s).

(** The longest run of decimal digits at the head of [s]: its value
    continuing [acc], the number of digits read added to [n], and the
    rest of the string. *)
Fixpoint readDigits (s : string) (acc n : Z) : Z * Z * string :=
  match s with
  | String c r =>
      if isDigit c then readDigits r (10 * acc + digitValue c) (n + 1)
      else (acc, n, s)
  | EmptyString => (acc, n, s)
  end.

Definition readSign (s : string) : bool * string :=
  match s with
  | String "-"%char r => (true, r)
  | String "+"%char r => (false, r)
  | _ => (false, s)
  end.

(** The optional exponent part [e[+-]digits]; 0 when there is none. *)
Definition readExponent (s : string) : Z :=
  match s with
  | String c r =>
      if (c =? "e")%char || (c =? "E")%char then
        let '(neg, r1) := readSign r in
        let '(v, n, _) := readDigits r1 0 0 in
        if n =? 0 then 0 else if neg then - v else v
      else 0
  | EmptyString => 0
  end.

(** [parseFloat(s)]: leading white space is skipped, the longest prefix
    that is a StrDecimalLiteral is read and denotes its correctly
    rounded value; NaN when no prefix is one. *)
Definition parseFloat (input : string) : Num.num :=
  let '(neg, s1) := readSign (trimStart input) in
  if prefix "Infinity" s1 then S754_infinity neg
  else
    let '(i, ni, s2) := readDigits s1 0 0 in
    let '(m, nf, s3) :=
      match s2 with
      | String "."%char r => readDigits r i 0
      | _ => (i, 0, s2)
      end in
    if ni + nf =? 0 then Num.NaN
    else Num.of_decimal neg m (readExponent s3 - nf).

End Str.

(** The Number a decimal literal of the source denotes. *)
Definition lit (s : string) : Num.num := Str.parseFloat s.

(* ================================================================== *)
(** * Regular expressions *)
(* ================================================================== *)

Module RegExp.

(** The constructs the patterns of the source use.  A literal
    character is compared after [Str.canonicalize], as under the [i]
    flag. *)
Inductive regex : Type :=
| Empty
| Chr (c : ascii)
| WhiteSpace
| Bol
| WordBoundary
| Seq (r1 r2 : regex)
| Alt (r1 r2 : regex)
| Opt (r : regex)
| Star (r : regex).

(** A position in the subject: the code unit before it, if any, and
    the rest of the subject. *)
Definition position : Type := option ascii * string.

Definition wordBefore (p : position) : bool :=
  match fst p with Some c => Str.isWordChar c | None => false end.

Definition wordAfter (p : position) : bool :=
  match snd p with String c _ => Str.isWordChar c | EmptyString => false end.

(** Zero or more iterations of [step], each consuming at least one
    code unit. *)
Fixpoint iterate (step : position -> list position) (fuel : nat)
         (p : position) : list position :=
  match fuel with
  | O => [p]
  | S n =>
      flat_map
        (fun q =>
           if (String.length (snd q) <? String.length (snd p))%nat
           then iterate step n q else [])
        (step p) ++ [p]
  end.

(** The positions at which a match of [r] started at [p] can end. *)
Fixpoint ends (r : regex) (p : position) : list position :=
  match r with
  | Empty => [p]
  | Chr c =>
      match snd p with
      | String a rest =>
          if (Str.canonicalize a =? Str.canonicalize c)%char
          then [(Some a, rest)] else []
      | EmptyString => []
      end
  | WhiteSpace =>
      match snd p with
      | String a rest => if Str.isWhiteSpace a then [(Some a, rest)] else []
      | EmptyString => []
      end
  | Bol => match fst p with None => [p] | Some _ => [] end
  | WordBoundary => if xorb (wordBefore p) (wordAfter p) then [p] else []
  | Seq r1 r2 => flat_map (ends r2) (ends r1 p)
  | Alt r1 r2 => ends r1 p ++ ends r2 p
  | Opt r1 => ends r1 p ++ [p]
  | Star r1 => iterate (ends r1) (String.length (snd p)) p
  end.

(** Is there a match starting at [p] or further right? *)
Fixpoint search (r : regex) (prev : option ascii) (s : string) : bool :=
  match ends r (prev, s) with
  | _ :: _ => true
  | [] =>
      match s with
      | String a rest => search r (Some a) rest
      | EmptyString => false
      end
  end.

(** [r.test(s)] for a pattern without the [g] and [y] flags. *)
Definition test (r : regex) (s : string) : bool := search r None s.

(** A sequence of literal characters. *)
Fixpoint str (s : string) : regex :=
  match s with
  | String c EmptyString => Chr c
  | String c r => Seq (Chr c) (str r)
  | EmptyString => Empty
  end.

Declare Scope regex_scope.
Delimit Scope regex_scope with re.
Bind Scope regex_scope with regex.
Notation "r1 ;; r2" := (Seq r1 r2)
  (at level 61, right associativity) : regex_scope.
Notation "r1 <|> r2" := (Alt r1 r2)
  (at level 62, right associativity) : regex_scope.

End RegExp.

(* ================================================================== *)
(** * The application *)
(* ================================================================== *)

Local Open Scope string_scope.

Import Num(num).

(** ** Catalogue *)

(** A material of the catalogue.  The display label is left out.  The
    unit strings are only ever compared for equality. *)
Module Material.
Record t : Type := mk { key : string; unit : string; density : num }.
End Material.

Definition MATERIALS_0 : Material.t := Material.mk "gold_24k" "€/g" (lit "19.32").

Definition MATERIALS : list Material.t :=
  [ MATERIALS_0;
    Material.mk "gold_18k" "€/g" (lit "15.6");
    Material.mk "gold_14k" "€/g" (lit "13.1");
    Material.mk "silver_925" "€/g" (lit "10.36");
    Material.mk "platinum_950" "€/g" (lit "21.45");
    Material.mk "palladium" "€/g" (lit "12.0");
    Material.mk "titanium" "€/g" (lit "4.5");
    Material.mk "steel_316L" "€/g" (lit "8.0");
    Material.mk "brass" "€/g" (lit "8.5");
    Material.mk "diamond" "€/ct" (lit "3.52");
    Material.mk "ruby" "€/ct" (lit "4.0");
    Material.mk "sapphire" "€/ct" (lit "4.0");
    Material.mk "emerald" "€/ct" (lit "2.7");
    Material.mk "other_metal" "€/g" (lit "7.8");
    Material.mk "other_mineral" "€/ct" (lit "2.7") ].

Definition DEFAULT_DENSITY : num := lit "2.7".
Definition DEFAULT_RATE_EUR_H : num := lit "60".

(** ** Object literals read as tables *)

(** The names every object inherits from [Object.prototype]. *)
Definition objectPrototype : list string :=
  [ "constructor"; "hasOwnProperty"; "isPrototypeOf";
    "propertyIsEnumerable"; "toLocaleString"; "toString"; "valueOf";
    "__proto__"; "__defineGetter__"; "__defineSetter__";
    "__lookupGetter__"; "__lookupSetter__" ].

(** The outcome of [o[k]] on an object literal [o] with Number-valued
    properties: the own property named [k], else the member of
    [Object.prototype] named [k] (a function or an object), else
    [undefined]. *)
Inductive property : Type :=
| Own (x : num)
| Inherited
| Undefined.

Fixpoint ownProperty (o : list (string * num)) (k : string) : option num :=
  match o with
  | [] => None
  | (k', x) :: r => if k' =? k then Some x else ownProperty r k
  end.

Definition get (o : list (string * num)) (k : string) : property :=
  match ownProperty o k with
  | Some x => Own x
  | None => if existsb (String.eqb k) objectPrototype then Inherited else Undefined
  end.

(** [k in o] *)
Definition hasProperty (o : list (string * num)) (k : string) : bool :=
  match get o k with Undefined => false | _ => true end.

Definition WEIGHT_UNITS : list (string * num) :=
  [ ("g", lit "1"); ("dwt", lit "1.555"); ("ozt", lit "31.103") ].

(** ** Alias rules *)

Module Rule.
Record t : Type := mk { test : RegExp.regex; key : string }.
End Rule.

Section Rules.
Import RegExp.
Local Open Scope regex_scope.

(** [(^|\b)] *)
Definition startOrBoundary : regex := Bol <|> WordBoundary.

(** The five rules, each with its pattern, in the order of the source. *)
Definition EQUIVALENCE_RULES : list Rule.t :=
  [ (* /(^|\b)(750(\/1000)?|18\s?k(arat)?|oro\s*18k)\b/i *)
    Rule.mk
      (startOrBoundary ;;
       (str "750" ;; Opt (str "/1000")
        <|> str "18" ;; Opt WhiteSpace ;; Chr "k" ;; Opt (str "arat")
        <|> str "oro" ;; Star WhiteSpace ;; str "18k") ;;
       WordBoundary)
      "gold_18k";
    (* /(^|\b)(585(\/1000)?|14\s?k(arat)?|oro\s*14k)\b/i *)
    Rule.mk
      (startOrBoundary ;;
       (str "585" ;; Opt (str "/1000")
        <|> str "14" ;; Opt WhiteSpace ;; Chr "k" ;; Opt (str "arat")
        <|> str "oro" ;; Star WhiteSpace ;; str "14k") ;;
       WordBoundary)
      "gold_14k";
    (* /(^|\b)(999(\/1000)?|24\s?k(arat)?|oro\s*24k)\b/i *)
    Rule.mk
      (startOrBoundary ;;
       (str "999" ;; Opt (str "/1000")
        <|> str "24" ;; Opt WhiteSpace ;; Chr "k" ;; Opt (str "arat")
        <|> str "oro" ;; Star WhiteSpace ;; str "24k") ;;
       WordBoundary)
      "gold_24k";
    (* /(^|\b)(925(\/1000)?|plata\s*de\s*ley|sterling)\b/i *)
    Rule.mk
      (startOrBoundary ;;
       (str "925" ;; Opt (str "/1000")
        <|> str "plata" ;; Star WhiteSpace ;; str "de" ;;
            Star WhiteSpace ;; str "ley"
        <|> str "sterling") ;;
       WordBoundary)
      "silver_925";
    (* /(^|\b)(950(\/1000)?\s*pt|platino\s*950|pt\s*950)\b/i *)
    Rule.mk
      (startOrBoundary ;;
       (str "950" ;; Opt (str "/1000") ;; Star WhiteSpace ;; str "pt"
        <|> str "platino" ;; Star WhiteSpace ;; str "950"
        <|> str "pt" ;; Star WhiteSpace ;; str "950") ;;
       WordBoundary)
      "platinum_950" ].
End Rules.

(** ** Piece types and suggested hours *)

(** The keys of [PIECE_TYPES]: the values the preset buttons give to
    [pieceType]. *)
Inductive PieceType : Type :=
| anillo_fino | caja_reloj | eslabon | diamante_redondo
| pendiente | pulsera | colgante | reloj_completo.

(** The options of the complexity selector. *)
Inductive Complexity : Type := baja | media | alta.

(** [SUGGESTED_HOURS[pieceType][complexity]].  Every piece type and
    complexity has an entry, so the defaults of one hour that
    [suggestedHours] falls back to are never taken. *)
Definition SUGGESTED_HOURS (p : PieceType) (c : Complexity) : num :=
  match p, c with
  | anillo_fino, baja => lit "0.5"
  | anillo_fino, media => lit "1.0"
  | anillo_fino, alta => lit "1.5"
  | caja_reloj, baja => lit "2.0"
  | caja_reloj, media => lit "4.0"
  | caja_reloj, alta => lit "6.0"
  | eslabon, baja => lit "0.8"
  | eslabon, media => lit "1.2"
  | eslabon, alta => lit "2.0"
  | pulsera, baja => lit "1.5"
  | pulsera, media => lit "2.5"
  | pulsera, alta => lit "4.0"
  | colgante, baja => lit "0.8"
  | colgante, media => lit "1.2"
  | colgante, alta => lit "2.0"
  | pendiente, baja => lit "0.8"
  | pendiente, media => lit "1.5"
  | pendiente, alta => lit "2.5"
  | diamante_redondo, baja => lit "1.0"
  | diamante_redondo, media => lit "1.5"
  | diamante_redondo, alta => lit "2.5"
  | reloj_completo, baja => lit "2.5"
  | reloj_completo, media => lit "4.5"
  | reloj_completo, alta => lit "6.5"
  end.

(** ** Utilities *)

Local Open Scope num_scope.

(** [Math.PI] *)
Definition PI : num := lit "3.141592653589793".

(** [toNumber(v, d)]: the fields it is applied to hold strings. *)
Definition toNumber (v : string) (d : num) : num :=
  let n := Str.parseFloat v in
  if Num.isFinite n then n else d.

(** [d ** 2], taken as the correctly rounded square. *)
Definition square (d : num) : num := d * d.

Definition estimateDiamondCarats (d h : num) : num :=
  Num.max Num.zero (lit "0.0061" * square d * h).

Definition volumeFromBoxMM (l w h : num) : num :=
  Num.max Num.zero ((l / lit "10") * (w / lit "10") * (h / lit "10")).

Definition volumeFromCylinderMM (d h : num) : num :=
  let r := d / lit "20" in
  Num.max Num.zero (PI * r * r * (h / lit "10")).

Definition unitFor (mat : Material.t) : string :=
  if Material.unit mat =? "€/ct" then "ct"
  else if Material.unit mat =? "€/cm3" then "cm3"
  else "g".

(** [WEIGHT_UNITS[unit] || 1] as the right operand of a product: an own
    factor when it is truthy, [1] when the read gives [undefined], and
    NaN, the Number of a function or object, for an inherited member. *)
Definition weightFactor (unit : string) : num :=
  match get WEIGHT_UNITS unit with
  | Own x => if Num.truthy x then x else lit "1"
  | Inherited => Num.NaN
  | Undefined => lit "1"
  end.

Definition toGrams (val unit : string) : num :=
  toNumber val Num.zero * weightFactor unit.

Definition detectMaterialFromAlias (txt : string) : option string :=
  let s := Str.trim txt in
  if s =? "" then None
  else
    match find (fun rule => RegExp.test (Rule.test rule) s) EQUIVALENCE_RULES with
    | Some rule => Some (Rule.key rule)
    | None => None
    end.

(** ** Lines *)

(** A line of the appraisal; every field is the text of a form control. *)
Module Line.
Record t : Type := mk {
  id : string;
  materialKey : string;
  unitPrice : string;
  density : string;
  mode : string;
  qty : string;
  alias : string;
  weightVal : string;
  weightUnit : string;
  shape : string;
  lengthMM : string;
  widthMM : string;
  heightMM : string;
  diameterMM : string;
  depthMM : string;
  volumeCM3 : string
}.
End Line.

(** The result of [calcLine]. *)
Module Part.
Record t : Type := mk {
  m : Material.t;
  matUnit : string;
  effW : num;
  qty : num;
  cost : num
}.
End Part.

(** [allMaterials.find(x => x.key === k) || MATERIALS[0]] *)
Definition findMaterial (allMaterials : list Material.t) (k : string)
  : Material.t :=
  match find (fun x => Material.key x =? k) allMaterials with
  | Some m => m
  | None => MATERIALS_0
  end.

Definition calcLine (allMaterials : list Material.t) (ln : Line.t) : Part.t :=
  let m := findMaterial allMaterials (Line.materialKey ln) in
  let matUnit := unitFor m in
  let effW :=
    if Line.mode ln =? "dimensions" then
      if (Material.key m =? "diamond") && (Line.shape ln =? "diamond_round")
      then
        estimateDiamondCarats (toNumber (Line.diameterMM ln) Num.zero)
                              (toNumber (Line.depthMM ln) Num.zero)
      else
        let vol := Num.zero in
        let vol :=
          if Line.shape ln =? "box" then
            volumeFromBoxMM (toNumber (Line.lengthMM ln) Num.zero)
                            (toNumber (Line.widthMM ln) Num.zero)
                            (toNumber (Line.heightMM ln) Num.zero)
          else vol in
        let vol :=
          if Line.shape ln =? "cylinder" then
            volumeFromCylinderMM (toNumber (Line.diameterMM ln) Num.zero)
                                 (toNumber (Line.heightMM ln) Num.zero)
          else vol in
        let vol :=
          if Line.shape ln =? "volume" then
            toNumber (Line.volumeCM3 ln) Num.zero
          else vol in
        let dens := toNumber (Line.density ln) DEFAULT_DENSITY in
        if Material.unit m =? "€/ct" then (vol * dens) / lit "0.2"
        else if Material.unit m =? "€/g" then vol * dens
        else vol
    else
      if Material.unit m =? "€/g" then
        toGrams (Line.weightVal ln)
                (if Line.weightUnit ln =? "" then "g" else Line.weightUnit ln)
      else toNumber (Line.weightVal ln) Num.zero in
  let qty := Num.max (lit "1") (Num.floor (toNumber (Line.qty ln) (lit "1"))) in
  let cost := toNumber (Line.unitPrice ln) Num.zero * effW * qty in
  Part.mk m matUnit effW qty cost.

(** ** The state of the component and its derived values *)

Record State : Type := mkState {
  customMaterials : list Material.t;
  pieceType : PieceType;
  complexity : Complexity;
  laborOverride : string;
  lines : list Line.t;
  piecePrice : string
}.

Definition allMaterials (st : State) : list Material.t :=
  MATERIALS ++ customMaterials st.

Definition suggestedHours (st : State) : num :=
  SUGGESTED_HOURS (pieceType st) (complexity st).

Definition laborEstimated (st : State) : num :=
  DEFAULT_RATE_EUR_H * suggestedHours st.

Definition laborCost (st : State) : num :=
  toNumber (laborOverride st) (laborEstimated st).

Definition priceP (st : State) : num := toNumber (piecePrice st) Num.zero.

(** [xs.reduce((a, b, i) => f(a, b, i), a0)], from index [i] on. *)
Fixpoint reduce {A B : Type} (f : A -> B -> nat -> A) (xs : list B)
         (i : nat) (a : A) : A :=
  match xs with
  | [] => a
  | b :: r => reduce f r (S i) (f a b i)
  end.

Definition parts (st : State) : list Part.t :=
  map (calcLine (allMaterials st)) (lines st).

Definition subtotal (st : State) : num :=
  reduce (fun a b _ => a + Part.cost b) (parts st) 0 Num.zero.

Definition totalWeightG (st : State) : num :=
  reduce
    (fun a b i =>
       let m :=
         match nth_error (lines st) i with
         | Some ln => findMaterial (allMaterials st) (Line.materialKey ln)
         | None => MATERIALS_0
         end in
       let matUnit := unitFor m in
       if matUnit =? "g" then a + (Part.effW b * Part.qty b) else a)
    (parts st) 0 Num.zero.

Definition totalCost (st : State) : num := subtotal st + laborCost st.

Definition pctMaterials (st : State) : num :=
  if priceP st >? Num.zero
  then (subtotal st / priceP st) * lit "100" else Num.zero.

Definition pctTotal (st : State) : num :=
  if priceP st >? Num.zero
  then (totalCost st / priceP st) * lit "100" else Num.zero.

Definition overPctTotal (st : State) : num :=
  if totalCost st >? Num.zero
  then ((priceP st - totalCost st) / totalCost st) * lit "100" else Num.zero.

(** The value the diagnosis effect stores for the current state. *)
Definition diagnosis (st : State) : string :=
  if negb (Num.truthy (priceP st)) || (totalCost st <=? Num.zero) then ""
  else if priceP st <? totalCost st then "Precio sospechoso"
  else if overPctTotal st >? lit "40" then "Sobrevalorado"
  else if overPctTotal st >? lit "20" then "Posible sobrevaloración"
  else "Precio razonable".

(** ** History *)

(** [saveHistory(entry)]: the next value of [history]. *)
Definition saveHistory {Entry : Type} (entry : Entry) (history : list Entry)
  : list Entry :=
  firstn 500 (entry :: history).

(** The entries saved one after the other from [history]: each save
    with the entry, the list before it and the list after it. *)
Fixpoint saves {Entry : Type} (history : list Entry) (entries : list Entry)
  : list (Entry * list Entry * list Entry) :=
  match entries with
  | [] => []
  | e :: r =>
      let next := saveHistory e history in
      (e, history, next) :: saves next r
  end.

(** ** The rules as the specification words them *)

(** The threshold rules of the classifier, in order. *)
Definition diagnosisRules (P C : num) : string :=
  let overagePct := ((P - C) / C) * lit "100" in
  if P <? C then "Precio sospechoso"
  else if overagePct >? lit "40" then "Sobrevalorado"
  else if overagePct >? lit "20" then "Posible sobrevaloración"
  else "Precio razonable".

(** The classifier of the specification: the rules when both the price
    and the total cost are above zero, the empty label otherwise. *)
Definition specDiagnosis (P C : num) : string :=
  if (P >? Num.zero) && (C >? Num.zero) then diagnosisRules P C else "".

(** The geometry estimators of the specification.  Their formulas
    are read with the operations of Numbers: the factors are
    multiplied from left to right, and the square of a Number is its
    product with itself. *)

(** [boxVolumeCM3(lengthMM, widthMM, heightMM)]:
    (l/10) (w/10) (h/10), clamped at 0. *)
Definition boxVolumeCM3 (l w h : num) : num :=
  Num.max Num.zero ((l / lit "10") * (w / lit "10") * (h / lit "10")).

(** [cylinderVolumeCM3(diameterMM, heightMM)]:
    pi (d/20)^2 (h/10), clamped at 0. *)
Definition cylinderVolumeCM3 (d h : num) : num :=
  Num.max Num.zero (PI * (d / lit "20") * (d / lit "20") * (h / lit "10")).

(** The volume in cubic centimetres of a line given by dimensions: the
    estimator of its shape, or the [volumeCM3] entry for the shape
    [volume]. *)
Definition specVolume (ln : Line.t) : num :=
  if Line.shape ln =? "box" then
    boxVolumeCM3 (toNumber (Line.lengthMM ln) Num.zero)
                 (toNumber (Line.widthMM ln) Num.zero)
                 (toNumber (Line.heightMM ln) Num.zero)
  else if Line.shape ln =? "cylinder" then
    cylinderVolumeCM3 (toNumber (Line.diameterMM ln) Num.zero)
                      (toNumber (Line.heightMM ln) Num.zero)
  else if Line.shape ln =? "volume" then toNumber (Line.volumeCM3 ln) Num.zero
  else Num.zero.

(** The conversion of a volume with a density into the pricing unit of
    the material. *)
Definition specConvert (m : Material.t) (vol dens : num) : num :=
  if Material.unit m =? "€/ct" then (vol * dens) / lit "0.2"
  else if Material.unit m =? "€/g" then vol * dens
  else vol.

(** The factor of a weight unit: that of the table, and 1 for a unit
    that is not in it. *)
Definition specFactor (unit : string) : num :=
  if unit =? "g" then lit "1"
  else if unit =? "dwt" then lit "1.555"
  else if unit =? "ozt" then lit "31.103"
  else lit "1".

(** The conversion to grams of the specification: the value, 0 when it
    is not numeric, times the factor of the unit. *)
Definition specToGrams (val unit : string) : num :=
  toNumber val Num.zero * specFactor unit.

(** The entry of the catalogue for diamond. *)
Definition diamondEntry : Material.t := Material.mk "diamond" "€/ct" (lit "3.52").

(** ** Sample inputs *)

Definition sampleLine : Line.t :=
  Line.mk "1" "gold_18k" "" "15.6" "weight" "1" "" "" "g" "box"
          "" "" "" "" "" "".

(** A line of 18k gold given by weight. *)
Definition weightLine (unitPrice weightVal weightUnit qty : string) : Line.t :=
  Line.mk "1" "gold_18k" unitPrice "15.6" "weight" qty "" weightVal weightUnit
          "box" "" "" "" "" "" "".

(** The initial state with a quoted price and a labour override. *)
Definition sampleState (piecePrice laborOverride : string) : State :=
  mkState [] anillo_fino media laborOverride [sampleLine] piecePrice.

(** The coercion of a unit price as the specification states it: a
    negative or non-numeric unit price is coerced to 0. *)
Definition specUnitPriceCoercion (v : string) : Prop :=
  (Str.parseFloat v <? Num.zero) = true \/ Num.isNaN (Str.parseFloat v) = true ->
  toNumber v Num.zero = Num.zero.

(** A claim of the specification as it is stated: no percentage is
    ever NaN. *)
Definition percentagesDefined (st : State) : Prop :=
  Num.isNaN (pctMaterials st) = false
  /\ Num.isNaN (pctTotal st) = false
  /\ Num.isNaN (overPctTotal st) = false.

(** A state whose single line has no unit price and a weight of 1e308
    troy ounces, against a quoted price of 1. *)
Definition overflowState : State :=
  mkState [] anillo_fino media "" [weightLine "" "1e308" "ozt" "1"] "1".

(** A line given by dimensions. *)
Definition dimensionsLine (materialKey density shape : string)
           (lengthMM widthMM heightMM diameterMM depthMM volumeCM3 : string)
  : Line.t :=
  Line.mk "1" materialKey "" density "dimensions" "1" "" "" "g" shape
          lengthMM widthMM heightMM diameterMM depthMM volumeCM3.

(** ** Editing the lines *)

(** The names of the fields of a line, and the read and the write of
    the field of a name. *)
Module Field.
Inductive t : Type :=
| id | materialKey | unitPrice | density | mode | qty | alias | weightVal
| weightUnit | shape | lengthMM | widthMM | heightMM | diameterMM | depthMM
| volumeCM3.

Definition get (f : t) (l : Line.t) : string :=
  match f with
  | id => Line.id l
  | materialKey => Line.materialKey l
  | unitPrice => Line.unitPrice l
  | density => Line.density l
  | mode => Line.mode l
  | qty => Line.qty l
  | alias => Line.alias l
  | weightVal => Line.weightVal l
  | weightUnit => Line.weightUnit l
  | shape => Line.shape l
  | lengthMM => Line.lengthMM l
  | widthMM => Line.widthMM l
  | heightMM => Line.heightMM l
  | diameterMM => Line.diameterMM l
  | depthMM => Line.depthMM l
  | volumeCM3 => Line.volumeCM3 l
  end.

Definition set (f : t) (v : string) (l : Line.t) : Line.t :=
  let 'Line.mk a b c d e g h i j k m n o p q r := l in
  match f with
  | id => Line.mk v b c d e g h i j k m n o p q r
  | materialKey => Line.mk a v c d e g h i j k m n o p q r
  | unitPrice => Line.mk a b v d e g h i j k m n o p q r
  | density => Line.mk a b c v e g h i j k m n o p q r
  | mode => Line.mk a b c d v g h i j k m n o p q r
  | qty => Line.mk a b c d e v h i j k m n o p q r
  | alias => Line.mk a b c d e g v i j k m n o p q r
  | weightVal => Line.mk a b c d e g h v j k m n o p q r
  | weightUnit => Line.mk a b c d e g h i v k m n o p q r
  | shape => Line.mk a b c d e g h i j v m n o p q r
  | lengthMM => Line.mk a b c d e g h i j k v n o p q r
  | widthMM => Line.mk a b c d e g h i j k m v o p q r
  | heightMM => Line.mk a b c d e g h i j k m n v p q r
  | diameterMM => Line.mk a b c d e g h i j k m n o v q r
  | depthMM => Line.mk a b c d e g h i j k m n o p v r
  | volumeCM3 => Line.mk a b c d e g h i j k m n o p q v
  end.
End Field.

(** An object literal of field values, such as
    [{ mode: 'dimensions', shape: 'box' }]: its properties in order. *)
Definition Patch : Type := list (Field.t * string).

(** [{ ...l, ...patch }] *)
Definition applyPatch (l : Line.t) (patch : Patch) : Line.t :=
  fold_left (fun l fv => Field.set (fst fv) (snd fv) l) patch l.

(** [xs.findIndex(f)], with [None] for -1. *)
Fixpoint findIndex {A : Type} (f : A -> bool) (xs : list A) : option nat :=
  match xs with
  | [] => None
  | x :: r =>
      if f x then Some O
      else match findIndex f r with Some i => Some (S i) | None => None end
  end.

(** [xs.map((x, idx) => f(x, idx))], from index [i] on. *)
Fixpoint mapIndexed {A B : Type} (f : A -> nat -> B) (xs : list A) (i : nat)
  : list B :=
  match xs with
  | [] => []
  | x :: r => f x i :: mapIndexed f r (S i)
  end.

(** [setLines(prev => f(prev))] *)
Definition setLines (f : list Line.t -> list Line.t) (st : State) : State :=
  mkState (customMaterials st) (pieceType st) (complexity st)
          (laborOverride st) (f (lines st)) (piecePrice st).

(** The updaters given to [setLines]: each takes the previous list of
    lines to the next one. *)

(** [updateLine(id, patch)] *)
Definition updateLine (id : string) (patch : Patch) (prev : list Line.t)
  : list Line.t :=
  map (fun l => if Line.id l =? id then applyPatch l patch else l) prev.

(** [delLine(id)] *)
Definition delLine (id : string) (prev : list Line.t) : list Line.t :=
  if (1 <? List.length prev)%nat
  then filter (fun l => negb (Line.id l =? id)) prev
  else prev.

(** [dupLine(id)], with [newId] the identifier drawn for the clone. *)
Definition dupLine (newId : string) (id : string) (prev : list Line.t)
  : list Line.t :=
  match findIndex (fun l => Line.id l =? id) prev with
  | None => prev
  | Some i =>
      match nth_error prev i with
      | Some l =>
          let clone := applyPatch l [(Field.id, newId)] in
          (firstn (S i) prev ++ clone :: skipn (S i) prev)%list
      | None => prev
      end
  end.

(** The weight unit the material selector and the alias detection give
    to a line moved to a material of base unit [baseUnit]:
    [baseUnit === 'g' ? (ln.weightUnit in WEIGHT_UNITS ? ln.weightUnit : 'g') : baseUnit] *)
Definition weightUnitFor (baseUnit : string) (ln : Line.t) : string :=
  if baseUnit =? "g"
  then if hasProperty WEIGHT_UNITS (Line.weightUnit ln)
       then Line.weightUnit ln else "g"
  else baseUnit.

(** [applyAliasDetection(ln)] *)
Definition applyAliasDetection (customMaterials : list Material.t)
           (ln : Line.t) (prev : list Line.t) : list Line.t :=
  match detectMaterialFromAlias (Line.alias ln) with
  | None => prev
  | Some key =>
      let newMat := findMaterial (MATERIALS ++ customMaterials) key in
      let baseUnit := unitFor newMat in
      updateLine (Line.id ln)
                 [(Field.materialKey, key);
                  (Field.weightUnit, weightUnitFor baseUnit ln)]
                 prev
  end.

(** The change handler of the material selector of the line [ln], for
    the option of value [v]. *)
Definition selectMaterial (allMaterials : list Material.t) (ln : Line.t)
           (v : string) (prev : list Line.t) : list Line.t :=
  let newMat := findMaterial allMaterials v in
  let u := unitFor newMat in
  updateLine (Line.id ln)
             [(Field.materialKey, v); (Field.weightUnit, weightUnitFor u ln)]
             prev.

(** The patch of the preset button of a piece type. *)
Definition presetPatch (key : PieceType) : Patch :=
  match key with
  | anillo_fino =>
      [(Field.mode, "dimensions"); (Field.shape, "cylinder");
       (Field.diameterMM, "20"); (Field.heightMM, "2")]
  | caja_reloj =>
      [(Field.mode, "dimensions"); (Field.shape, "box");
       (Field.lengthMM, "40"); (Field.widthMM, "30"); (Field.heightMM, "10")]
  | eslabon =>
      [(Field.mode, "dimensions"); (Field.shape, "cylinder");
       (Field.diameterMM, "5"); (Field.heightMM, "20")]
  | diamante_redondo =>
      [(Field.materialKey, "diamond"); (Field.mode, "dimensions");
       (Field.shape, "diamond_round"); (Field.diameterMM, "6.5");
       (Field.depthMM, "4")]
  | pendiente =>
      [(Field.mode, "dimensions"); (Field.shape, "box");
       (Field.lengthMM, "10"); (Field.widthMM, "10"); (Field.heightMM, "5")]
  | pulsera =>
      [(Field.mode, "dimensions"); (Field.shape, "cylinder");
       (Field.diameterMM, "60"); (Field.heightMM, "5")]
  | colgante =>
      [(Field.mode, "dimensions"); (Field.shape, "box");
       (Field.lengthMM, "20"); (Field.widthMM, "15"); (Field.heightMM, "5")]
  | reloj_completo =>
      [(Field.mode, "dimensions"); (Field.shape, "box");
       (Field.lengthMM, "45"); (Field.widthMM, "40"); (Field.heightMM, "10")]
  end.

(** The updater of the preset button: the patch goes to the last line.
    On an empty list the index is -1 and there is nothing to map. *)
Definition presetLines (key : PieceType) (prev : list Line.t) : list Line.t :=
  match prev with
  | [] => []
  | _ :: _ =>
      let i := (List.length prev - 1)%nat in
      match nth_error prev i with
      | Some ln =>
          mapIndexed
            (fun l idx => if negb (idx =? i)%nat then l
                          else applyPatch ln (presetPatch key))
            prev 0
      | None => prev
      end
  end.

(** The click on the preset button of a piece type. *)
Definition clickPreset (key : PieceType) (st : State) : State :=
  mkState (customMaterials st) key (complexity st) (laborOverride st)
          (presetLines key (lines st)) (piecePrice st).

Section Creation.

(** [String(x)] for a Number [x]. *)
Variable numberToString : num -> string.

(** [createLine(prefMat)], with [id] the identifier drawn for the line
    and [None] for a call without argument.  The density of a material
    is always present, so [m.density ?? DEFAULT_DENSITY] is
    [m.density]. *)
Definition createLine (id : string) (prefMat : option Material.t) : Line.t :=
  let m :=
    match prefMat with
    | Some m => m
    | None =>
        match find (fun m => Material.key m =? "gold_18k") MATERIALS with
        | Some m => m
        | None => MATERIALS_0
        end
    end in
  let baseUnit := unitFor m in
  Line.mk id (Material.key m) "" (numberToString (Material.density m))
          "weight" "1" "" ""
          (if baseUnit =? "g" then "g" else baseUnit)
          "box" "" "" "" "" "" "".

(** [addLine()], with [id] the identifier drawn for the new line. *)
Definition addLine (allMaterials : list Material.t) (id : string)
           (prev : list Line.t) : list Line.t :=
  let prefMat :=
    match
      match nth_error prev (List.length prev - 1) with
      | Some last =>
          find (fun m => Material.key m =? Line.materialKey last) allMaterials
      | None => None
      end
    with
    | Some m => Some m
    | None => nth_error allMaterials 0
    end in
  (prev ++ [createLine id prefMat])%list.

(** [resetAll()], with [id] the identifier drawn for the new line. *)
Definition resetAll (id : string) (st : State) : State :=
  mkState (customMaterials st) (pieceType st) (complexity st) ""
          [createLine id None] "".

End Creation.

(** ** Custom materials *)

(** The decimal digits of a count: [`${n}`] for a number of lines or
    an index, and for a time in milliseconds. *)
Definition decimal (n : nat) : string :=
  DecimalString.NilEmpty.string_of_uint (Nat.to_uint n).

Definition decimalN (n : N) : string :=
  DecimalString.NilEmpty.string_of_uint (N.to_uint n).

(** [addCustomMaterial()], as the updater of the custom materials, with
    the answers to its three dialogs and the time in milliseconds:
    [name] and [densityText] are [None] when the dialog is cancelled.
    [String(DEFAULT_DENSITY)] is the text [2.7]. *)
Definition addCustomMaterial (name : option string) (perCarat : bool)
           (densityText : option string) (now : N)
           (prev : list Material.t) : list Material.t :=
  match name with
  | None | Some EmptyString => prev
  | Some _ =>
      let unit := if perCarat then "€/ct" else "€/g" in
      let densStr :=
        match densityText with
        | None | Some EmptyString => "2.7"
        | Some s => s
        end in
      let key := "custom_" ++ decimalN now in
      let newMat := Material.mk key unit (toNumber densStr DEFAULT_DENSITY) in
      (prev ++ [newMat])%list
  end.

(** ** Validation *)

(** [pushAlert(msg)] on the alerts collected so far. *)
Definition pushAlert (msg : string) (alerts : list string) : list string :=
  if existsb (String.eqb msg) alerts then alerts else (alerts ++ [msg])%list.

Definition densityAlert (idx : nat) : string :=
  "Línea " ++ decimal (S idx) ++ ": densidad fuera de rango".

Definition quantityAlert (idx : nat) : string :=
  "Línea " ++ decimal (S idx) ++ ": cantidad muy elevada (revise unidades)".

Definition unitsAlert (idx : nat) : string :=
  "Línea " ++ decimal (S idx) ++ ": unidades debe ser ≥ 1".

Definition priceAlert : string :=
  "Precio de la pieza menor que el coste total (precio sospechoso)".

Definition overAlert : string :=
  "Sobreprecio extremadamente alto (vs coste total), verifique datos".

Definition laborAlert : string := "La mano de obra no puede ser negativa".

(** The three tests of the loop over the lines. *)
Definition densityOutOfRange (allMaterials : list Material.t) (ln : Line.t)
  : bool :=
  let m := findMaterial allMaterials (Line.materialKey ln) in
  let dens := toNumber (Line.density ln) Num.zero in
  let isGem := Material.unit m =? "€/ct" in
  (dens <? (if isGem then lit "2.0" else lit "3.5"))
  || (dens >? (if isGem then lit "5.5" else lit "22")).

Definition quantityTooHigh (allMaterials : list Material.t) (ln : Line.t)
  : bool :=
  let effW := Part.effW (calcLine allMaterials ln) in
  effW * Num.max (lit "1") (Num.floor (toNumber (Line.qty ln) (lit "1")))
  >? lit "100000".

Definition unitsBelowOne (ln : Line.t) : bool :=
  let qty := toNumber (Line.qty ln) (lit "1") in
  qty <? lit "1".

(** The body of the loop over the lines. *)
Definition lineAlerts (allMaterials : list Material.t) (alerts : list string)
           (ln : Line.t) (idx : nat) : list string :=
  let alerts :=
    if densityOutOfRange allMaterials ln
    then pushAlert (densityAlert idx) alerts else alerts in
  let alerts :=
    if quantityTooHigh allMaterials ln
    then pushAlert (quantityAlert idx) alerts else alerts in
  if unitsBelowOne ln then pushAlert (unitsAlert idx) alerts else alerts.

(** The alerts of a render. *)
Definition alerts (st : State) : list string :=
  let alerts := reduce (lineAlerts (allMaterials st)) (lines st) 0 [] in
  let alerts :=
    if Num.truthy (priceP st) && (priceP st <? totalCost st)
    then pushAlert priceAlert alerts else alerts in
  let alerts :=
    if overPctTotal st >? lit "1000"
    then pushAlert overAlert alerts else alerts in
  if laborCost st <? Num.zero then pushAlert laborAlert alerts else alerts.

(** ** Repeated saves *)

(** The history after saving the entries one after the other. *)
Definition saveAll {Entry : Type} (history : list Entry) (entries : list Entry)
  : list Entry :=
  fold_left (fun h e => saveHistory e h) entries history.

(** ** Export *)

(** A value of a row of the table: a string, a Number, or [undefined]
    or [null]. *)
Inductive value : Type :=
| Text (s : string)
| Number (x : num)
| Nullish.

(** A row: its own properties in the order of [Object.keys]. *)
Definition row : Type := list (string * value).

Fixpoint ownValue (r : row) (k : string) : option value :=
  match r with
  | [] => None
  | (k', v) :: r' => if k' =? k then Some v else ownValue r' k
  end.

(** The double quote and the line feed. *)
Definition quote : ascii := ascii_of_nat 34.
Definition newline : string := String (ascii_of_nat 10) EmptyString.

(** [xs.join(sep)] *)
Fixpoint join (sep : string) (xs : list string) : string :=
  match xs with
  | [] => EmptyString
  | [x] => x
  | x :: r => x ++ sep ++ join sep r
  end.

(** The replacement of [esc]: every double quote is doubled. *)
Fixpoint doubleQuotes (s : string) : string :=
  match s with
  | EmptyString => EmptyString
  | String c r =>
      if (c =? quote)%char then String quote (String quote (doubleQuotes r))
      else String c (doubleQuotes r)
  end.

(** An entry of the history as the exports read it: each field a
    string, a Number, or missing.  The piece type, the complexity and
    the units of the lines, which an entry records as well, are read
    by no export and left out. *)
Module Entry.
Record t : Type := mk {
  ts : value;
  currency : value;
  desc : value;
  subtotalMaterials : value;
  subtotal : value;
  laborCost : value;
  totalCost : value;
  piecePrice : value;
  pctMaterials : value;
  pctTotal : value;
  diagnosis : value
}.
End Entry.

(** [saveCurrentToHistory()]: the next value of [history], with [now]
    the text of the current time and [currency] the selected
    currency.  The diagnosis it records is the one the effect has
    stored for the state. *)
Definition saveCurrentToHistory (now currency : string) (st : State)
           (history : list Entry.t) : list Entry.t :=
  let entry :=
    Entry.mk (Text now) (Text currency)
             (Text ("Pieza multi-material ("
                    ++ decimal (List.length (lines st)) ++ " líneas)"))
             (Number (subtotal st)) Nullish
             (Number (laborCost st)) (Number (totalCost st))
             (Number (priceP st)) (Number (pctMaterials st))
             (Number (pctTotal st)) (Text (diagnosis st)) in
  saveHistory entry history.

(** ToBoolean on a value. *)
Definition truthyValue (v : value) : bool :=
  match v with
  | Text s => negb (s =? EmptyString)
  | Number x => Num.truthy x
  | Nullish => false
  end.

(** [v || d] *)
Definition orElse (v d : value) : value := if truthyValue v then v else d.

(** [v ?? d] *)
Definition coalesce (v d : value) : value :=
  match v with Nullish => d | _ => v end.

(** The row [exportCSV] makes of an entry. *)
Definition exportRow (currency : string) (h : Entry.t) : row :=
  [ ("Fecha", Entry.ts h);
    ("Divisa", orElse (Entry.currency h) (Text currency));
    ("Descripcion", orElse (Entry.desc h) (Text "—"));
    ("SubtotalMateriales",
     coalesce (Entry.subtotalMaterials h)
              (coalesce (Entry.subtotal h) (Number Num.zero)));
    ("ManoObra", coalesce (Entry.laborCost h) (Number Num.zero));
    ("CosteTotal", coalesce (Entry.totalCost h) (Number Num.zero));
    ("PrecioPieza", coalesce (Entry.piecePrice h) (Number Num.zero));
    ("PctMateriales", coalesce (Entry.pctMaterials h) (Number Num.zero));
    ("PctTotal", coalesce (Entry.pctTotal h) (Number Num.zero));
    ("Diagnostico", orElse (Entry.diagnosis h) (Text EmptyString)) ].

Section Download.

(** [String(x)] for a Number [x], and for the member of
    [Object.prototype] of a name. *)
Variable numberToString : num -> string.
Variable memberToString : string -> string.

(** [String(r[h] ?? '')]: a name the row does not have reads what
    every object inherits under this name, if anything. *)
Definition cellText (r : row) (h : string) : string :=
  match ownValue r h with
  | Some (Text s) => s
  | Some (Number x) => numberToString x
  | Some Nullish => EmptyString
  | None =>
      if existsb (String.eqb h) objectPrototype then memberToString h
      else EmptyString
  end.

(** [esc], on the string of the value. *)
Definition esc (s : string) : string :=
  String quote (doubleQuotes s ++ String quote EmptyString).

Definition toCSV (rows : list row) : string :=
  match rows with
  | [] => EmptyString
  | r0 :: _ =>
      let headers := map fst r0 in
      let body :=
        join newline
             (map (fun r => join "," (map (fun h => esc (cellText r h)) headers))
                  rows) in
      join newline [join "," headers; body]
  end.

(** The text [exportCSV] offers for download, for the selected
    currency. *)
Definition exportCSV (currency : string) (history : list Entry.t) : string :=
  toCSV (map (exportRow currency) history).

End Download.

(** ** Proof steps *)

(** Case analysis on the condition of a conditional of the goal. *)
Ltac case_if :=
  match goal with
  | |- context [if ?c then _ else _] => destruct c eqn:?
  end.

(* ================================================================== *)
(** * Facts about Numbers *)
(* ================================================================== *)

Local Close Scope num_scope.
Local Close Scope string_scope.

Module NumFacts.

Import Num.

(** ** Bit lengths *)

Lemma digits2_pos_size (p : positive) : digits2_pos p = Pos.size p.
Proof. induction p; simpl; congruence. Qed.

Lemma digits2_pos_lt (p : positive) : Zpos p < 2 ^ Zpos (digits2_pos p).
Proof.
  rewrite digits2_pos_size.
  pose proof (Pos.size_gt p) as H.
  apply Pos2Z.pos_lt_pos in H. rewrite Pos2Z.inj_pow in H. exact H.
Qed.

Lemma digits2_pos_ge (p : positive) : 2 ^ Zpos (digits2_pos p) <= 2 * Zpos p.
Proof.
  rewrite digits2_pos_size.
  pose proof (Pos.size_le p) as H.
  apply Pos2Z.pos_le_pos in H. rewrite Pos2Z.inj_pow in H. exact H.
Qed.

Lemma Zdigits2_nonneg (m : Z) : 0 <= Zdigits2 m.
Proof. destruct m; simpl; lia. Qed.

Lemma Zdigits2_lt (m : Z) : 0 <= m -> m < 2 ^ Zdigits2 m.
Proof.
  destruct m as [|p|p]; simpl Zdigits2; intros H.
  - reflexivity.
  - apply digits2_pos_lt.
  - lia.
Qed.

(** A positive number below [2^k] has at most [k] bits. *)
Lemma digits2_pos_le (p : positive) (k : Z) :
  0 <= k -> Zpos p < 2 ^ k -> Zpos (digits2_pos p) <= k.
Proof.
  intros Hk Hp.
  destruct (Z_le_gt_dec (Zpos (digits2_pos p)) k) as [|Hgt]; [assumption|].
  exfalso.
  pose proof (digits2_pos_ge p) as Hge.
  assert (2 ^ (k + 1) <= 2 ^ Zpos (digits2_pos p))
    by (apply Z.pow_le_mono_r; lia).
  rewrite Z.pow_add_r in H by lia. change (2 ^ 1) with 2 in H.
  assert (0 < 2 ^ k) by (apply Z.pow_pos_nonneg; lia). lia.
Qed.

(** ** Shifting right *)

Lemma shr_1_m (mrs : shr_record) :
  0 <= shr_m mrs -> shr_m (shr_1 mrs) = shr_m mrs / 2.
Proof.
  destruct mrs as [m r s]; simpl; intros H.
  destruct m as [|p|p]; [reflexivity| |lia].
  destruct p as [p|p|]; simpl shr_m.
  - rewrite Pos2Z.inj_xI.
    apply Z.div_unique with (r := 1); lia.
  - rewrite Pos2Z.inj_xO.
    apply Z.div_unique with (r := 0); lia.
  - reflexivity.
Qed.

Lemma iter_shr_1_m (p : positive) (mrs : shr_record) :
  0 <= shr_m mrs ->
  shr_m (iter_pos shr_1 p mrs) = shr_m mrs / 2 ^ Zpos p.
Proof.
  revert mrs.
  induction p as [p IH|p IH|]; intros mrs H; simpl iter_pos.
  - assert (H1 : 0 <= shr_m (shr_1 mrs))
      by (rewrite shr_1_m by assumption; apply Z.div_pos; lia).
    assert (H2 : 0 <= shr_m (iter_pos shr_1 p (shr_1 mrs)))
      by (rewrite IH by assumption; apply Z.div_pos; lia).
    rewrite IH by assumption. rewrite IH by assumption.
    rewrite shr_1_m by assumption.
    rewrite !Z.div_div by lia.
    f_equal.
    replace (Zpos p~1) with (1 + Zpos p + Zpos p) by lia.
    rewrite !Z.pow_add_r by lia. change (2 ^ 1) with 2. ring.
  - assert (H2 : 0 <= shr_m (iter_pos shr_1 p mrs))
      by (rewrite IH by assumption; apply Z.div_pos; lia).
    rewrite IH by assumption. rewrite IH by assumption.
    rewrite !Z.div_div by lia.
    f_equal.
    replace (Zpos p~0) with (Zpos p + Zpos p) by lia.
    rewrite Z.pow_add_r by lia. reflexivity.
  - rewrite shr_1_m by assumption. reflexivity.
Qed.

Lemma shr_record_of_loc_m (m : Z) (l : location) :
  shr_m (shr_record_of_loc m l) = m.
Proof. destruct l as [|[| |]]; reflexivity. Qed.

(** After the shift that [fexp] asks for, the mantissa is below
    [2^53]. *)
Lemma shr_fexp_m (m e : Z) (l : location) :
  0 <= m ->
  0 <= shr_m (fst (shr_fexp prec emax m e l)) < 2 ^ 53.
Proof.
  intros Hm. unfold shr_fexp, shr.
  pose proof (Zdigits2_lt m Hm) as Hd.
  pose proof (Zdigits2_nonneg m) as Hd0.
  assert (Hn : Zdigits2 m - 53 <= fexp prec emax (Zdigits2 m + e) - e)
    by (unfold fexp, prec; lia).
  destruct (fexp prec emax (Zdigits2 m + e) - e) as [|n|n] eqn:En;
    simpl fst.
  - rewrite shr_record_of_loc_m. split; [assumption|].
    apply Z.lt_le_trans with (1 := Hd). apply Z.pow_le_mono_r; lia.
  - rewrite iter_shr_1_m by (rewrite shr_record_of_loc_m; assumption).
    rewrite shr_record_of_loc_m. split.
    + apply Z.div_pos; lia.
    + apply Z.div_lt_upper_bound; [lia|].
      rewrite <- Z.pow_add_r by lia.
      apply Z.lt_le_trans with (1 := Hd). apply Z.pow_le_mono_r; lia.
  - rewrite shr_record_of_loc_m. split; [assumption|].
    apply Z.lt_le_trans with (1 := Hd). apply Z.pow_le_mono_r; lia.
Qed.

Lemma round_nearest_even_nonneg (m : Z) (l : location) :
  0 <= m -> 0 <= round_nearest_even m l.
Proof.
  intros H. destruct l as [|[| |]]; simpl; try lia.
  destruct (Z.even m); lia.
Qed.

(** ** Rounding *)

Lemma binary_round_aux_rounded (s : bool) (m e : Z) (l : location) :
  0 <= m -> rounded s (binary_round_aux prec emax s m e l).
Proof.
  intros Hm. unfold binary_round_aux.
  pose proof (shr_fexp_m m e l Hm) as H1.
  destruct (shr_fexp prec emax m e l) as [mrs1 e1]. simpl fst in H1.
  assert (H2 : 0 <= round_nearest_even (shr_m mrs1) (loc_of_shr_record mrs1))
    by (apply round_nearest_even_nonneg; lia).
  pose proof (shr_fexp_m _ e1 loc_Exact H2) as H3.
  destruct (shr_fexp prec emax _ e1 loc_Exact) as [mrs2 e2]. simpl fst in H3.
  destruct (shr_m mrs2) as [|p|p].
  - constructor.
  - destruct (e2 <=? emax - prec).
    + constructor. apply digits2_pos_le; lia.
    + constructor.
  - lia.
Qed.


Lemma binary_round_rounded (s : bool) (m : positive) (e : Z) :
  rounded s (binary_round prec emax s m e).
Proof.
  unfold binary_round.
  destruct (shl_align m e _) as [mz ez].
  apply binary_round_aux_rounded. lia.
Qed.

Lemma rounded_isNaN (s : bool) (x : num) : rounded s x -> isNaN x = false.
Proof. intros []; reflexivity. Qed.

Lemma rounded_wellFormed (s : bool) (x : num) :
  rounded s x -> wellFormed x = true.
Proof.
  intros [| |m e H]; try reflexivity.
  simpl. apply Z.leb_le. exact H.
Qed.

Lemma rounded_nonneg (x : num) : rounded false x -> nonneg x = true.
Proof. intros []; reflexivity. Qed.

(** ** Integers *)

Lemma binary_normalize_cases (z e : Z) (s0 : bool) :
  binary_normalize prec emax z e s0 = S754_zero s0
  \/ rounded (z <? 0) (binary_normalize prec emax z e s0).
Proof.
  destruct z as [|p|p]; simpl.
  - left; reflexivity.
  - right. apply binary_round_rounded.
  - right. apply binary_round_rounded.
Qed.

Lemma of_Z_isNaN (z : Z) : isNaN (of_Z z) = false.
Proof.
  destruct (binary_normalize_cases z 0 false) as [H|H];
    unfold of_Z; [rewrite H; reflexivity|].
  exact (rounded_isNaN _ _ H).
Qed.

Lemma digits2_pos_iter_xO (p k : positive) :
  Zpos (digits2_pos (Pos.iter xO p k)) = Zpos (digits2_pos p) + Zpos k.
Proof.
  induction k as [|k IH] using Pos.peano_ind.
  - simpl. lia.
  - rewrite Pos.iter_succ. simpl digits2_pos. lia.
Qed.

Lemma iter_xO_mul (p k : positive) :
  Zpos (Pos.iter xO p k) = Zpos p * 2 ^ Zpos k.
Proof.
  induction k as [|k IH] using Pos.peano_ind.
  - simpl. lia.
  - rewrite Pos.iter_succ, Pos2Z.inj_xO, IH, Pos2Z.inj_succ.
    rewrite Z.pow_succ_r by lia. ring.
Qed.

(** A mantissa of exactly 53 bits with an exponent in range is kept
    as it is. *)
Lemma binary_round_aux_exact (s : bool) (m : positive) (e : Z) :
  Zpos (digits2_pos m) = 53 -> -1074 <= e <= 971 ->
  binary_round_aux prec emax s (Zpos m) e loc_Exact = S754_finite s m e.
Proof.
  intros Hd He.
  assert (Hn : fexp prec emax (Zdigits2 (Zpos m) + e) - e = 0)
    by (simpl Zdigits2; rewrite Hd; unfold fexp, emin, prec, emax; lia).
  assert (Hshr : shr_fexp prec emax (Zpos m) e loc_Exact
                 = (Build_shr_record (Zpos m) false false, e))
    by (unfold shr_fexp; rewrite Hn; reflexivity).
  unfold binary_round_aux.
  rewrite Hshr. cbn [shr_m loc_of_shr_record round_nearest_even].
  rewrite Hshr. cbn [shr_m].
  replace (e <=? emax - prec) with true
    by (symmetry; apply Z.leb_le; unfold emax, prec; lia).
  reflexivity.
Qed.

(** The Number of an integer of at most 53 bits is an integer. *)
Lemma binary_round_isInteger (s : bool) (p : positive) :
  Zpos (digits2_pos p) <= 53 ->
  isInteger (binary_round prec emax s p 0) = true.
Proof.
  intros Hd.
  pose proof (digits2_pos_iter_xO p) as Hiter.
  unfold binary_round, shl_align.
  remember (Zpos (digits2_pos p)) as d eqn:Ed.
  assert (H1 : 1 <= d) by lia.
  assert (Hf : fexp prec emax (d + 0) = d - 53)
    by (unfold fexp, emin, prec, emax; lia).
  rewrite Hf.
  destruct (d - 53 - 0) as [|k|k] eqn:Ek; try lia.
  - rewrite binary_round_aux_exact by lia. reflexivity.
  - rewrite binary_round_aux_exact by (rewrite ?Hiter; lia).
    unfold isInteger.
    replace (0 <=? d - 53) with false by (symmetry; apply Z.leb_gt; lia).
    rewrite Bool.orb_false_l. apply Z.eqb_eq.
    replace (- (d - 53)) with (Zpos k) by lia.
    rewrite iter_xO_mul.
    rewrite Z.shiftr_div_pow2, Z.shiftl_mul_pow2 by lia.
    rewrite Z.div_mul; [reflexivity|].
    apply Z.pow_nonzero; lia.
Qed.

Lemma of_Z_isInteger (z : Z) :
  Z.abs z < 2 ^ 53 -> isInteger (of_Z z) = true.
Proof.
  intros H. destruct z as [|p|p]; unfold of_Z; simpl binary_normalize.
  - reflexivity.
  - apply binary_round_isInteger, digits2_pos_le; [lia|exact H].
  - apply binary_round_isInteger, digits2_pos_le; [lia|exact H].
Qed.

(** ** [Math.floor] and [Math.max] *)

Lemma floor_isNaN (x : num) : isFinite x = true -> isNaN (floor x) = false.
Proof.
  destruct x as [s|s| |s m e]; intros H;
    try discriminate H; try reflexivity.
  unfold floor.
  case_if; [reflexivity|].
  destruct s; case_if; try reflexivity; apply of_Z_isNaN.
Qed.

Lemma floor_isInteger (x : num) :
  isFinite x = true -> wellFormed x = true -> isInteger (floor x) = true.
Proof.
  destruct x as [s|s| |s m e]; intros H Hw;
    try discriminate H; try reflexivity.
  unfold wellFormed in Hw. apply Z.leb_le in Hw. unfold prec in Hw.
  unfold floor.
  destruct (0 <=? e) eqn:He.
  - unfold isInteger. rewrite He. reflexivity.
  - apply Z.leb_gt in He.
    pose proof (digits2_pos_lt m) as Hm.
    assert (Hm53 : Zpos m < 2 ^ 53)
      by (apply Z.lt_le_trans with (1 := Hm); apply Z.pow_le_mono_r; lia).
    assert (Hq : 0 <= Z.shiftr (Zpos m) (- e) < 2 ^ 52).
    { rewrite Z.shiftr_div_pow2 by lia. split.
      - apply Z.div_pos; [lia|]. apply Z.pow_pos_nonneg; lia.
      - apply Z.div_lt_upper_bound; [apply Z.pow_pos_nonneg; lia|].
        assert (H2 : 2 ^ 1 <= 2 ^ (- e)) by (apply Z.pow_le_mono_r; lia).
        change (2 ^ 1) with 2 in H2.
        change (2 ^ 53) with (2 * 2 ^ 52) in Hm53.
        assert (0 < 2 ^ 52) by reflexivity. nia. }
    change (2 ^ 52) with 4503599627370496 in Hq.
    destruct s; case_if; try reflexivity;
      apply of_Z_isInteger; change (2 ^ 53) with 9007199254740992; lia.
Qed.

Lemma ltb_leb (x y : num) : SFltb x y = true -> SFleb x y = true.
Proof.
  unfold SFltb, SFleb. destruct (SFcompare x y) as [[| |]|]; congruence.
Qed.

(** [Math.max(1, y)] is [1] or [y], and at least [1]. *)
Lemma max_one (y : num) :
  isNaN y = false ->
  (max (lit "1") y = lit "1" \/ max (lit "1") y = y)
  /\ leb (lit "1") (max (lit "1") y) = true.
Proof.
  intros Hy.
  change (lit "1") with (S754_finite false 4503599627370496 (-52)).
  unfold max, leb.
  destruct y as [s|s| |s m e]; try discriminate;
    match goal with
    | |- context [if SFltb ?a ?b then _ else _] =>
        destruct (SFltb a b) eqn:E1
    end;
    try (split; [right; reflexivity|apply ltb_leb; exact E1]);
    match goal with
    | |- context [if SFltb ?a ?b then _ else _] =>
        destruct (SFltb a b) eqn:E2
    end;
    simpl; split; try (left; reflexivity); reflexivity.
Qed.


(** ** Signs *)

Lemma nonneg_max_zero (x : num) : nonneg (max zero x) = true.
Proof. destruct x as [[]|[]| |[] m e]; reflexivity. Qed.

Lemma div_core_nonneg (m1 e1 m2 e2 : Z) :
  0 <= m1 -> 0 < m2 ->
  0 <= fst (fst (SFdiv_core_binary prec emax m1 e1 m2 e2)).
Proof.
  intros H1 H2. unfold SFdiv_core_binary.
  set (s := e1 - e2 - _).
  set (m' := match s with Zpos _ => Z.shiftl m1 s | 0 => m1 | Zneg _ => 0 end).
  assert (Hm' : 0 <= m').
  { subst m'. destruct s; try lia. apply Z.shiftl_nonneg. assumption. }
  pose proof (Z_div_mod m' m2 ltac:(lia)) as Hdm.
  destruct (Z.div_eucl m' m2) as [q r]. simpl. nia.
Qed.

(** A product is NaN or carries the exclusive or of the signs. *)
Lemma mul_nonneg (x y : num) :
  nonneg x = true -> nonneg y = true -> nonneg (mul x y) = true.
Proof.
  destruct x as [[]|[]| |[] mx ex]; destruct y as [[]|[]| |[] my ey];
    intros Hx Hy; try discriminate; try reflexivity.
  unfold mul, SFmul. apply rounded_nonneg.
  apply binary_round_aux_rounded. lia.
Qed.

Lemma div_nonneg (x y : num) :
  nonneg x = true -> signbit y = false -> nonneg (div x y) = true.
Proof.
  destruct x as [[]|[]| |[] mx ex]; destruct y as [[]|[]| |[] my ey];
    intros Hx Hy; try discriminate; try reflexivity.
  unfold div, SFdiv.
  pose proof (div_core_nonneg (Zpos mx) ex (Zpos my) ey
                ltac:(lia) ltac:(lia)) as Hq.
  destruct (SFdiv_core_binary prec emax (Zpos mx) ex (Zpos my) ey)
    as [[mz ez] lz].
  apply rounded_nonneg. apply binary_round_aux_rounded. exact Hq.
Qed.

Lemma leb_zero_nonneg (x : num) : leb zero x = true -> nonneg x = true.
Proof. destruct x as [[]|[]| |[] m e]; intros H; try discriminate; reflexivity. Qed.

(** Not below zero: at least zero, or NaN. *)
Lemma nonneg_cases (x : num) :
  nonneg x = true -> leb zero x = true \/ isNaN x = true.
Proof.
  destruct x as [[]|[]| |[] m e]; intros H; try discriminate;
    (left; reflexivity) || (right; reflexivity).
Qed.

Lemma nonneg_leb_zero (x : num) :
  nonneg x = true -> isNaN x = false -> leb zero x = true.
Proof. destruct x as [[]|[]| |[] m e]; intros H H'; try discriminate; reflexivity. Qed.

(** ** Results that are not NaN *)

Lemma sub_finite_isNaN (x y : num) :
  isFinite x = true -> isFinite y = true -> isNaN (sub x y) = false.
Proof.
  destruct x as [sx|sx| |sx mx ex]; destruct y as [sy|sy| |sy my ey];
    intros Hx Hy; try discriminate.
  - destruct sx, sy; reflexivity.
  - reflexivity.
  - reflexivity.
  - unfold sub, SFsub.
    destruct (binary_normalize_cases
                (cond_Zopp sx (Zpos (fst (shl_align mx ex (Z.min ex ey))))
                 - cond_Zopp sy (Zpos (fst (shl_align my ey (Z.min ex ey)))))
                (Z.min ex ey) false) as [H|H].
    + rewrite H. reflexivity.
    + exact (rounded_isNaN _ _ H).
Qed.

(** Dividing by a finite Number other than zero. *)
Lemma div_isNaN (x y : num) :
  isNaN x = false -> isFinite y = true -> truthy y = true ->
  isNaN (div x y) = false.
Proof.
  destruct x as [sx|sx| |sx mx ex]; destruct y as [sy|sy| |sy my ey];
    intros Hx Hy Hy'; try discriminate; try reflexivity.
  unfold div, SFdiv.
  pose proof (div_core_nonneg (Zpos mx) ex (Zpos my) ey
                ltac:(lia) ltac:(lia)) as Hq.
  destruct (SFdiv_core_binary prec emax (Zpos mx) ex (Zpos my) ey)
    as [[mz ez] lz].
  apply rounded_isNaN with (s := xorb sx sy).
  apply binary_round_aux_rounded. exact Hq.
Qed.

(** Multiplying by a finite Number other than zero. *)
Lemma mul_isNaN (x y : num) :
  isNaN x = false -> isFinite y = true -> truthy y = true ->
  isNaN (mul x y) = false.
Proof.
  destruct x as [sx|sx| |sx mx ex]; destruct y as [sy|sy| |sy my ey];
    intros Hx Hy Hy'; try discriminate; try reflexivity.
  unfold mul, SFmul.
  apply rounded_isNaN with (s := xorb sx sy).
  apply binary_round_aux_rounded. lia.
Qed.

Lemma gtb_zero_truthy (x : num) : gtb x zero = true -> truthy x = true.
Proof. destruct x as [[]|[]| |[] m e]; intros H; try discriminate; reflexivity. Qed.

Lemma gtb_zero_not_leb (x : num) : gtb x zero = true -> leb x zero = false.
Proof. destruct x as [[]|[]| |[] m e]; intros H; try discriminate; reflexivity. Qed.

Lemma ltb_zero_truthy (x : num) : ltb x zero = true -> truthy x = true.
Proof. destruct x as [[]|[]| |[] m e]; intros H; try discriminate; reflexivity. Qed.

Lemma isFinite_isNaN (x : num) : isFinite x = true -> isNaN x = false.
Proof. destruct x; intros H; try discriminate; reflexivity. Qed.

(** Below zero is below every positive Number. *)
Lemma ltb_zero_gtb_zero (x y : num) :
  ltb x zero = true -> gtb y zero = true -> ltb x y = true.
Proof.
  destruct x as [[]|[]| |[] mx ex]; destruct y as [[]|[]| |[] my ey];
    intros Hx Hy; try discriminate; reflexivity.
Qed.

(** ** Parsing *)

Lemma of_decimal_wellFormed (s : bool) (m e : Z) :
  wellFormed (of_decimal s m e) = true.
Proof.
  unfold of_decimal.
  destruct (m <=? 0) eqn:Hm; [reflexivity|]. apply Z.leb_gt in Hm.
  destruct (0 <=? e) eqn:He.
  - destruct (binary_normalize_cases (cond_Zopp s (m * 10 ^ e)) 0 s) as [H|H].
    + rewrite H. reflexivity.
    + exact (rounded_wellFormed _ _ H).
  - apply Z.leb_gt in He.
    pose proof (div_core_nonneg m 0 (10 ^ (- e)) 0 ltac:(lia)
                  ltac:(apply Z.pow_pos_nonneg; lia)) as Hq.
    destruct (SFdiv_core_binary prec emax m 0 (10 ^ (- e)) 0) as [[q e'] l].
    apply rounded_wellFormed with (s := s).
    apply binary_round_aux_rounded. exact Hq.
Qed.

Lemma parseFloat_wellFormed (v : string) :
  wellFormed (Str.parseFloat v) = true.
Proof.
  unfold Str.parseFloat.
  destruct (Str.readSign (Str.trimStart v)) as [neg s1].
  destruct (prefix "Infinity" s1); [reflexivity|].
  destruct (Str.readDigits s1 0 0) as [[i ni] s2].
  destruct (match s2 with
            | String "."%char r => Str.readDigits r i 0
            | _ => (i, 0, s2)
            end) as [[m nf] s3].
  destruct (ni + nf =? 0); [reflexivity|].
  apply of_decimal_wellFormed.
Qed.

End NumFacts.

(* ================================================================== *)
(** * Coercion *)
(* ================================================================== *)

Local Open Scope string_scope.
Local Open Scope num_scope.

Import NumFacts.

Lemma toNumber_isFinite (v : string) (d : num) :
  Num.isFinite d = true -> Num.isFinite (toNumber v d) = true.
Proof.
  intros Hd. unfold toNumber.
  destruct (Num.isFinite (Str.parseFloat v)) eqn:E; assumption.
Qed.

Lemma toNumber_wellFormed (v : string) (d : num) :
  Num.wellFormed d = true -> Num.wellFormed (toNumber v d) = true.
Proof.
  intros Hd. unfold toNumber.
  destruct (Num.isFinite (Str.parseFloat v));
    [apply parseFloat_wellFormed|assumption].
Qed.

Lemma priceP_isFinite (st : State) : Num.isFinite (priceP st) = true.
Proof. apply toNumber_isFinite. reflexivity. Qed.

(* ================================================================== *)
(** * Diagnosis *)
(* ================================================================== *)

(** A quoted price of -5 against the default labour cost of 60: the
    price is not above zero, yet the label is not empty. *)
Lemma diagnosis_negative_price :
  let st := sampleState "-5" "" in
  priceP st = lit "-5" /\ totalCost st = lit "60"
  /\ (priceP st >? Num.zero) = false
  /\ diagnosis st = "Precio sospechoso"
  /\ specDiagnosis (priceP st) (totalCost st) = ""
  /\ diagnosis st <> specDiagnosis (priceP st) (totalCost st).
Proof. vm_compute. repeat split; discriminate. Qed.

(** C1, amended.  With a price and a total cost above zero the label
    follows the threshold rules in order, with strict comparisons: an
    overage of exactly 40 is "possibly overvalued" and one of exactly
    20 is "reasonable".  The label is empty when the price is zero or
    the total cost is at most zero.  A price below zero with a total
    cost above zero is "suspicious". *)
Theorem diagnosis_by_rules (st : State) :
  let P := priceP st in
  let C := totalCost st in
  ((P >? Num.zero) = true -> (C >? Num.zero) = true ->
   diagnosis st = diagnosisRules P C
   /\ overPctTotal st = ((P - C) / C) * lit "100"
   /\ ((P <? C) = false -> overPctTotal st = lit "40" ->
       diagnosis st = "Posible sobrevaloración")
   /\ ((P <? C) = false -> overPctTotal st = lit "20" ->
       diagnosis st = "Precio razonable"))
  /\ (Num.truthy P = false \/ (C <=? Num.zero) = true -> diagnosis st = "")
  /\ ((P <? Num.zero) = true -> (C >? Num.zero) = true ->
      diagnosis st = "Precio sospechoso").
Proof.
  intros P C. unfold diagnosis, diagnosisRules, overPctTotal.
  fold P C. split; [|split].
  - intros HP HC.
    rewrite (gtb_zero_truthy P HP), (gtb_zero_not_leb C HC), HC.
    cbn [negb orb].
    split; [reflexivity|]. split; [reflexivity|].
    split; intros Hlt Hov; rewrite Hlt, Hov; reflexivity.
  - intros [H|H]; rewrite H; [reflexivity|].
    rewrite Bool.orb_true_r. reflexivity.
  - intros HP HC.
    rewrite (ltb_zero_truthy P HP), (gtb_zero_not_leb C HC).
    rewrite (ltb_zero_gtb_zero P C HP HC). reflexivity.
Qed.

Lemma diagnosis_by_rules_witness :
  diagnosis (sampleState "1400" "1000") = "Posible sobrevaloración"
  /\ diagnosis (sampleState "1200" "1000") = "Precio razonable"
  /\ diagnosis (sampleState "0" "1000") = ""
  /\ diagnosis (sampleState "-5" "") = "Precio sospechoso".
Proof.
  split; [|split; [|split]].
  - destruct (diagnosis_by_rules (sampleState "1400" "1000")) as (H & _).
    specialize (H ltac:(vm_compute; reflexivity) ltac:(vm_compute; reflexivity)).
    destruct H as (_ & _ & H & _). apply H; vm_compute; reflexivity.
  - destruct (diagnosis_by_rules (sampleState "1200" "1000")) as (H & _).
    specialize (H ltac:(vm_compute; reflexivity) ltac:(vm_compute; reflexivity)).
    destruct H as (_ & _ & _ & H). apply H; vm_compute; reflexivity.
  - destruct (diagnosis_by_rules (sampleState "0" "1000")) as (_ & H & _).
    apply H. left. vm_compute. reflexivity.
  - destruct (diagnosis_by_rules (sampleState "-5" "")) as (_ & _ & H).
    apply H; vm_compute; reflexivity.
Defined.

(** The boundary table of the specification. *)
Example diagnosis_table :
  diagnosis (sampleState "1100" "1000") = "Precio razonable"
  /\ diagnosis (sampleState "1300" "1000") = "Posible sobrevaloración"
  /\ diagnosis (sampleState "2000" "1000") = "Sobrevalorado"
  /\ diagnosis (sampleState "900" "1000") = "Precio sospechoso".
Proof. vm_compute. repeat split. Qed.

(* ================================================================== *)
(** * Percentages *)
(* ================================================================== *)

(** Without a unit price and with a weight of 1e308 troy ounces, the
    weight in grams overflows to Infinity, the line cost [0 * Infinity]
    is NaN, and so are the subtotal and the percentages of the price. *)
Lemma percentages_overflow :
  (priceP overflowState >? Num.zero) = true
  /\ map Part.effW (parts overflowState) = [S754_infinity false]
  /\ subtotal overflowState = Num.NaN
  /\ pctMaterials overflowState = Num.NaN
  /\ pctTotal overflowState = Num.NaN
  /\ ~ percentagesDefined overflowState.
Proof.
  repeat (split; [vm_compute; reflexivity|]).
  intros (H & _). vm_compute in H. discriminate H.
Qed.

(** C10, amended.  The percentages of the price are exactly 0 when the
    price is not above zero, and the overage is exactly 0 when the
    total cost is not above zero; otherwise each is the quotient the
    specification gives, by a divisor that is finite (the price) and
    not zero.  When the subtotal and the total cost are finite, no
    percentage is NaN. *)
Theorem percentages_guarded (st : State) :
  ((priceP st >? Num.zero) = false ->
   pctMaterials st = Num.zero /\ pctTotal st = Num.zero)
  /\ ((totalCost st >? Num.zero) = false -> overPctTotal st = Num.zero)
  /\ ((priceP st >? Num.zero) = true ->
      pctMaterials st = (subtotal st / priceP st) * lit "100"
      /\ pctTotal st = (totalCost st / priceP st) * lit "100"
      /\ Num.isFinite (priceP st) = true /\ Num.truthy (priceP st) = true)
  /\ ((totalCost st >? Num.zero) = true ->
      overPctTotal st
      = ((priceP st - totalCost st) / totalCost st) * lit "100"
      /\ Num.truthy (totalCost st) = true)
  /\ (Num.isFinite (subtotal st) = true ->
      Num.isFinite (totalCost st) = true ->
      percentagesDefined st).
Proof.
  pose proof (priceP_isFinite st) as HP.
  unfold percentagesDefined, pctMaterials, pctTotal, overPctTotal.
  split; [|split; [|split; [|split]]].
  - intros H. rewrite H. split; reflexivity.
  - intros H. rewrite H. reflexivity.
  - intros H. rewrite H. repeat split; try assumption.
    apply gtb_zero_truthy. exact H.
  - intros H. rewrite H. split; [reflexivity|].
    apply gtb_zero_truthy. exact H.
  - intros Hs Hc.
    destruct (priceP st >? Num.zero) eqn:EP;
      destruct (totalCost st >? Num.zero) eqn:EC;
      repeat split; try reflexivity;
      apply mul_isNaN; try reflexivity;
      apply div_isNaN;
      auto using isFinite_isNaN, gtb_zero_truthy, sub_finite_isNaN.
Qed.

Lemma percentages_guarded_witness :
  pctMaterials (sampleState "0" "") = Num.zero
  /\ overPctTotal (sampleState "100" "-3") = Num.zero
  /\ pctTotal (sampleState "120" "") = lit "50"
  /\ overPctTotal (sampleState "120" "") = lit "100"
  /\ percentagesDefined (sampleState "120" "").
Proof.
  split; [|split; [|split; [|split]]].
  - destruct (percentages_guarded (sampleState "0" "")) as (H & _).
    apply H. vm_compute. reflexivity.
  - destruct (percentages_guarded (sampleState "100" "-3")) as (_ & H & _).
    apply H. vm_compute. reflexivity.
  - destruct (percentages_guarded (sampleState "120" "")) as (_ & _ & H & _).
    specialize (H ltac:(vm_compute; reflexivity)).
    destruct H as (_ & H & _). rewrite H. vm_compute. reflexivity.
  - destruct (percentages_guarded (sampleState "120" "")) as (_ & _ & _ & H & _).
    specialize (H ltac:(vm_compute; reflexivity)).
    destruct H as (H & _). rewrite H. vm_compute. reflexivity.
  - destruct (percentages_guarded (sampleState "120" "")) as (_ & _ & _ & _ & H).
    apply H; vm_compute; reflexivity.
Defined.

(* ================================================================== *)
(** * Line costing *)
(* ================================================================== *)

Lemma weightFactor_nonneg (unit : string) :
  Num.nonneg (weightFactor unit) = true.
Proof.
  unfold weightFactor, get, WEIGHT_UNITS, ownProperty.
  destruct ("g" =? unit); [reflexivity|].
  destruct ("dwt" =? unit); [reflexivity|].
  destruct ("ozt" =? unit); [reflexivity|].
  destruct (existsb (String.eqb unit) objectPrototype); reflexivity.
Qed.

Lemma leb_one_nonneg (q : num) : (lit "1" <=? q) = true -> Num.nonneg q = true.
Proof.
  change (lit "1") with (S754_finite false 4503599627370496 (-52)).
  destruct q as [[]|[]| |[] m e]; intros H; try discriminate; reflexivity.
Qed.

Lemma qty_facts (all : list Material.t) (ln : Line.t) :
  let q := Part.qty (calcLine all ln) in
  q = Num.max (lit "1") (Num.floor (toNumber (Line.qty ln) (lit "1")))
  /\ Num.isInteger q = true
  /\ (lit "1" <=? q) = true.
Proof.
  cbn zeta. unfold calcLine. cbn [Part.qty].
  split; [reflexivity|].
  assert (Hf : Num.isFinite (toNumber (Line.qty ln) (lit "1")) = true)
    by (apply toNumber_isFinite; reflexivity).
  assert (Hw : Num.wellFormed (toNumber (Line.qty ln) (lit "1")) = true)
    by (apply toNumber_wellFormed; reflexivity).
  destruct (max_one _ (floor_isNaN _ Hf)) as [[E|E] Hle].
  - rewrite E. split; reflexivity.
  - split; [|exact Hle].
    rewrite E. apply floor_isInteger; assumption.
Qed.

(** A line given by weight with a weight of -2 g at 5 per gram, and a
    line given as a box of 1 cubic centimetre with a density of -1:
    both effective quantities are below zero, and so is the cost of the
    first although its unit price is above zero.  A box of 1e200 mm by
    1e200 mm by 0 mm: the product of its sides is [Infinity * 0], and
    the effective quantity is NaN, which is not at least 0 either. *)
Lemma calcLine_negative :
  let p := calcLine MATERIALS (weightLine "5" "-2" "g" "1") in
  let negativeDensity :=
    calcLine MATERIALS
      (dimensionsLine "gold_18k" "-1" "box" "10" "10" "10" "" "" "") in
  let overflow :=
    calcLine MATERIALS
      (dimensionsLine "gold_18k" "15.6" "box" "1e200" "1e200" "0" "" "" "") in
  (Num.zero <=? toNumber "5" Num.zero) = true
  /\ Part.effW p = lit "-2"
  /\ (Num.zero <=? Part.effW p) = false
  /\ Part.cost p = lit "-10"
  /\ (Num.zero <=? Part.cost p) = false
  /\ Part.effW negativeDensity = lit "-1"
  /\ (Num.zero <=? Part.effW negativeDensity) = false
  /\ Part.effW overflow = Num.NaN
  /\ (Num.zero <=? Part.effW overflow) = false.
Proof. vm_compute. repeat split. Qed.

(** The volume [calcLine] computes, one conditional after the other,
    is the volume of the shape. *)
Lemma volume_of_shape (ln : Line.t) :
  (if Line.shape ln =? "volume"
   then toNumber (Line.volumeCM3 ln) Num.zero
   else if Line.shape ln =? "cylinder"
        then volumeFromCylinderMM (toNumber (Line.diameterMM ln) Num.zero)
                                  (toNumber (Line.heightMM ln) Num.zero)
        else if Line.shape ln =? "box"
             then volumeFromBoxMM (toNumber (Line.lengthMM ln) Num.zero)
                                  (toNumber (Line.widthMM ln) Num.zero)
                                  (toNumber (Line.heightMM ln) Num.zero)
             else Num.zero)
  = specVolume ln.
Proof.
  unfold specVolume.
  destruct (Line.shape ln =? "box") eqn:Eb.
  - apply String.eqb_eq in Eb. rewrite Eb. reflexivity.
  - destruct (Line.shape ln =? "cylinder") eqn:Ec.
    + apply String.eqb_eq in Ec. rewrite Ec. reflexivity.
    + reflexivity.
Qed.

Lemma rounded_leb_zero (x : num) :
  Num.rounded false x -> (Num.zero <=? x) = true.
Proof. intros []; reflexivity. Qed.

(** A product of finite Numbers is never NaN: it is finite, or an
    infinity when it overflows. *)
Lemma mul_finite_isNaN (x y : num) :
  Num.isFinite x = true -> Num.isFinite y = true ->
  Num.isNaN (x * y) = false.
Proof.
  destruct x as [sx|sx| |sx mx ex]; destruct y as [sy|sy| |sy my ey];
    intros Hx Hy; try discriminate; try reflexivity.
  unfold Num.mul, SFmul.
  apply rounded_isNaN with (s := xorb sx sy).
  apply binary_round_aux_rounded. lia.
Qed.

(** A finite Number other than zero times a Number that is not NaN. *)
Lemma mul_isNaN_left (x y : num) :
  Num.isFinite x = true -> Num.truthy x = true -> Num.isNaN y = false ->
  Num.isNaN (x * y) = false.
Proof.
  destruct x as [sx|sx| |sx mx ex]; destruct y as [sy|sy| |sy my ey];
    intros Hx Hx' Hy; try discriminate; try reflexivity.
  unfold Num.mul, SFmul.
  apply rounded_isNaN with (s := xorb sx sy).
  apply binary_round_aux_rounded. lia.
Qed.

(** The product of two Numbers that are at least zero is at least
    zero, or NaN when one of them is not finite. *)
Lemma mul_leb_zero (x y : num) :
  (Num.zero <=? x) = true -> (Num.zero <=? y) = true ->
  (Num.zero <=? x * y) = true
  \/ (Num.isNaN (x * y) = true
      /\ (Num.isFinite x = false \/ Num.isFinite y = false)).
Proof.
  intros Hx Hy.
  pose proof (mul_nonneg x y (leb_zero_nonneg _ Hx) (leb_zero_nonneg _ Hy))
    as H.
  destruct (nonneg_cases _ H) as [H'|H']; [left; exact H'|right].
  split; [exact H'|].
  destruct (Num.isFinite x) eqn:Ex; [|left; reflexivity].
  destruct (Num.isFinite y) eqn:Ey; [|right; reflexivity].
  rewrite (mul_finite_isNaN x y Ex Ey) in H'. discriminate H'.
Qed.

Lemma mul_finite_leb_zero (x y : num) :
  (Num.zero <=? x) = true -> (Num.zero <=? y) = true ->
  Num.isFinite x = true -> Num.isFinite y = true ->
  (Num.zero <=? x * y) = true.
Proof.
  intros Hx Hy Fx Fy.
  destruct (mul_leb_zero x y Hx Hy) as [H|(_ & [H|H])];
    [exact H|congruence|congruence].
Qed.

Lemma leb_zero_isNaN (x : num) :
  (Num.zero <=? x) = true -> Num.isNaN x = false.
Proof. destruct x; intros H; try discriminate; reflexivity. Qed.

Lemma div_leb_zero (x y : num) :
  (Num.zero <=? x) = true ->
  Num.isFinite y = true -> (y >? Num.zero) = true ->
  (Num.zero <=? x / y) = true.
Proof.
  intros Hx Fy Hy. apply nonneg_leb_zero.
  - apply div_nonneg; [apply leb_zero_nonneg; exact Hx|].
    destruct y as [[]|[]| |[] m e]; try discriminate; reflexivity.
  - apply div_isNaN; [apply leb_zero_isNaN; exact Hx|exact Fy|].
    apply gtb_zero_truthy. exact Hy.
Qed.

Lemma max_zero_isNaN (x : num) :
  Num.isNaN (Num.max Num.zero x) = true -> Num.isNaN x = true.
Proof. destruct x as [[]|[]| |[] m e]; intros H; try discriminate; reflexivity. Qed.

(** The volume of the shape of a line: it is never below zero when the
    [volumeCM3] entry is not, and it is finite for every shape but the
    box and the cylinder. *)
Lemma specVolume_nonneg (ln : Line.t) :
  (Line.shape ln = "volume" ->
   (Num.zero <=? toNumber (Line.volumeCM3 ln) Num.zero) = true) ->
  Num.nonneg (specVolume ln) = true
  /\ (Num.isFinite (specVolume ln) = false ->
      Line.shape ln = "box" \/ Line.shape ln = "cylinder").
Proof.
  intros Hv. unfold specVolume.
  destruct (Line.shape ln =? "box") eqn:Eb.
  { split; [apply nonneg_max_zero|].
    intros _. left. apply String.eqb_eq. exact Eb. }
  destruct (Line.shape ln =? "cylinder") eqn:Ec.
  { split; [apply nonneg_max_zero|].
    intros _. right. apply String.eqb_eq. exact Ec. }
  destruct (Line.shape ln =? "volume") eqn:Ev.
  - apply String.eqb_eq in Ev. split.
    + apply leb_zero_nonneg, Hv, Ev.
    + intros H. rewrite toNumber_isFinite in H by reflexivity. discriminate H.
  - split; [reflexivity|discriminate].
Qed.

(** The conversion of a volume that is at least zero with a density
    that is at least zero. *)
Lemma specConvert_leb_zero (m : Material.t) (vol dens : num) :
  Num.nonneg vol = true -> Num.isFinite dens = true ->
  (Material.unit m = "€/ct" \/ Material.unit m = "€/g" ->
   (Num.zero <=? dens) = true) ->
  (Num.zero <=? specConvert m vol dens) = true
  \/ (Num.isNaN (specConvert m vol dens) = true
      /\ Num.isFinite vol = false).
Proof.
  intros Hvol Fd Hd.
  destruct (Num.isFinite vol) eqn:Fv.
  - left.
    assert (Hv : (Num.zero <=? vol) = true)
      by (apply nonneg_leb_zero; [exact Hvol|apply isFinite_isNaN; exact Fv]).
    unfold specConvert.
    destruct (Material.unit m =? "€/ct") eqn:Ect.
    + apply String.eqb_eq in Ect. apply div_leb_zero; try reflexivity.
      apply mul_finite_leb_zero; auto.
    + destruct (Material.unit m =? "€/g") eqn:Eg; [|exact Hv].
      apply String.eqb_eq in Eg. apply mul_finite_leb_zero; auto.
  - assert (H : Num.nonneg (specConvert m vol dens) = true).
    { unfold specConvert.
      destruct (Material.unit m =? "€/ct") eqn:Ect.
      - apply String.eqb_eq in Ect.
        apply div_nonneg; [|reflexivity].
        apply mul_nonneg; [exact Hvol|]. apply leb_zero_nonneg. auto.
      - destruct (Material.unit m =? "€/g") eqn:Eg; [|exact Hvol].
        apply String.eqb_eq in Eg.
        apply mul_nonneg; [exact Hvol|]. apply leb_zero_nonneg. auto. }
    destruct (nonneg_cases _ H) as [H'|H']; [left; exact H'|right].
    split; [exact H'|reflexivity].
Qed.

(** The units of a line are a finite Number above zero. *)
Lemma qty_above_zero (all : list Material.t) (ln : Line.t) :
  let q := Part.qty (calcLine all ln) in
  Num.isFinite q = true /\ (q >? Num.zero) = true.
Proof.
  cbn zeta. destruct (qty_facts all ln) as (_ & Hi & Hq).
  revert Hi Hq.
  change (lit "1") with (S754_finite false 4503599627370496 (-52)).
  destruct (Part.qty (calcLine all ln)) as [[]|[]| |[] m e];
    intros Hi Hq; try discriminate; split; reflexivity.
Qed.

(** C2, amended.  The effective quantity of a line is never below zero
    under the conditions of its mode, and NaN only as stated.

    - By weight, when the coerced weight is at least 0: it is at least
      0, except that it is NaN when, and only when, the material is
      priced per gram and the weight unit names what the table of
      units inherits.
    - By dimensions with the diamond formula, whatever the entries: it
      is at least 0, or NaN when [0.0061 * diameter^2] is not finite.
    - By dimensions otherwise, whatever the sides of a box or of a
      cylinder, when the [volumeCM3] entry is at least 0 for the shape
      [volume] and the coerced density is at least 0 for a material
      priced per carat or per gram: it is at least 0, or NaN when the
      volume of the box or of the cylinder is not finite.

    The cost is at least 0 whenever the coerced unit price is and the
    effective quantity is as above, or NaN when the effective quantity
    is not finite. *)
Theorem calcLine_never_negative (all : list Material.t) (ln : Line.t) :
  let p := calcLine all ln in
  let m := findMaterial all (Line.materialKey ln) in
  let diameter := toNumber (Line.diameterMM ln) Num.zero in
  (Line.mode ln <> "dimensions" ->
   (Num.zero <=? toNumber (Line.weightVal ln) Num.zero) = true ->
   (Num.zero <=? Part.effW p) = true
   \/ (Num.isNaN (Part.effW p) = true
       /\ Material.unit m = "€/g"
       /\ get WEIGHT_UNITS (Line.weightUnit ln) = Inherited))
  /\ (Line.mode ln <> "dimensions" -> Material.unit m = "€/g" ->
      get WEIGHT_UNITS (Line.weightUnit ln) = Inherited ->
      Num.isNaN (Part.effW p) = true)
  /\ (Line.mode ln = "dimensions" ->
      Material.key m = "diamond" -> Line.shape ln = "diamond_round" ->
      (Num.zero <=? Part.effW p) = true
      \/ (Num.isNaN (Part.effW p) = true
          /\ Num.isFinite (lit "0.0061" * square diameter) = false))
  /\ (Line.mode ln = "dimensions" ->
      Material.key m <> "diamond" \/ Line.shape ln <> "diamond_round" ->
      (Line.shape ln = "volume" ->
       (Num.zero <=? toNumber (Line.volumeCM3 ln) Num.zero) = true) ->
      (Material.unit m = "€/ct" \/ Material.unit m = "€/g" ->
       (Num.zero <=? toNumber (Line.density ln) DEFAULT_DENSITY) = true) ->
      (Num.zero <=? Part.effW p) = true
      \/ (Num.isNaN (Part.effW p) = true
          /\ Num.isFinite (specVolume ln) = false
          /\ (Line.shape ln = "box" \/ Line.shape ln = "cylinder")))
  /\ ((Num.zero <=? toNumber (Line.unitPrice ln) Num.zero) = true ->
      (Num.zero <=? Part.effW p) = true \/ Num.isNaN (Part.effW p) = true ->
      (Num.zero <=? Part.cost p) = true
      \/ (Num.isNaN (Part.cost p) = true
          /\ Num.isFinite (Part.effW p) = false)).
Proof.
  intros p m diameter.
  split; [|split; [|split; [|split]]].
  - (* by weight *)
    intros Hmode Hw. apply String.eqb_neq in Hmode.
    subst p. unfold calcLine. cbn [Part.effW]. fold m. rewrite Hmode.
    destruct (Material.unit m =? "€/g") eqn:Eg; [|left; exact Hw].
    apply String.eqb_eq in Eg.
    unfold toGrams, weightFactor.
    destruct (Line.weightUnit ln =? "") eqn:Eu.
    + left. apply mul_finite_leb_zero;
        [exact Hw|reflexivity|apply toNumber_isFinite; reflexivity
        |reflexivity].
    + destruct (get WEIGHT_UNITS (Line.weightUnit ln)) as [x| |] eqn:Ex.
      * left.
        assert (Hx : Num.isFinite x = true /\ (Num.zero <=? x) = true
                     /\ Num.truthy x = true).
        { revert Ex. unfold get, WEIGHT_UNITS, ownProperty.
          repeat (case (_ =? Line.weightUnit ln);
                  [intros H; injection H as <-; repeat split|]).
          destruct (existsb _ _); discriminate. }
        destruct Hx as (Fx & Hx & Tx). rewrite Tx.
        apply mul_finite_leb_zero;
          [exact Hw|exact Hx|apply toNumber_isFinite; reflexivity|exact Fx].
      * right. split; [|split; [exact Eg|reflexivity]].
        destruct (toNumber (Line.weightVal ln) Num.zero); reflexivity.
      * left. apply mul_finite_leb_zero;
          [exact Hw|reflexivity|apply toNumber_isFinite; reflexivity
          |reflexivity].
  - (* by weight, in a unit that is inherited *)
    intros Hmode Eg Ex. apply String.eqb_neq in Hmode.
    subst p. unfold calcLine. cbn [Part.effW]. fold m.
    rewrite Hmode, Eg. cbn [String.eqb Ascii.eqb Bool.eqb].
    unfold toGrams, weightFactor.
    destruct (Line.weightUnit ln =? "") eqn:Eu.
    + apply String.eqb_eq in Eu. rewrite Eu in Ex. discriminate Ex.
    + rewrite Ex.
      destruct (toNumber (Line.weightVal ln) Num.zero); reflexivity.
  - (* the diamond formula *)
    intros Hmode Hk Hs.
    subst p. unfold calcLine. cbn [Part.effW]. fold m.
    rewrite Hmode, Hk, Hs. cbn [String.eqb Ascii.eqb Bool.eqb andb].
    unfold estimateDiamondCarats. fold diameter.
    destruct (nonneg_cases _ (nonneg_max_zero
                (lit "0.0061" * square diameter
                 * toNumber (Line.depthMM ln) Num.zero))) as [H|H];
      [left; exact H|right].
    split; [exact H|].
    apply max_zero_isNaN in H.
    destruct (Num.isFinite (lit "0.0061" * square diameter)) eqn:E;
      [|reflexivity].
    rewrite mul_finite_isNaN in H;
      [discriminate H|exact E|apply toNumber_isFinite; reflexivity].
  - (* the other shapes *)
    intros Hmode Hb Hv Hd.
    assert (He : Part.effW p
                 = specConvert m (specVolume ln)
                     (toNumber (Line.density ln) DEFAULT_DENSITY)).
    { subst p. unfold calcLine. cbn [Part.effW]. fold m.
      rewrite Hmode. cbn [String.eqb Ascii.eqb Bool.eqb].
      rewrite volume_of_shape.
      replace ((Material.key m =? "diamond")
               && (Line.shape ln =? "diamond_round"))
        with false; [reflexivity|].
      symmetry. apply Bool.andb_false_iff.
      destruct Hb as [H|H]; [left|right]; apply String.eqb_neq; exact H. }
    rewrite He.
    destruct (specVolume_nonneg ln Hv) as (Hn & Hshape).
    destruct (specConvert_leb_zero m (specVolume ln)
                (toNumber (Line.density ln) DEFAULT_DENSITY) Hn
                ltac:(apply toNumber_isFinite; reflexivity) Hd)
      as [H|(H & F)]; [left; exact H|right].
    split; [exact H|]. split; [exact F|exact (Hshape F)].
  - (* the cost *)
    intros Hu He.
    destruct (qty_above_zero all ln) as (Fq & Hq).
    change (Part.cost p)
      with (toNumber (Line.unitPrice ln) Num.zero * Part.effW p * Part.qty p).
    fold p in Fq, Hq.
    destruct He as [He|He].
    2:{ right. destruct (Part.effW p); try discriminate He.
        split; [|reflexivity].
        destruct (toNumber (Line.unitPrice ln) Num.zero); reflexivity. }
    destruct (mul_leb_zero _ _ Hu He) as [H|(H & [F|F])].
    + left. apply nonneg_leb_zero.
      * apply mul_nonneg; [apply leb_zero_nonneg; exact H|].
        destruct (Part.qty p) as [[]|[]| |[] mq eq];
          try discriminate; reflexivity.
      * apply mul_isNaN; [apply leb_zero_isNaN; exact H|exact Fq|].
        apply gtb_zero_truthy. exact Hq.
    + rewrite toNumber_isFinite in F by reflexivity. discriminate F.
    + right. split; [|exact F].
      destruct (toNumber (Line.unitPrice ln) Num.zero * Part.effW p);
        try discriminate H. reflexivity.
Qed.

Lemma calcLine_never_negative_witness :
  let byWeight := calcLine MATERIALS (weightLine "5" "2" "ozt" "3") in
  let diamond :=
    calcLine MATERIALS
      (dimensionsLine "diamond" "3.52" "diamond_round"
                      "" "" "" "-6.5" "abc" "") in
  let box :=
    calcLine MATERIALS
      (dimensionsLine "gold_18k" "15.6" "box" "-10" "10" "10" "" "" "") in
  (Num.zero <=? Part.effW byWeight) = true
  /\ (Num.zero <=? Part.effW diamond) = true
  /\ (Num.zero <=? Part.effW box) = true
  /\ (Num.zero <=? Part.cost byWeight) = true.
Proof.
  intros byWeight diamond box.
  destruct (calcLine_never_negative MATERIALS (weightLine "5" "2" "ozt" "3"))
    as (Hw & _ & _ & _ & Hc).
  destruct (calcLine_never_negative MATERIALS
              (dimensionsLine "diamond" "3.52" "diamond_round"
                              "" "" "" "-6.5" "abc" ""))
    as (_ & _ & Hd & _).
  destruct (calcLine_never_negative MATERIALS
              (dimensionsLine "gold_18k" "15.6" "box"
                              "-10" "10" "10" "" "" ""))
    as (_ & _ & _ & Hb & _).
  split; [|split; [|split]].
  - destruct Hw as [H|(H & _)];
      [discriminate|vm_compute; reflexivity|exact H
      |vm_compute in H; discriminate H].
  - destruct Hd as [H|(H & _)];
      [reflexivity|reflexivity|reflexivity|exact H
      |vm_compute in H; discriminate H].
  - destruct Hb as [H|(H & _)];
      [reflexivity|right; discriminate|discriminate
      |intros _; vm_compute; reflexivity|exact H
      |vm_compute in H; discriminate H].
  - destruct Hc as [H|(H & _)];
      [vm_compute; reflexivity|left; vm_compute; reflexivity|exact H
      |vm_compute in H; discriminate H].
Defined.

(** C5.  For every raw quantity the multiplier of the line is
    [max(1, floor(toNumber(qty, 1)))]; it is an integer and it is at
    least 1. *)
Theorem calcLine_qty (all : list Material.t) (ln : Line.t) :
  let q := Part.qty (calcLine all ln) in
  q = Num.max (lit "1") (Num.floor (toNumber (Line.qty ln) (lit "1")))
  /\ Num.isInteger q = true
  /\ (lit "1" <=? q) = true.
Proof. exact (qty_facts all ln). Qed.

Example calcLine_qty_samples :
  map (fun q => Part.qty (calcLine MATERIALS (weightLine "" "" "g" q)))
      ["0.5"; "0"; "-3"; "-0.5"; "abc"; ""; "1"; "2.9"; "3"; "1e3"]
  = map lit ["1"; "1"; "1"; "1"; "1"; "1"; "1"; "2"; "3"; "1000"].
Proof. vm_compute. reflexivity. Qed.

(** A unit price of -5 is parsed and kept: it is not coerced to 0, and
    two grams at that price cost -10. *)
Lemma unit_price_negative_kept :
  (Str.parseFloat "-5" <? Num.zero) = true
  /\ toNumber "-5" Num.zero = lit "-5"
  /\ Part.cost (calcLine MATERIALS (weightLine "-5" "2" "g" "1")) = lit "-10"
  /\ ~ specUnitPriceCoercion "-5".
Proof.
  repeat (split; [vm_compute; reflexivity|]).
  intros H. unfold specUnitPriceCoercion in H.
  specialize (H (or_introl eq_refl)). vm_compute in H. discriminate H.
Qed.

Lemma rounded_signbit (s : bool) (x : num) :
  Num.rounded s x -> Num.signbit x = s.
Proof. intros []; reflexivity. Qed.

(** A Number below zero times a Number above zero carries the sign
    bit: the product is below zero, or [-0] when it underflows. *)
Lemma mul_below_above (x y : num) :
  Num.isFinite x = true -> (x <? Num.zero) = true ->
  (y >? Num.zero) = true ->
  Num.signbit (x * y) = true.
Proof.
  destruct x as [[]|[]| |[] mx ex]; destruct y as [[]|[]| |[] my ey];
    intros Hf Hx Hy; try discriminate; try reflexivity.
  unfold Num.mul, SFmul. apply (rounded_signbit true).
  apply binary_round_aux_rounded. lia.
Qed.

(** The sign bit is kept by a product with a finite Number above
    zero. *)
Lemma mul_signbit_above (x y : num) :
  Num.signbit x = true ->
  Num.isFinite y = true -> (y >? Num.zero) = true ->
  Num.signbit (x * y) = true.
Proof.
  destruct x as [[]|[]| |[] mx ex]; destruct y as [[]|[]| |[] my ey];
    intros Hx Hf Hy; try discriminate; try reflexivity.
  unfold Num.mul, SFmul. apply (rounded_signbit true).
  apply binary_round_aux_rounded. lia.
Qed.

Lemma signbit_cases (x : num) :
  Num.signbit x = true -> (x <? Num.zero) = true \/ x = S754_zero true.
Proof.
  destruct x as [[]|[]| |[] m e]; intros H; try discriminate;
    (left; reflexivity) || (right; reflexivity).
Qed.

(** C3, amended.  The cost of a line is the coerced unit price times
    the effective quantity times the multiplier.  A unit price that
    does not parse to a finite Number is coerced to 0; one that does is
    kept as parsed, so a negative unit price stays negative: the unit
    price is defaulted when unparsable and never clamped.  With a
    negative unit price and an effective quantity above zero the cost
    is below zero, or [-0] when the product underflows. *)
Theorem calcLine_cost (all : list Material.t) (ln : Line.t) :
  let p := calcLine all ln in
  let parsed := Str.parseFloat (Line.unitPrice ln) in
  let unitPrice := toNumber (Line.unitPrice ln) Num.zero in
  Part.cost p = unitPrice * Part.effW p * Part.qty p
  /\ (Num.isFinite parsed = false -> unitPrice = Num.zero)
  /\ (Num.isFinite parsed = true -> unitPrice = parsed)
  /\ (Num.isFinite parsed = true -> (parsed <? Num.zero) = true ->
      (unitPrice <? Num.zero) = true)
  /\ ((unitPrice <? Num.zero) = true -> (Part.effW p >? Num.zero) = true ->
      (Part.cost p <? Num.zero) = true \/ Part.cost p = S754_zero true).
Proof.
  cbn zeta.
  split; [reflexivity|].
  split; [|split; [|split]].
  - intros H. unfold toNumber. rewrite H. reflexivity.
  - intros H. unfold toNumber. rewrite H. reflexivity.
  - intros H H'. unfold toNumber. rewrite H. exact H'.
  - intros Hu He. apply signbit_cases.
    destruct (qty_above_zero all ln) as (Hqf & Hq).
    change (Part.cost (calcLine all ln))
      with (toNumber (Line.unitPrice ln) Num.zero
            * Part.effW (calcLine all ln) * Part.qty (calcLine all ln)).
    apply mul_signbit_above; [|exact Hqf|exact Hq].
    apply mul_below_above; [|exact Hu|exact He].
    apply toNumber_isFinite. reflexivity.
Qed.

Lemma calcLine_cost_witness :
  toNumber "abc" Num.zero = Num.zero
  /\ toNumber "-5" Num.zero = Str.parseFloat "-5"
  /\ (toNumber "-5" Num.zero <? Num.zero) = true
  /\ (Part.cost (calcLine MATERIALS (weightLine "-5" "2" "g" "3"))
      <? Num.zero) = true.
Proof.
  split; [|split; [|split]].
  - destruct (calcLine_cost MATERIALS (weightLine "abc" "2" "g" "1"))
      as (_ & H & _).
    apply H. vm_compute. reflexivity.
  - destruct (calcLine_cost MATERIALS (weightLine "-5" "2" "g" "1"))
      as (_ & _ & H & _).
    apply H. vm_compute. reflexivity.
  - destruct (calcLine_cost MATERIALS (weightLine "-5" "2" "g" "1"))
      as (_ & _ & _ & H & _).
    apply H; vm_compute; reflexivity.
  - destruct (calcLine_cost MATERIALS (weightLine "-5" "2" "g" "3"))
      as (_ & _ & _ & _ & H).
    destruct H as [H|H]; [vm_compute; reflexivity|vm_compute; reflexivity
                          |exact H|vm_compute in H; discriminate H].
Defined.

(** ** Lines given by dimensions *)

Lemma find_key (k : string) (l : list Material.t) (m : Material.t) :
  find (fun x => Material.key x =? k) l = Some m -> Material.key m = k.
Proof.
  intros H. apply find_some in H. destruct H as [_ H].
  apply String.eqb_eq. exact H.
Qed.

(** The material of a line has the key [diamond] only when it is the
    diamond entry of the catalogue, whatever the custom materials. *)
Lemma findMaterial_diamond (custom : list Material.t) (k : string) :
  Material.key (findMaterial (MATERIALS ++ custom) k) = "diamond" ->
  findMaterial (MATERIALS ++ custom) k = diamondEntry.
Proof.
  unfold findMaterial.
  destruct (find _ (MATERIALS ++ custom)) as [m|] eqn:E.
  - intros Hm. pose proof (find_key _ _ _ E) as Hk.
    rewrite Hm in Hk. subst k.
    vm_compute in E. injection E as E. symmetry. exact E.
  - intros H. vm_compute in H. discriminate H.
Qed.

(** C4.  For every line in dimensions mode: when the material is the
    diamond entry of the catalogue and the shape is [diamond_round],
    the effective quantity is
    [estimateDiamondCarats(diameterMM, depthMM)], that is
    [max(0, 0.0061 * diameter^2 * depth)]; otherwise it is the volume
    of the shape converted with the density of the line, 2.7 when the
    entry is not numeric.  The volume is [max(0, (l/10)(w/10)(h/10))]
    for a box, [max(0, pi (d/20)(d/20)(h/10))] for a cylinder, the
    [volumeCM3] entry for the shape [volume] and 0 for any other
    shape; the conversion is [(volume * density) / 0.2] for a material
    priced per carat, [volume * density] for one priced per gram, and
    the volume itself otherwise. *)
Theorem calcLine_dimensions (st : State) (ln : Line.t) :
  let m := findMaterial (allMaterials st) (Line.materialKey ln) in
  let p := calcLine (allMaterials st) ln in
  let dens := toNumber (Line.density ln) DEFAULT_DENSITY in
  let l := toNumber (Line.lengthMM ln) Num.zero in
  let w := toNumber (Line.widthMM ln) Num.zero in
  let h := toNumber (Line.heightMM ln) Num.zero in
  let d := toNumber (Line.diameterMM ln) Num.zero in
  let depth := toNumber (Line.depthMM ln) Num.zero in
  Line.mode ln = "dimensions" ->
  (Material.key m = "diamond" <-> m = diamondEntry)
  /\ (m = diamondEntry -> Line.shape ln = "diamond_round" ->
      Part.effW p = estimateDiamondCarats d depth
      /\ Part.effW p = Num.max Num.zero (lit "0.0061" * (d * d) * depth))
  /\ (m <> diamondEntry \/ Line.shape ln <> "diamond_round" ->
      Part.effW p = specConvert m (specVolume ln) dens
      /\ (Line.shape ln = "box" ->
          Part.effW p
          = specConvert m
              (Num.max Num.zero
                 ((l / lit "10") * (w / lit "10") * (h / lit "10")))
              dens)
      /\ (Line.shape ln = "cylinder" ->
          Part.effW p
          = specConvert m
              (Num.max Num.zero
                 (PI * (d / lit "20") * (d / lit "20") * (h / lit "10")))
              dens)
      /\ (Line.shape ln = "volume" ->
          Part.effW p
          = specConvert m (toNumber (Line.volumeCM3 ln) Num.zero) dens)
      /\ (Line.shape ln <> "box" -> Line.shape ln <> "cylinder" ->
          Line.shape ln <> "volume" ->
          Part.effW p = specConvert m Num.zero dens))
  /\ (forall vol,
        (Material.unit m = "€/ct" ->
         specConvert m vol dens = (vol * dens) / lit "0.2")
        /\ (Material.unit m = "€/g" -> specConvert m vol dens = vol * dens)
        /\ (Material.unit m <> "€/ct" -> Material.unit m <> "€/g" ->
            specConvert m vol dens = vol))
  /\ (Num.isFinite (Str.parseFloat (Line.density ln)) = false ->
      dens = lit "2.7").
Proof.
  intros m p dens l w h d depth Hmode.
  assert (Hd : Material.key m = "diamond" <-> m = diamondEntry).
  { split.
    - apply findMaterial_diamond.
    - intros H. rewrite H. reflexivity. }
  split; [exact Hd|].
  assert (He : m <> diamondEntry \/ Line.shape ln <> "diamond_round" ->
               Part.effW p = specConvert m (specVolume ln) dens).
  { intros H. subst p. unfold calcLine. cbn [Part.effW]. fold m. fold dens.
    rewrite Hmode. cbn [String.eqb Ascii.eqb Bool.eqb].
    rewrite volume_of_shape.
    replace ((Material.key m =? "diamond") && (Line.shape ln =? "diamond_round"))
      with false; [reflexivity|].
    symmetry. apply Bool.andb_false_iff.
    destruct H as [H|H]; [left|right]; apply String.eqb_neq.
    - intros Hk. apply H, Hd, Hk.
    - exact H. }
  split; [|split; [|split]].
  - intros Hm Hs. subst p. unfold calcLine. cbn [Part.effW]. fold m.
    rewrite Hmode, Hm, Hs. split; reflexivity.
  - intros H. specialize (He H). split; [exact He|].
    rewrite He. unfold specVolume. fold l. fold w. fold h. fold d.
    split; [|split; [|split]].
    + intros ->. reflexivity.
    + intros ->. reflexivity.
    + intros ->. reflexivity.
    + intros Hb Hc Hv. apply String.eqb_neq in Hb, Hc, Hv.
      rewrite Hb, Hc, Hv. reflexivity.
  - intros vol. unfold specConvert. split; [|split].
    + intros ->. reflexivity.
    + intros ->. reflexivity.
    + intros Hct Hg. apply String.eqb_neq in Hct, Hg.
      rewrite Hct, Hg. reflexivity.
  - intros H. subst dens. unfold toNumber. rewrite H. reflexivity.
Qed.

Lemma calcLine_dimensions_witness :
  Part.effW (calcLine MATERIALS
               (dimensionsLine "diamond" "3.52" "diamond_round"
                               "" "" "" "6.5" "4" ""))
  = estimateDiamondCarats (lit "6.5") (lit "4")
  /\ Part.effW (calcLine MATERIALS
                  (dimensionsLine "ruby" "4.0" "box" "10" "10" "10" "" "" ""))
     = (lit "1" * lit "4") / lit "0.2"
  /\ Part.effW (calcLine MATERIALS
                  (dimensionsLine "gold_18k" "2" "cylinder"
                                  "" "" "10" "10" "" ""))
     = lit "0.7853981633974483" * lit "2".
Proof.
  split; [|split].
  - destruct (calcLine_dimensions
                (mkState [] anillo_fino media "" [] "")
                (dimensionsLine "diamond" "3.52" "diamond_round"
                                "" "" "" "6.5" "4" "") eq_refl)
      as (_ & H & _).
    destruct (H eq_refl eq_refl) as (H1 & _). exact H1.
  - destruct (calcLine_dimensions
                (mkState [] anillo_fino media "" [] "")
                (dimensionsLine "ruby" "4.0" "box" "10" "10" "10" "" "" "")
                eq_refl)
      as (_ & _ & H & _).
    destruct H as (_ & H & _); [right; discriminate|].
    refine (eq_trans (H eq_refl) _).
    vm_compute. reflexivity.
  - destruct (calcLine_dimensions
                (mkState [] anillo_fino media "" [] "")
                (dimensionsLine "gold_18k" "2" "cylinder"
                                "" "" "10" "10" "" "")
                eq_refl)
      as (_ & _ & H & _).
    destruct H as (_ & _ & H & _); [right; discriminate|].
    refine (eq_trans (H eq_refl) _).
    vm_compute. reflexivity.
Defined.

(* ================================================================== *)
(** * Weights *)
(* ================================================================== *)

(** The unit [constructor] names a member every object inherits: the
    read [WEIGHT_UNITS[unit]] gives that member, not [undefined], and
    the product is NaN, not the value times 1. *)
Lemma toGrams_inherited :
  ownProperty WEIGHT_UNITS "constructor" = None
  /\ hasProperty WEIGHT_UNITS "constructor" = true
  /\ toGrams "2" "constructor" = Num.NaN
  /\ specToGrams "2" "constructor" = lit "2"
  /\ toGrams "2" "constructor" <> specToGrams "2" "constructor".
Proof. vm_compute. repeat split. discriminate. Qed.

(** C6, amended.  [toGrams(value, unit)] is the coerced value times 1
    for [g], 1.555 for [dwt] and 31.103 for [ozt]; a unit that names no
    property of the table, neither one of these three nor a member
    every object inherits, has factor 1; a value that is not numeric,
    the empty one included, counts as 0.  One troy ounce is 31.103 g
    and ten pennyweights are 15.55 g within 0.01. *)
Theorem toGrams_factor (val unit : string) :
  toGrams val "g" = toNumber val Num.zero * lit "1"
  /\ toGrams val "dwt" = toNumber val Num.zero * lit "1.555"
  /\ toGrams val "ozt" = toNumber val Num.zero * lit "31.103"
  /\ (hasProperty WEIGHT_UNITS unit = false ->
      toGrams val unit = toNumber val Num.zero * lit "1")
  /\ (existsb (String.eqb unit) objectPrototype = false ->
      toGrams val unit = specToGrams val unit)
  /\ (Num.isFinite (Str.parseFloat val) = true ->
      toNumber val Num.zero = Str.parseFloat val)
  /\ (Num.isFinite (Str.parseFloat val) = false ->
      toNumber val Num.zero = Num.zero)
  /\ toNumber "" Num.zero = Num.zero
  /\ toGrams "1" "ozt" = lit "31.103"
  /\ (Num.abs (toGrams "10" "dwt" - lit "15.55") <? lit "1e-2") = true.
Proof.
  repeat (split; [reflexivity|]).
  split; [|split; [|split; [|split]]].
  - unfold hasProperty, toGrams, weightFactor.
    destruct (get WEIGHT_UNITS unit); intros H; try discriminate H.
    reflexivity.
  - unfold specToGrams, toGrams, weightFactor, specFactor, get,
      WEIGHT_UNITS, ownProperty.
    intros H. rewrite H.
    rewrite (String.eqb_sym "g"), (String.eqb_sym "dwt"),
      (String.eqb_sym "ozt").
    destruct (unit =? "g"); [reflexivity|].
    destruct (unit =? "dwt"); [reflexivity|].
    destruct (unit =? "ozt"); reflexivity.
  - unfold toNumber. intros H. rewrite H. reflexivity.
  - unfold toNumber. intros H. rewrite H. reflexivity.
  - vm_compute. repeat split.
Qed.

Lemma toGrams_factor_witness :
  toGrams "2" "ct" = toNumber "2" Num.zero * lit "1"
  /\ toGrams "2" "cm3" = specToGrams "2" "cm3"
  /\ toNumber "2.5" Num.zero = Str.parseFloat "2.5"
  /\ toNumber "dos" Num.zero = Num.zero.
Proof.
  split; [|split; [|split]].
  - destruct (toGrams_factor "2" "ct") as (_ & _ & _ & H & _).
    apply H. vm_compute. reflexivity.
  - destruct (toGrams_factor "2" "cm3") as (_ & _ & _ & _ & H & _).
    apply H. vm_compute. reflexivity.
  - destruct (toGrams_factor "2.5" "g") as (_ & _ & _ & _ & _ & H & _).
    apply H. vm_compute. reflexivity.
  - destruct (toGrams_factor "dos" "g") as (_ & _ & _ & _ & _ & _ & H & _).
    apply H. vm_compute. reflexivity.
Defined.

(* ================================================================== *)
(** * Alias resolution *)
(* ================================================================== *)

Section Find.
Context {A : Type} (f : A -> bool).

Lemma find_first (l : list A) (x : A) :
  find f l = Some x <->
  exists pre post,
    l = (pre ++ x :: post)%list
    /\ Forall (fun y => f y = false) pre
    /\ f x = true.
Proof.
  induction l as [|a l IH]; simpl.
  - split; [discriminate|].
    intros (pre & post & H & _). destruct pre; discriminate H.
  - destruct (f a) eqn:Ea.
    + split.
      * intros H. injection H as <-.
        exists [], l. repeat split; [constructor|exact Ea].
      * intros (pre & post & H & Hpre & Hx).
        destruct pre as [|b pre]; simpl in H; injection H as <- ->.
        -- reflexivity.
        -- inversion Hpre; congruence.
    + rewrite IH. split.
      * intros (pre & post & -> & Hpre & Hx).
        exists (a :: pre), post. repeat split; [constructor|]; assumption.
      * intros (pre & post & H & Hpre & Hx).
        destruct pre as [|b pre]; simpl in H; injection H as <- ->.
        -- congruence.
        -- exists pre, post. inversion Hpre. repeat split; assumption.
Qed.

Lemma find_nothing (l : list A) :
  find f l = None <-> Forall (fun y => f y = false) l.
Proof.
  induction l as [|a l IH]; simpl.
  - split; [constructor|reflexivity].
  - destruct (f a) eqn:Ea.
    + split; [discriminate|]. intros H. inversion H; congruence.
    + rewrite IH. split.
      * intros H. constructor; assumption.
      * intros H. inversion H; assumption.
Qed.

End Find.

(** C7.  The resolver trims the text and gives nothing for an empty
    one; otherwise it gives the key of the first rule, in the order of
    declaration, whose pattern matches, and nothing when no rule
    matches.  [750/1000] is 18k gold, [925] is silver 925, and a text
    no rule matches gives nothing. *)
Theorem detectMaterialFromAlias_first_match (txt : string) :
  let s := Str.trim txt in
  let matches (rule : Rule.t) := RegExp.test (Rule.test rule) s in
  (s = "" -> detectMaterialFromAlias txt = None)
  /\ (s <> "" -> forall k,
      detectMaterialFromAlias txt = Some k <->
      exists pre rule post,
        EQUIVALENCE_RULES = (pre ++ rule :: post)%list
        /\ Forall (fun r => matches r = false) pre
        /\ matches rule = true
        /\ Rule.key rule = k)
  /\ (s <> "" ->
      (detectMaterialFromAlias txt = None <->
       Forall (fun r => matches r = false) EQUIVALENCE_RULES))
  /\ detectMaterialFromAlias "750/1000" = Some "gold_18k"
  /\ detectMaterialFromAlias "925" = Some "silver_925"
  /\ detectMaterialFromAlias "chapado en oro" = None.
Proof.
  intros s matches. unfold detectMaterialFromAlias. fold s.
  split; [|split; [|split]].
  - intros H. rewrite H. reflexivity.
  - intros H k. apply String.eqb_neq in H. rewrite H.
    fold matches.
    destruct (find matches EQUIVALENCE_RULES) as [rule|] eqn:E.
    + split.
      * intros Hk. injection Hk as <-.
        apply find_first in E. destruct E as (pre & post & E1 & E2 & E3).
        exists pre, rule, post. repeat split; assumption.
      * intros (pre & rule' & post & E1 & E2 & E3 & <-).
        assert (E' : find matches EQUIVALENCE_RULES = Some rule')
          by (apply find_first; exists pre, post; repeat split; assumption).
        congruence.
    + split; [discriminate|].
      intros (pre & rule' & post & E1 & E2 & E3 & _).
      assert (E' : find matches EQUIVALENCE_RULES = Some rule')
        by (apply find_first; exists pre, post; repeat split; assumption).
      congruence.
  - intros H. apply String.eqb_neq in H. rewrite H.
    fold matches. rewrite <- find_nothing.
    destruct (find matches EQUIVALENCE_RULES); split; congruence.
  - vm_compute. repeat split.
Qed.

Example alias_samples :
  map detectMaterialFromAlias
      [ "750"; "18k"; "18 K"; "18 karat"; "Oro  18k"; "585/1000"; "14K";
        "999"; "24k oro"; "Plata de ley"; "STERLING"; "950 pt"; "pt950";
        "platino 950" ]
  = map Some
      [ "gold_18k"; "gold_18k"; "gold_18k"; "gold_18k"; "gold_18k";
        "gold_14k"; "gold_14k"; "gold_24k"; "gold_24k"; "silver_925";
        "silver_925"; "platinum_950"; "platinum_950"; "platinum_950" ]
  /\ map detectMaterialFromAlias
         [ ""; "  "; "7500"; "x925"; "18kt"; "sterlings"; "950"; "oro" ]
     = map (fun _ => None) [ 1; 2; 3; 4; 5; 6; 7; 8 ]%nat.
Proof. vm_compute. split; reflexivity. Qed.

Lemma detectMaterialFromAlias_first_match_witness :
  detectMaterialFromAlias "   " = None
  /\ detectMaterialFromAlias "Oro 18K, 925" = Some "gold_18k".
Proof.
  split.
  - destruct (detectMaterialFromAlias_first_match "   ") as (H & _).
    apply H. vm_compute. reflexivity.
  - destruct (detectMaterialFromAlias_first_match "Oro 18K, 925")
      as (_ & H & _).
    apply H; [vm_compute; discriminate|].
    exists [], (nth 0 EQUIVALENCE_RULES (Rule.mk RegExp.Empty "")),
      (tl EQUIVALENCE_RULES).
    split; [reflexivity|].
    split; [constructor|].
    split; vm_compute; reflexivity.
Defined.

(* ================================================================== *)
(** * History *)
(* ================================================================== *)

Local Close Scope num_scope.
Local Open Scope nat_scope.

Lemma saveHistory_cons {Entry : Type} (e : Entry) (history : list Entry) :
  saveHistory e history = e :: firstn 499 history.
Proof. unfold saveHistory. change 500 with (S 499). apply firstn_cons. Qed.

Lemma saveHistory_length {Entry : Type} (e : Entry) (history : list Entry) :
  List.length (saveHistory e history) <= 500.
Proof. unfold saveHistory. apply firstn_le_length. Qed.

(** C8.  From a history of at most 500 entries, after each save of a
    sequence the history has at most 500 entries and the entry just
    saved is at its front, before the entries that were there: all of
    them when they were fewer than 500, and all but the last one, the
    oldest, when they were 500. *)
Theorem saveHistory_capped {Entry : Type} (history entries : list Entry) :
  List.length history <= 500 ->
  Forall
    (fun '(e, before, after) =>
       after = saveHistory e before
       /\ List.length before <= 500
       /\ List.length after <= 500
       /\ hd_error after = Some e
       /\ (List.length before < 500 -> after = e :: before)
       /\ (List.length before = 500 -> after = e :: removelast before))
    (saves history entries).
Proof.
  revert history.
  induction entries as [|e entries IH]; intros history Hlen; simpl.
  - constructor.
  - constructor.
    + split; [reflexivity|]. split; [exact Hlen|].
      split; [apply saveHistory_length|].
      rewrite saveHistory_cons.
      split; [reflexivity|]. split.
      * intros H. rewrite firstn_all2 by lia. reflexivity.
      * intros H. rewrite removelast_firstn_len, H. reflexivity.
    + apply IH. apply saveHistory_length.
Qed.

Lemma saveHistory_capped_witness :
  Forall
    (fun '(e, before, after) =>
       after = saveHistory e before
       /\ List.length before <= 500
       /\ List.length after <= 500
       /\ hd_error after = Some e
       /\ (List.length before < 500 -> after = e :: before)
       /\ (List.length before = 500 -> after = e :: removelast before))
    (saves (7 :: repeat 0 499) [8; 9])
  /\ saveHistory 8 (7 :: repeat 0 498 ++ [1]) = 8 :: 7 :: repeat 0 498.
Proof.
  assert (H : List.length (7 :: repeat 0 499) <= 500)
    by (rewrite length_cons, repeat_length; lia).
  split.
  - exact (saveHistory_capped (7 :: repeat 0 499) [8; 9] H).
  - assert (H2 : List.length ((7 :: repeat 0 498) ++ [1]) = 500)
      by (rewrite length_app, length_cons, repeat_length; reflexivity).
    pose proof (saveHistory_capped ((7 :: repeat 0 498) ++ [1]) [8]
                  ltac:(lia)) as H1.
    apply Forall_inv in H1.
    destruct H1 as (_ & _ & _ & _ & _ & Hfull).
    change (7 :: repeat 0 498 ++ [1])%list with ((7 :: repeat 0 498) ++ [1])%list.
    rewrite (Hfull H2), removelast_last. reflexivity.
Defined.

(* ================================================================== *)
(** * Totals *)
(* ================================================================== *)

Local Close Scope nat_scope.
Local Open Scope num_scope.

(** Is the material counted in grams? *)
Lemma unitFor_cases (m : Material.t) :
  (Material.unit m = "€/g" -> unitFor m = "g")
  /\ (Material.unit m = "€/ct" -> unitFor m = "ct")
  /\ (Material.unit m = "€/cm3" -> unitFor m = "cm3").
Proof.
  unfold unitFor. repeat split; intros H; rewrite H; reflexivity.
Qed.

Lemma totalWeightG_from (all : list Material.t) (pre suf : list Line.t)
      (a : num) :
  reduce
    (fun a b i =>
       let m :=
         match nth_error (pre ++ suf) i with
         | Some ln => findMaterial all (Line.materialKey ln)
         | None => MATERIALS_0
         end in
       let matUnit := unitFor m in
       if matUnit =? "g" then a + (Part.effW b * Part.qty b) else a)
    (map (calcLine all) suf) (List.length pre) a
  = fold_left
      (fun a ln =>
         a + Part.effW (calcLine all ln) * Part.qty (calcLine all ln))
      (filter
         (fun ln => unitFor (findMaterial all (Line.materialKey ln)) =? "g")
         suf)
      a.
Proof.
  revert pre a.
  induction suf as [|ln suf IH]; intros pre a; [reflexivity|].
  cbn [map reduce filter].
  replace (nth_error (pre ++ ln :: suf) (List.length pre)) with (Some ln)
    by (rewrite nth_error_app2, Nat.sub_diag by lia; reflexivity).
  cbn zeta.
  specialize (IH (pre ++ [ln])%list).
  rewrite length_app, Nat.add_1_r, <- app_assoc in IH. cbn [app] in IH.
  rewrite IH.
  destruct (unitFor (findMaterial all (Line.materialKey ln)) =? "g");
    reflexivity.
Qed.

(** C9.  The total weight in grams is the sum, in the order of the
    lines, of effective quantity times multiplier over exactly the
    lines whose material is counted in grams; a line whose material is
    priced per carat or per volume adds nothing. *)
Theorem totalWeightG_per_gram (st : State) :
  let material ln := findMaterial (allMaterials st) (Line.materialKey ln) in
  let part := calcLine (allMaterials st) in
  totalWeightG st
  = fold_left
      (fun a ln => a + Part.effW (part ln) * Part.qty (part ln))
      (filter (fun ln => unitFor (material ln) =? "g") (lines st))
      Num.zero
  /\ (forall ln, Part.m (part ln) = material ln)
  /\ (forall ln, Material.unit (material ln) = "€/g" ->
      (unitFor (material ln) =? "g") = true)
  /\ (forall ln,
      Material.unit (material ln) = "€/ct"
      \/ Material.unit (material ln) = "€/cm3" ->
      (unitFor (material ln) =? "g") = false).
Proof.
  cbn zeta. split; [|split; [|split]].
  - unfold totalWeightG, parts.
    exact (totalWeightG_from (allMaterials st) [] (lines st) Num.zero).
  - reflexivity.
  - intros ln H. unfold unitFor. rewrite H. reflexivity.
  - intros ln [H|H]; unfold unitFor; rewrite H; reflexivity.
Qed.

Example totalWeightG_sample :
  let st :=
    mkState [] anillo_fino media ""
            [ weightLine "50" "2" "ozt" "3";
              dimensionsLine "diamond" "3.52" "diamond_round"
                             "" "" "" "6.5" "4" "";
              weightLine "1" "10" "g" "1" ] "" in
  totalWeightG st = (Num.zero + lit "2" * lit "31.103" * lit "3")
                    + lit "10" * lit "1" * lit "1".
Proof. vm_compute. reflexivity. Qed.

(* ================================================================== *)
(** * Resolution of materials *)
(* ================================================================== *)

Lemma find_app {A : Type} (f : A -> bool) (l1 l2 : list A) :
  find f (l1 ++ l2)%list
  = match find f l1 with Some x => Some x | None => find f l2 end.
Proof.
  induction l1 as [|a l1 IH]; simpl; [reflexivity|].
  destruct (f a); [reflexivity|exact IH].
Qed.

Lemma find_by_key (l : list Material.t) (k : string) :
  In k (map Material.key l) ->
  exists m, find (fun x => Material.key x =? k) l = Some m
            /\ In m l /\ Material.key m = k.
Proof.
  intros H. destruct (find (fun x => Material.key x =? k) l) as [m|] eqn:E.
  - exists m. split; [reflexivity|]. split.
    + apply find_some in E. apply E.
    + apply (find_key _ _ _ E).
  - exfalso. rewrite find_nothing in E. rewrite Forall_forall in E.
    apply in_map_iff in H. destruct H as (m & Hk & Hin).
    specialize (E m Hin). cbv beta in E. rewrite Hk, String.eqb_refl in E.
    discriminate E.
Qed.

Lemma findMaterial_known (custom : list Material.t) (k : string) :
  In k (map Material.key MATERIALS) ->
  findMaterial (MATERIALS ++ custom) k = findMaterial MATERIALS k
  /\ In (findMaterial MATERIALS k) MATERIALS
  /\ Material.key (findMaterial MATERIALS k) = k.
Proof.
  intros H. destruct (find_by_key _ _ H) as (m & E & Hin & Hk).
  unfold findMaterial. rewrite find_app, E. repeat split; assumption.
Qed.

Lemma findMaterial_unknown (all : list Material.t) (k : string) :
  ~ In k (map Material.key all) -> findMaterial all k = MATERIALS_0.
Proof.
  intros H. unfold findMaterial.
  destruct (find _ all) as [m|] eqn:E; [|reflexivity].
  exfalso. apply H. apply in_map_iff. exists m. split.
  - apply (find_key _ _ _ E).
  - apply find_some in E. apply E.
Qed.

Lemma findMaterial_first (custom : list Material.t) :
  findMaterial (MATERIALS ++ custom) "gold_24k" = MATERIALS_0.
Proof. reflexivity. Qed.

(** [calcLine] reads the key of the line only to resolve its
    material. *)
Lemma calcLine_material (all all' : list Material.t) (ln ln' : Line.t) :
  findMaterial all (Line.materialKey ln) = findMaterial all' (Line.materialKey ln') ->
  Line.unitPrice ln = Line.unitPrice ln' ->
  Line.density ln = Line.density ln' ->
  Line.mode ln = Line.mode ln' ->
  Line.qty ln = Line.qty ln' ->
  Line.weightVal ln = Line.weightVal ln' ->
  Line.weightUnit ln = Line.weightUnit ln' ->
  Line.shape ln = Line.shape ln' ->
  Line.lengthMM ln = Line.lengthMM ln' ->
  Line.widthMM ln = Line.widthMM ln' ->
  Line.heightMM ln = Line.heightMM ln' ->
  Line.diameterMM ln = Line.diameterMM ln' ->
  Line.depthMM ln = Line.depthMM ln' ->
  Line.volumeCM3 ln = Line.volumeCM3 ln' ->
  calcLine all ln = calcLine all' ln'.
Proof.
  intros Hm. unfold calcLine. rewrite Hm.
  destruct ln, ln'. cbn [Line.unitPrice Line.density Line.mode Line.qty
    Line.weightVal Line.weightUnit Line.shape Line.lengthMM Line.widthMM
    Line.heightMM Line.diameterMM Line.depthMM Line.volumeCM3].
  intros; subst. reflexivity.
Qed.

(** X1.  A key of the catalogue resolves to the entry of the catalogue
    whatever the custom materials are, since the catalogue comes first
    in the list that is searched: a custom material with the key of a
    catalogue entry is never found, and the line is costed as without
    custom materials. *)
Theorem findMaterial_catalogue (custom : list Material.t) (ln : Line.t) :
  In (Line.materialKey ln) (map Material.key MATERIALS) ->
  findMaterial (MATERIALS ++ custom) (Line.materialKey ln)
  = findMaterial MATERIALS (Line.materialKey ln)
  /\ In (findMaterial (MATERIALS ++ custom) (Line.materialKey ln)) MATERIALS
  /\ Material.key (findMaterial (MATERIALS ++ custom) (Line.materialKey ln))
     = Line.materialKey ln
  /\ calcLine (MATERIALS ++ custom) ln = calcLine MATERIALS ln.
Proof.
  intros H. destruct (findMaterial_known custom _ H) as (E & Hin & Hk).
  rewrite E. split; [reflexivity|]. split; [exact Hin|]. split; [exact Hk|].
  apply calcLine_material; (exact E || reflexivity).
Qed.

Lemma findMaterial_catalogue_witness :
  let ln := dimensionsLine "ruby" "4.0" "box" "1" "1" "1" "" "" "" in
  let custom := [Material.mk "ruby" "€/g" (lit "1")] in
  Material.unit (findMaterial (MATERIALS ++ custom) (Line.materialKey ln)) = "€/ct".
Proof.
  intros ln custom.
  destruct (findMaterial_catalogue custom ln) as (E & _).
  - cbv [ln dimensionsLine Line.materialKey MATERIALS MATERIALS_0 map Material.key In].
    do 10 right. left. reflexivity.
  - rewrite E. reflexivity.
Defined.

(** X2.  A line whose key names no material, of the catalogue or
    custom, is costed as a line of 24k gold, the first entry of the
    catalogue, with the same entries. *)
Theorem calcLine_unknown_material (custom : list Material.t) (ln : Line.t) :
  ~ In (Line.materialKey ln) (map Material.key (MATERIALS ++ custom)) ->
  Part.m (calcLine (MATERIALS ++ custom) ln) = MATERIALS_0
  /\ calcLine (MATERIALS ++ custom) ln
     = calcLine (MATERIALS ++ custom) (Field.set Field.materialKey "gold_24k" ln).
Proof.
  intros H. pose proof (findMaterial_unknown _ _ H) as E.
  split; [exact E|].
  apply calcLine_material; try (destruct ln; reflexivity).
  rewrite E. destruct ln. reflexivity.
Qed.

Lemma calcLine_unknown_material_witness :
  Part.cost (calcLine MATERIALS (Field.set Field.materialKey "tin" (weightLine "2" "3" "g" "1")))
  = lit "6".
Proof.
  destruct (calcLine_unknown_material []
              (Field.set Field.materialKey "tin" (weightLine "2" "3" "g" "1")))
    as (_ & E).
  - vm_compute. intuition discriminate.
  - change (MATERIALS ++ [])%list with MATERIALS in E. rewrite E.
    vm_compute. reflexivity.
Defined.
(* ================================================================== *)
(** * New lines *)
(* ================================================================== *)

Lemma unitFor_values (m : Material.t) :
  unitFor m = "ct" \/ unitFor m = "cm3" \/ unitFor m = "g".
Proof.
  unfold unitFor.
  destruct (Material.unit m =? "€/ct"); [left; reflexivity|].
  destruct (Material.unit m =? "€/cm3"); [right; left|right; right]; reflexivity.
Qed.

Lemma add_zero_r (x : num) : x + Num.zero = x \/ x = S754_zero true.
Proof. destruct x as [[]|[]| |[] m e]; auto. Qed.

Lemma reduce_app {A B : Type} (f : A -> B -> nat -> A) (xs ys : list B)
      (i : nat) (a : A) :
  reduce f (xs ++ ys)%list i a
  = reduce f ys (i + List.length xs)%nat (reduce f xs i a).
Proof.
  revert i a. induction xs as [|x xs IH]; intros i a; simpl.
  - rewrite Nat.add_0_r. reflexivity.
  - rewrite IH. f_equal. lia.
Qed.

Section NewLines.
Variable numberToString : num -> string.

(** The part of a line as it is created: nothing weighed, one unit,
    no cost, whatever the catalogue it is resolved in. *)
Lemma createLine_part (all : list Material.t) (id : string)
      (prefMat : option Material.t) :
  let p := calcLine all (createLine numberToString id prefMat) in
  Part.effW p = Num.zero /\ Part.qty p = lit "1" /\ Part.cost p = Num.zero.
Proof.
  cbn zeta. unfold calcLine, createLine.
  cbn [Line.mode Line.weightVal Line.weightUnit Line.qty Line.unitPrice
       Part.effW Part.qty Part.cost Line.materialKey].
  change ("weight" =? "dimensions") with false. cbv iota.
  set (m := match prefMat with Some m => m | None => _ end).
  set (m' := findMaterial all (Material.key m)).
  assert (E : (if Material.unit m' =? "€/g"
               then toGrams ""
                      (if (if unitFor m =? "g" then "g" else unitFor m) =? ""
                       then "g"
                       else if unitFor m =? "g" then "g" else unitFor m)
               else toNumber "" Num.zero) = Num.zero).
  { destruct (Material.unit m' =? "€/g"); [|reflexivity].
    destruct (unitFor_values m) as [-> | [-> | ->]]; reflexivity. }
  rewrite E. repeat split; vm_compute; reflexivity.
Qed.

(** X3.  A line as [createLine] makes it carries the key of the
    preferred material and the unit this material is counted in, is
    given by weight, and is costed at nothing: no effective quantity,
    one unit, no cost. *)
Theorem createLine_blank (all : list Material.t) (id : string)
        (m : Material.t) :
  let ln := createLine numberToString id (Some m) in
  let p := calcLine all ln in
  Line.id ln = id
  /\ Line.materialKey ln = Material.key m
  /\ Line.weightUnit ln = unitFor m
  /\ Line.mode ln = "weight"
  /\ Part.effW p = Num.zero /\ Part.qty p = lit "1" /\ Part.cost p = Num.zero.
Proof.
  cbn zeta. split; [reflexivity|]. split; [reflexivity|]. split.
  - unfold createLine. cbn [Line.weightUnit].
    destruct (unitFor m =? "g") eqn:E; [|reflexivity].
    apply String.eqb_eq in E. symmetry. exact E.
  - split; [reflexivity|]. apply createLine_part.
Qed.

Lemma addLine_last (all : list Material.t) (id : string) (prev : list Line.t) :
  exists prefMat,
    addLine numberToString all id prev
    = (prev ++ [createLine numberToString id prefMat])%list.
Proof. eexists. reflexivity. Qed.

Lemma last_line {A : Type} (pre : list A) (x : A) :
  nth_error (pre ++ [x])%list (List.length (pre ++ [x])%list - 1) = Some x.
Proof.
  rewrite length_app. simpl.
  rewrite nth_error_app2 by lia.
  replace (List.length pre + 1 - 1 - List.length pre)%nat with O by lia.
  reflexivity.
Qed.

(** X4.  [addLine] appends one line and keeps the others.  The new line
    has the material that the last line resolves to, 24k gold when its
    key is unknown.  It has no cost: the parts of the other lines are
    the same, and the subtotal is the same Number, except that a
    subtotal of -0 becomes +0. *)
Theorem addLine_appends (st : State) (id : string) (pre : list Line.t)
        (last : Line.t) :
  lines st = (pre ++ [last])%list ->
  let st' := setLines (addLine numberToString (allMaterials st) id) st in
  exists ln,
    lines st' = (lines st ++ [ln])%list
    /\ Line.id ln = id
    /\ Line.materialKey ln
       = Material.key (findMaterial (allMaterials st) (Line.materialKey last))
    /\ parts st' = (parts st ++ [calcLine (allMaterials st) ln])%list
    /\ Part.cost (calcLine (allMaterials st) ln) = Num.zero
    /\ (subtotal st' = subtotal st
        \/ subtotal st = S754_zero true /\ subtotal st' = Num.zero).
Proof.
  intros Hl st'.
  set (m := findMaterial (allMaterials st) (Line.materialKey last)).
  assert (E : lines st'
              = (lines st ++ [createLine numberToString id (Some m)])%list).
  { unfold st', setLines, addLine. cbn [lines].
    rewrite Hl, last_line.
    unfold m, findMaterial.
    destruct (find _ (allMaterials st)); reflexivity. }
  assert (Ep : parts st'
               = (parts st
                  ++ [calcLine (allMaterials st)
                        (createLine numberToString id (Some m))])%list).
  { unfold parts. rewrite E, map_app. reflexivity. }
  destruct (createLine_part (allMaterials st) id (Some m)) as (_ & _ & Hc).
  exists (createLine numberToString id (Some m)).
  split; [exact E|]. split; [reflexivity|]. split; [reflexivity|].
  split; [exact Ep|]. split; [exact Hc|].
  assert (Es : subtotal st' = subtotal st + Num.zero).
  { unfold subtotal. rewrite Ep, reduce_app. cbn [reduce].
    rewrite Hc. reflexivity. }
  rewrite Es.
  destruct (add_zero_r (subtotal st)) as [H|H].
  - left. exact H.
  - right. split; [exact H|]. rewrite H. reflexivity.
Qed.

(** X5.  After [resetAll] there is one line, of 18k gold counted in
    grams, and no price and no labour override: the subtotal and the
    weight are 0, the total cost is the estimated labour, the shares
    of the price are 0 and the diagnosis is empty, while the overage
    reads -100: the quoted price, 0, is the whole total cost below the
    total cost. *)
Theorem resetAll_totals (id : string) (st : State) :
  let st' := resetAll numberToString id st in
  (exists ln, lines st' = [ln]
              /\ Line.materialKey ln = "gold_18k" /\ Line.weightUnit ln = "g")
  /\ subtotal st' = Num.zero
  /\ totalWeightG st' = Num.zero
  /\ totalCost st' = laborEstimated st
  /\ (totalCost st' >? Num.zero) = true
  /\ pctMaterials st' = Num.zero
  /\ pctTotal st' = Num.zero
  /\ overPctTotal st' = lit "-100"
  /\ diagnosis st' = "".
Proof.
  intros st'.
  destruct (createLine_part (allMaterials st') id None) as (Hw & Hq & Hc).
  assert (Es : subtotal st' = Num.zero).
  { unfold subtotal, parts. cbn [st' resetAll lines map reduce].
    fold st'. rewrite Hc. reflexivity. }
  assert (Et : totalCost st' = laborEstimated st).
  { unfold totalCost. rewrite Es. unfold laborCost, laborEstimated, suggestedHours.
    cbn [st' resetAll laborOverride pieceType complexity].
    destruct (pieceType st), (complexity st); vm_compute; reflexivity. }
  assert (Ep : priceP st' = Num.zero) by reflexivity.
  split; [eexists; split; [reflexivity|split; reflexivity]|].
  split; [exact Es|]. split.
  { unfold totalWeightG, parts. cbn [st' resetAll lines map reduce nth_error].
    fold st'. rewrite Hw, Hq.
    change (findMaterial (allMaterials st')
              (Line.materialKey (createLine numberToString id None)))
      with (Material.mk "gold_18k" "€/g" (lit "15.6")).
    vm_compute. reflexivity. }
  split; [exact Et|].
  assert (Eo : (totalCost st' >? Num.zero) = true
               /\ overPctTotal st' = lit "-100").
  { unfold overPctTotal. rewrite Ep, Et. unfold laborEstimated, suggestedHours.
    destruct (pieceType st), (complexity st); vm_compute; split; reflexivity. }
  split; [apply Eo|].
  split; [unfold pctMaterials; rewrite Ep; reflexivity|].
  split; [unfold pctTotal; rewrite Ep; reflexivity|].
  split; [apply Eo|].
  unfold diagnosis. rewrite Ep. reflexivity.
Qed.

End NewLines.

Lemma addLine_appends_witness :
  let st := sampleState "" "" in
  exists ln,
    lines (setLines (addLine (fun _ => "") (allMaterials st) "2") st)
    = [sampleLine; ln]
    /\ Line.materialKey ln = "gold_18k".
Proof.
  intros st.
  destruct (addLine_appends (fun _ => "") st "2" [] sampleLine eq_refl)
    as (ln & E & _ & Hk & _).
  exists ln. split; [exact E|exact Hk].
Defined.
(* ================================================================== *)
(** * Editing the lines *)
(* ================================================================== *)

Local Close Scope num_scope.
Local Open Scope nat_scope.

(** ** Fields and patches *)

Lemma get_set_same (f : Field.t) (v : string) (l : Line.t) :
  Field.get f (Field.set f v l) = v.
Proof. destruct l, f; reflexivity. Qed.

Lemma get_set_other (f g : Field.t) (v : string) (l : Line.t) :
  f <> g -> Field.get f (Field.set g v l) = Field.get f l.
Proof.
  intros H. destruct l, f, g; try reflexivity; contradiction H; reflexivity.
Qed.

Lemma line_ext (l l' : Line.t) :
  (forall f, Field.get f l = Field.get f l') -> l = l'.
Proof.
  intros H. destruct l, l'.
  pose proof (H Field.id). pose proof (H Field.materialKey).
  pose proof (H Field.unitPrice). pose proof (H Field.density).
  pose proof (H Field.mode). pose proof (H Field.qty).
  pose proof (H Field.alias). pose proof (H Field.weightVal).
  pose proof (H Field.weightUnit). pose proof (H Field.shape).
  pose proof (H Field.lengthMM). pose proof (H Field.widthMM).
  pose proof (H Field.heightMM). pose proof (H Field.diameterMM).
  pose proof (H Field.depthMM). pose proof (H Field.volumeCM3).
  cbn in *. subst. reflexivity.
Qed.

Lemma field_eq_dec (f g : Field.t) : {f = g} + {f <> g}.
Proof. decide equality. Qed.

Lemma applyPatch_cons (l : Line.t) (g : Field.t) (v : string) (r : Patch) :
  applyPatch l ((g, v) :: r) = applyPatch (Field.set g v l) r.
Proof. reflexivity. Qed.

(** A field the patch does not name keeps its value. *)
Lemma get_applyPatch_other (f : Field.t) (patch : Patch) (l : Line.t) :
  ~ In f (map fst patch) ->
  Field.get f (applyPatch l patch) = Field.get f l.
Proof.
  revert l. induction patch as [|[g v] r IH]; intros l H; [reflexivity|].
  rewrite applyPatch_cons, IH.
  - apply get_set_other. intros E. apply H. left. symmetry. exact E.
  - intros Hin. apply H. right. exact Hin.
Qed.

(** A field the patch names takes its value from the patch alone. *)
Lemma get_applyPatch_same (f : Field.t) (patch : Patch) (l l' : Line.t) :
  In f (map fst patch) ->
  Field.get f (applyPatch l patch) = Field.get f (applyPatch l' patch).
Proof.
  revert l l'. induction patch as [|[g v] r IH]; intros l l' H; [contradiction H|].
  rewrite !applyPatch_cons.
  destruct (in_dec field_eq_dec f (map fst r)) as [Hin|Hout].
  - apply IH. exact Hin.
  - rewrite !get_applyPatch_other by exact Hout.
    destruct H as [E|Hin]; [|contradiction].
    cbn in E. subst g. rewrite !get_set_same. reflexivity.
Qed.

Lemma applyPatch_idempotent (patch : Patch) (l : Line.t) :
  applyPatch (applyPatch l patch) patch = applyPatch l patch.
Proof.
  apply line_ext. intros f.
  destruct (in_dec field_eq_dec f (map fst patch)) as [Hin|Hout].
  - apply get_applyPatch_same. exact Hin.
  - rewrite !get_applyPatch_other by exact Hout. reflexivity.
Qed.

(** ** [updateLine] *)

(** X6.  [updateLine] keeps the number and the order of the lines,
    gives each line with the identifier the fields of the patch over
    its own, and leaves every other line as it is; with an identifier
    that no line has, nothing changes.  Applying the same patch a
    second time changes nothing more. *)
Theorem updateLine_frame (id : string) (patch : Patch) (prev : list Line.t) :
  List.length (updateLine id patch prev) = List.length prev
  /\ (forall i l,
        nth_error prev i = Some l ->
        nth_error (updateLine id patch prev) i
        = Some (if Line.id l =? id then applyPatch l patch else l)%string)
  /\ (forall i l f,
        nth_error prev i = Some l -> ~ In f (map fst patch) ->
        option_map (Field.get f) (nth_error (updateLine id patch prev) i)
        = Some (Field.get f l))
  /\ (Forall (fun l => Line.id l <> id) prev -> updateLine id patch prev = prev)
  /\ updateLine id patch (updateLine id patch prev) = updateLine id patch prev.
Proof.
  unfold updateLine. split; [apply length_map|]. split.
  { intros i l H. rewrite nth_error_map, H. reflexivity. }
  split.
  { intros i l f H Hf. rewrite nth_error_map, H. cbn [option_map].
    destruct (Line.id l =? id)%string; [|reflexivity].
    rewrite get_applyPatch_other by exact Hf. reflexivity. }
  split.
  { intros H. induction H as [|l r Hl _ IH]; [reflexivity|].
    cbn [map]. rewrite IH.
    apply String.eqb_neq in Hl. rewrite Hl. reflexivity. }
  rewrite map_map. apply map_ext. intros l.
  destruct (Line.id l =? id)%string eqn:E; [|rewrite E; reflexivity].
  destruct (Line.id (applyPatch l patch) =? id)%string; [|reflexivity].
  apply applyPatch_idempotent.
Qed.

(** ** [delLine] *)

Lemma filter_other_ids (id : string) (prev : list Line.t) :
  ~ In id (map Line.id prev) ->
  filter (fun l => negb (Line.id l =? id)%string) prev = prev.
Proof.
  induction prev as [|l r IH]; intros H; [reflexivity|].
  cbn [filter].
  destruct (Line.id l =? id)%string eqn:E.
  - exfalso. apply H. left. apply String.eqb_eq. exact E.
  - cbn [negb]. rewrite IH; [reflexivity|].
    intros Hin. apply H. right. exact Hin.
Qed.

Lemma filter_one_id (id : string) (prev : list Line.t) :
  NoDup (map Line.id prev) -> In id (map Line.id prev) ->
  S (List.length (filter (fun l => negb (Line.id l =? id)%string) prev))
  = List.length prev.
Proof.
  induction prev as [|l r IH]; intros Hn Hin; [contradiction Hin|].
  cbn [map] in Hn. inversion Hn as [|? ? Hl Hr]; subst.
  cbn [filter].
  destruct (Line.id l =? id)%string eqn:E.
  - apply String.eqb_eq in E. subst id. cbn [negb].
    rewrite filter_other_ids by exact Hl. reflexivity.
  - cbn [negb List.length]. f_equal. apply IH; [exact Hr|].
    destruct Hin as [Hin|Hin]; [|exact Hin].
    apply String.eqb_neq in E. contradiction.
Qed.

(** X7.  [delLine] never deletes the only line.  From two lines on it
    keeps, in their order, exactly the lines with another identifier;
    when the identifiers of the lines are distinct, this removes one
    line if a line has the identifier and none otherwise, so that the
    list of lines, once not empty, never becomes empty. *)
Theorem delLine_keeps_a_line (id : string) (prev : list Line.t) :
  NoDup (map Line.id prev) ->
  (List.length prev <= 1 -> delLine id prev = prev)
  /\ (1 < List.length prev ->
      delLine id prev = filter (fun l => negb (Line.id l =? id)%string) prev
      /\ ~ In id (map Line.id (delLine id prev))
      /\ (In id (map Line.id prev) ->
          S (List.length (delLine id prev)) = List.length prev)
      /\ (~ In id (map Line.id prev) -> delLine id prev = prev))
  /\ (prev <> [] -> delLine id prev <> []).
Proof.
  intros Hn. unfold delLine.
  destruct (1 <? List.length prev) eqn:E.
  - apply Nat.ltb_lt in E. split; [lia|]. split.
    + intros _. split; [reflexivity|]. split.
      * rewrite in_map_iff. intros (l & Hid & Hin).
        apply filter_In in Hin. destruct Hin as [_ Hin].
        rewrite Hid, String.eqb_refl in Hin. discriminate Hin.
      * split; [apply filter_one_id; exact Hn|apply filter_other_ids].
    + intros _ H.
      destruct (in_dec string_dec id (map Line.id prev)) as [Hin|Hout].
      * pose proof (filter_one_id id prev Hn Hin) as Hl.
        rewrite H in Hl. cbn in Hl. lia.
      * rewrite filter_other_ids in H by exact Hout.
        rewrite H in E. cbn in E. lia.
  - apply Nat.ltb_ge in E. split; [reflexivity|]. split; [lia|].
    intros H. exact H.
Qed.

Lemma delLine_keeps_a_line_witness :
  delLine "1" [sampleLine] = [sampleLine]
  /\ delLine "1" [sampleLine; Field.set Field.id "2" sampleLine]
     = [Field.set Field.id "2" sampleLine].
Proof.
  split.
  - destruct (delLine_keeps_a_line "1" [sampleLine]) as (H & _).
    + repeat constructor. intros [].
    + apply H. cbn. lia.
  - destruct (delLine_keeps_a_line
                "1" [sampleLine; Field.set Field.id "2" sampleLine])
      as (_ & H & _).
    + repeat constructor; cbn; intuition discriminate.
    + destruct H as (H & _); [cbn; lia|]. rewrite H. reflexivity.
Defined.

(** ** [dupLine] *)

Lemma findIndex_first {A : Type} (f : A -> bool) (pre : list A) (x : A)
      (post : list A) :
  Forall (fun y => f y = false) pre -> f x = true ->
  findIndex f (pre ++ x :: post)%list = Some (List.length pre).
Proof.
  intros Hpre Hx. induction Hpre as [|y pre Hy _ IH]; cbn [app findIndex].
  - rewrite Hx. reflexivity.
  - rewrite Hy, IH. reflexivity.
Qed.

Lemma findIndex_nothing {A : Type} (f : A -> bool) (l : list A) :
  Forall (fun y => f y = false) l -> findIndex f l = None.
Proof.
  intros H. induction H as [|y l Hy _ IH]; cbn [findIndex]; [reflexivity|].
  rewrite Hy, IH. reflexivity.
Qed.

Lemma dupLine_missing (newId id : string) (prev : list Line.t) :
  Forall (fun l => Line.id l <> id) prev -> dupLine newId id prev = prev.
Proof.
  intros H. unfold dupLine. rewrite findIndex_nothing; [reflexivity|].
  eapply Forall_impl; [|exact H]. intros l Hl.
  apply String.eqb_neq. exact Hl.
Qed.

Lemma dupLine_found (newId id : string) (pre : list Line.t) (l : Line.t)
      (post : list Line.t) :
  Forall (fun x => Line.id x <> id) pre -> Line.id l = id ->
  dupLine newId id (pre ++ l :: post)%list
  = (pre ++ l :: Field.set Field.id newId l :: post)%list.
Proof.
  intros Hpre Hl. unfold dupLine. rewrite findIndex_first.
  - rewrite nth_error_app2, Nat.sub_diag by lia. cbn [nth_error].
    replace (S (List.length pre)) with (List.length (pre ++ [l])%list)
      by (rewrite length_app; cbn; lia).
    replace (pre ++ l :: post)%list with ((pre ++ [l]) ++ post)%list
      by (rewrite <- app_assoc; reflexivity).
    rewrite firstn_app, skipn_app, Nat.sub_diag, firstn_all, skipn_all.
    cbn [firstn skipn app]. rewrite app_nil_r, <- app_assoc. reflexivity.
  - eapply Forall_impl; [|exact Hpre]. intros x Hx.
    apply String.eqb_neq. exact Hx.
  - apply String.eqb_eq. exact Hl.
Qed.

(** The lines split at the first one with an identifier. *)
Lemma first_with_id (id : string) (prev : list Line.t) :
  Forall (fun l => Line.id l <> id) prev
  \/ exists pre l post,
       prev = (pre ++ l :: post)%list
       /\ Forall (fun x => Line.id x <> id) pre /\ Line.id l = id.
Proof.
  destruct (find (fun l => Line.id l =? id)%string prev) as [l|] eqn:E.
  - right. apply find_first in E. destruct E as (pre & post & -> & Hpre & Hl).
    exists pre, l, post. split; [reflexivity|]. split.
    + eapply Forall_impl; [|exact Hpre]. intros x Hx.
      apply String.eqb_neq. exact Hx.
    + apply String.eqb_eq. exact Hl.
  - left. apply find_nothing in E.
    eapply Forall_impl; [|exact E]. intros x Hx.
    apply String.eqb_neq. exact Hx.
Qed.

(** X8.  [dupLine] puts a copy of the first line with the identifier
    right after it, under the new identifier, and keeps all the lines
    in their order; the copy is costed as the original.  With an
    identifier that no line has, nothing changes. *)
Theorem dupLine_after (newId id : string) (prev : list Line.t) :
  (Forall (fun l => Line.id l <> id) prev -> dupLine newId id prev = prev)
  /\ (forall pre l post,
        prev = (pre ++ l :: post)%list ->
        Forall (fun x => Line.id x <> id) pre -> Line.id l = id ->
        dupLine newId id prev
        = (pre ++ l :: Field.set Field.id newId l :: post)%list
        /\ forall all,
             calcLine all (Field.set Field.id newId l) = calcLine all l).
Proof.
  split; [apply dupLine_missing|].
  intros pre l post -> Hpre Hl. split; [apply dupLine_found; assumption|].
  intros all. destruct l. reflexivity.
Qed.

(** ** Undoing *)

Section Undo.
Variable numberToString : num -> string.

(** X9.  Deleting the line that was just added, or the copy that was
    just made, gives back the lines there were: [delLine] with the new
    identifier undoes [addLine] and [dupLine], provided the identifier
    is new.  For [addLine] there must have been a line: on an empty
    list the added line is the only one and it is not deleted. *)
Theorem delLine_undoes (all : list Material.t) (newId id : string)
        (prev : list Line.t) :
  ~ In newId (map Line.id prev) ->
  delLine newId (dupLine newId id prev) = prev
  /\ (prev <> [] -> delLine newId (addLine numberToString all newId prev) = prev)
  /\ delLine newId (addLine numberToString all newId []) <> [].
Proof.
  intros Hnew.
  assert (Hf : forall xs,
             ~ In newId (map Line.id xs) ->
             filter (fun l => negb (Line.id l =? newId)%string) xs = xs)
    by (intros xs; apply filter_other_ids).
  split; [|split].
  - destruct (first_with_id id prev)
      as [H|(pre & l & post & -> & Hpre & Hl)].
    + rewrite dupLine_missing by exact H.
      unfold delLine. destruct (1 <? List.length prev); [|reflexivity].
      apply Hf. exact Hnew.
    + rewrite dupLine_found by assumption.
      unfold delLine.
      replace (1 <? List.length (pre ++ l :: Field.set Field.id newId l :: post)%list)
        with true
        by (symmetry; apply Nat.ltb_lt; rewrite length_app; cbn; lia).
      rewrite map_app, in_app_iff in Hnew. cbn [map In] in Hnew.
      rewrite filter_app. cbn [filter].
      replace (Line.id (Field.set Field.id newId l) =? newId)%string with true
        by (symmetry; apply String.eqb_eq; destruct l; reflexivity).
      replace (Line.id l =? newId)%string with false
        by (symmetry; apply String.eqb_neq; tauto).
      cbn [negb]. rewrite !Hf by tauto. reflexivity.
  - intros Hne. destruct (addLine_last numberToString all newId prev) as (m & ->).
    unfold delLine.
    replace (1 <? List.length (prev ++ [createLine numberToString newId m])%list)
      with true
      by (symmetry; apply Nat.ltb_lt; rewrite length_app;
          destruct prev; [contradiction Hne; reflexivity|cbn; lia]).
    rewrite filter_app. cbn [filter createLine Line.id].
    rewrite String.eqb_refl. cbn [negb].
    rewrite Hf by exact Hnew. apply app_nil_r.
  - destruct (addLine_last numberToString all newId []) as (m & ->).
    discriminate.
Qed.

End Undo.

Lemma delLine_undoes_witness :
  delLine "2" (dupLine "2" "1" [sampleLine]) = [sampleLine].
Proof.
  destruct (delLine_undoes (fun _ => "") MATERIALS "2" "1" [sampleLine])
    as (H & _); [|exact H].
  cbn. intuition discriminate.
Defined.

Local Close Scope nat_scope.
Local Open Scope num_scope.
(* ================================================================== *)
(** * Material of a line *)
(* ================================================================== *)

(** ** Alias detection *)

Lemma detected_keys (txt key : string) :
  detectMaterialFromAlias txt = Some key ->
  In key ["gold_18k"; "gold_14k"; "gold_24k"; "silver_925"; "platinum_950"].
Proof.
  unfold detectMaterialFromAlias.
  destruct (Str.trim txt =? ""); [discriminate|].
  destruct (find _ EQUIVALENCE_RULES) as [rule|] eqn:E; [|discriminate].
  intros H. injection H as <-.
  apply find_some in E. destruct E as [E _].
  apply (in_map Rule.key) in E. exact E.
Qed.

Lemma detected_material (custom : list Material.t) (key : string) :
  In key ["gold_18k"; "gold_14k"; "gold_24k"; "silver_925"; "platinum_950"] ->
  let m := findMaterial (MATERIALS ++ custom) key in
  In m MATERIALS /\ Material.key m = key /\ Material.unit m = "€/g"
  /\ unitFor m = "g".
Proof.
  intros H. cbn zeta.
  assert (Hc : In key (map Material.key MATERIALS)).
  { cbn in H. cbn.
    destruct H as [<-|[<-|[<-|[<-|[<-|[]]]]]]; auto 6. }
  destruct (findMaterial_known custom key Hc) as (E & Hin & Hk).
  rewrite E. split; [exact Hin|]. split; [exact Hk|].
  cbn in H.
  destruct H as [<-|[<-|[<-|[<-|[<-|[]]]]]]; split; reflexivity.
Qed.

(** X10.  The alias resolver only ever gives the key of 18k, 14k or
    24k gold, of silver or of platinum, and each of these keys
    resolves to its entry of the catalogue, a material priced per gram,
    whatever the custom materials are. *)
Theorem detectMaterialFromAlias_catalogue (custom : list Material.t)
        (txt key : string) :
  detectMaterialFromAlias txt = Some key ->
  let m := findMaterial (MATERIALS ++ custom) key in
  In key ["gold_18k"; "gold_14k"; "gold_24k"; "silver_925"; "platinum_950"]
  /\ In m MATERIALS
  /\ Material.key m = key
  /\ Material.unit m = "€/g".
Proof.
  intros H. cbn zeta. pose proof (detected_keys _ _ H) as Hk.
  destruct (detected_material custom key Hk) as (Hin & Hkey & Hu & _).
  split; [exact Hk|]. split; [exact Hin|]. split; assumption.
Qed.

Lemma detectMaterialFromAlias_catalogue_witness :
  Material.unit
    (findMaterial (MATERIALS ++ [Material.mk "silver_925" "€/ct" (lit "1")])
                  "silver_925")
  = "€/g".
Proof.
  assert (E : detectMaterialFromAlias "plata de ley" = Some "silver_925")
    by (vm_compute; reflexivity).
  apply (detectMaterialFromAlias_catalogue
           [Material.mk "silver_925" "€/ct" (lit "1")] _ _ E).
Defined.

Lemma weightUnitFor_grams (ln : Line.t) :
  hasProperty WEIGHT_UNITS (weightUnitFor "g" ln) = true
  /\ (hasProperty WEIGHT_UNITS (Line.weightUnit ln) = true ->
      weightUnitFor "g" ln = Line.weightUnit ln)
  /\ (hasProperty WEIGHT_UNITS (Line.weightUnit ln) = false ->
      weightUnitFor "g" ln = "g").
Proof.
  unfold weightUnitFor. change ("g" =? "g") with true. cbv iota.
  destruct (hasProperty WEIGHT_UNITS (Line.weightUnit ln)) eqn:E.
  - split; [exact E|]. split; [reflexivity|discriminate].
  - split; [reflexivity|]. split; [discriminate|reflexivity].
Qed.

(** X11.  [applyAliasDetection] changes nothing when the alias of the
    line resolves to no material.  Otherwise the lines with the
    identifier of the line get the detected key, a material counted in
    grams, and a weight unit that is in the table of weight units: the
    one the line had when it is in the table, else [g].  Their other
    fields, and the other lines, stay as they are. *)
Theorem applyAliasDetection_sets_material (custom : list Material.t)
        (ln : Line.t) (prev : list Line.t) :
  match detectMaterialFromAlias (Line.alias ln) with
  | None => applyAliasDetection custom ln prev = prev
  | Some key =>
      exists unit,
        applyAliasDetection custom ln prev
        = map (fun l =>
                 if Line.id l =? Line.id ln
                 then Field.set Field.weightUnit unit
                        (Field.set Field.materialKey key l)
                 else l)
              prev
        /\ unitFor (findMaterial (MATERIALS ++ custom) key) = "g"
        /\ hasProperty WEIGHT_UNITS unit = true
        /\ (hasProperty WEIGHT_UNITS (Line.weightUnit ln) = true ->
            unit = Line.weightUnit ln)
        /\ (hasProperty WEIGHT_UNITS (Line.weightUnit ln) = false ->
            unit = "g")
  end.
Proof.
  unfold applyAliasDetection.
  destruct (detectMaterialFromAlias (Line.alias ln)) as [key|] eqn:E;
    [|reflexivity].
  destruct (detected_material custom key (detected_keys _ _ E))
    as (_ & _ & _ & Hu).
  cbv zeta. rewrite Hu.
  exists (weightUnitFor "g" ln).
  split; [reflexivity|]. split; [reflexivity|]. apply weightUnitFor_grams.
Qed.

(** ** The material selector *)

(** X12.  Choosing a material in the selector of a line gives the
    lines with its identifier the chosen key and a weight unit that
    fits the material: for a material counted in grams the unit the
    line had when it is in the table of weight units, else [g]; for
    another material the unit of the material.  Nothing else changes:
    the density, the unit price and the measures of every line are
    those it had, and the density is not replaced by that of the
    chosen material. *)
Theorem selectMaterial_frame (all : list Material.t) (ln : Line.t)
        (v : string) (prev : list Line.t) :
  let u := unitFor (findMaterial all v) in
  exists unit,
    selectMaterial all ln v prev
    = map (fun l =>
             if Line.id l =? Line.id ln
             then Field.set Field.weightUnit unit
                    (Field.set Field.materialKey v l)
             else l)
          prev
    /\ (u = "g" ->
        hasProperty WEIGHT_UNITS unit = true
        /\ (hasProperty WEIGHT_UNITS (Line.weightUnit ln) = true ->
            unit = Line.weightUnit ln)
        /\ (hasProperty WEIGHT_UNITS (Line.weightUnit ln) = false ->
            unit = "g"))
    /\ (u <> "g" -> unit = u)
    /\ (u = "ct" \/ u = "cm3" \/ u = "g")
    /\ map Line.density (selectMaterial all ln v prev) = map Line.density prev
    /\ map Line.unitPrice (selectMaterial all ln v prev)
       = map Line.unitPrice prev
    /\ map Line.id (selectMaterial all ln v prev) = map Line.id prev.
Proof.
  cbn zeta. unfold selectMaterial.
  exists (weightUnitFor (unitFor (findMaterial all v)) ln).
  split; [reflexivity|]. split.
  { intros ->. apply weightUnitFor_grams. }
  split.
  { intros H. unfold weightUnitFor. apply String.eqb_neq in H.
    rewrite H. reflexivity. }
  split; [apply unitFor_values|].
  unfold updateLine. rewrite !map_map.
  split; [|split]; apply map_ext; intros l;
    destruct (Line.id l =? Line.id ln); try reflexivity;
    destruct l; reflexivity.
Qed.

(** ** Presets *)

Lemma mapIndexed_last {A : Type} (pre : list A) (last x : A) (i : nat) :
  mapIndexed
    (fun l idx => if negb (idx =? i + List.length pre)%nat then l else x)
    (pre ++ [last])%list i
  = (pre ++ [x])%list.
Proof.
  revert i. induction pre as [|a pre IH]; intros i; cbn [app mapIndexed List.length].
  - rewrite Nat.add_0_r, Nat.eqb_refl. reflexivity.
  - replace (i =? i + S (List.length pre))%nat with false
      by (symmetry; apply Nat.eqb_neq; lia).
    cbn [negb]. f_equal.
    replace (i + S (List.length pre))%nat with (S i + List.length pre)%nat
      by lia.
    apply IH.
Qed.

Lemma presetLines_last (key : PieceType) (pre : list Line.t) (last : Line.t) :
  presetLines key (pre ++ [last])%list
  = (pre ++ [applyPatch last (presetPatch key)])%list.
Proof.
  unfold presetLines.
  destruct (pre ++ [last])%list as [|a r] eqn:E;
    [destruct pre; discriminate E|].
  rewrite <- E. rewrite last_line.
  replace (List.length (pre ++ [last])%list - 1)%nat
    with (0 + List.length pre)%nat
    by (rewrite length_app; cbn; lia).
  apply mapIndexed_last.
Qed.

(** X13.  The button of a piece type selects the piece type and patches
    the last line only: the line is then given by dimensions, with the
    shape and the measures of the preset, and keeps its identifier, its
    unit price, its density, its units, its alias and its weight.  Its
    material is kept as well, except by the preset of the round
    diamond, which makes it the diamond of the catalogue: the line is
    then worth the carats of a stone of 6.5 mm by 4 mm, whatever it
    held before. *)
Theorem clickPreset_last_line (key : PieceType) (st : State)
        (pre : list Line.t) (last : Line.t) :
  lines st = (pre ++ [last])%list ->
  let st' := clickPreset key st in
  pieceType st' = key
  /\ exists ln,
       lines st' = (pre ++ [ln])%list
       /\ ln = applyPatch last (presetPatch key)
       /\ Line.mode ln = "dimensions"
       /\ Line.id ln = Line.id last
       /\ Line.unitPrice ln = Line.unitPrice last
       /\ Line.density ln = Line.density last
       /\ Line.qty ln = Line.qty last
       /\ Line.alias ln = Line.alias last
       /\ Line.weightVal ln = Line.weightVal last
       /\ Line.weightUnit ln = Line.weightUnit last
       /\ (key <> diamante_redondo ->
           Line.materialKey ln = Line.materialKey last)
       /\ (key = diamante_redondo ->
           Part.m (calcLine (allMaterials st') ln) = diamondEntry
           /\ Part.effW (calcLine (allMaterials st') ln)
              = estimateDiamondCarats (lit "6.5") (lit "4")).
Proof.
  intros Hl st'. split; [reflexivity|].
  exists (applyPatch last (presetPatch key)).
  split.
  { unfold st', clickPreset. cbn [lines]. rewrite Hl. apply presetLines_last. }
  split; [reflexivity|].
  destruct last.
  repeat (split; [destruct key; reflexivity|]).
  split.
  - intros H. destruct key; try reflexivity. contradiction H. reflexivity.
  - intros ->. split; reflexivity.
Qed.

Lemma clickPreset_last_line_witness :
  exists ln,
    lines (clickPreset caja_reloj (sampleState "" "")) = [ln]
    /\ Line.mode ln = "dimensions".
Proof.
  destruct (clickPreset_last_line caja_reloj (sampleState "" "") [] sampleLine
              eq_refl)
    as (_ & ln & E & _ & Hm & _).
  exists ln. split; [exact E|exact Hm].
Defined.
(* ================================================================== *)
(** * Validation *)
(* ================================================================== *)

(** ** Units below one *)

Lemma max_one_of_Z_nonpos (z : Z) :
  (z <= 0)%Z -> Num.max (lit "1") (Num.of_Z z) = lit "1".
Proof.
  intros Hz. destruct z as [|p|p]; [reflexivity|lia|].
  destruct (binary_normalize_cases (Zneg p) 0 false) as [H|H];
    unfold Num.of_Z; [rewrite H; reflexivity|].
  change (Z.neg p <? 0)%Z with true in H.
  destruct H; reflexivity.
Qed.

(** The floor of a Number below 1 is below 1 as well, and the units
    taken for it are 1. *)
Lemma max_one_floor_below (q : num) :
  Num.isFinite q = true -> Num.wellFormed q = true ->
  (q <? lit "1") = true ->
  Num.max (lit "1") (Num.floor q) = lit "1".
Proof.
  intros Hf Hw.
  destruct q as [s|s| |s m e]; try discriminate Hf.
  - intros _. destruct s; reflexivity.
  - unfold Num.floor. destruct s.
    + intros _. destruct (0 <=? e)%Z; [reflexivity|].
      assert (0 <= Z.shiftr (Z.pos m) (- e))%Z
        by (apply Z.shiftr_nonneg; lia).
      destruct (Z.pos m =? _)%Z; apply max_one_of_Z_nonpos; lia.
    + change (lit "1") with (S754_finite false 4503599627370496 (-52)).
      unfold Num.ltb, SFltb, SFcompare.
      cbn [Num.wellFormed] in Hw. apply Z.leb_le in Hw.
      assert (Hm : (Z.pos m < 2 ^ 53)%Z).
      { eapply Z.lt_le_trans; [apply digits2_pos_lt|].
        apply Z.pow_le_mono_r; [reflexivity|exact Hw]. }
      clear Hw Hf.
      destruct (e ?= -52)%Z eqn:Ec; intros Hlt; try discriminate Hlt.
      * apply Z.compare_eq in Ec. subst e.
        assert (Hp : (Z.pos m < 4503599627370496)%Z).
        { change (Z.pos m < 4503599627370496)%Z
            with (Pos.compare m 4503599627370496 = Lt).
          unfold Pos.compare.
          destruct (Pos.compare_cont Eq m 4503599627370496);
            try discriminate Hlt; reflexivity. }
        change (0 <=? -52)%Z with false. cbv iota.
        replace (Z.shiftr (Z.pos m) (- -52)) with 0%Z; [reflexivity|].
        rewrite Z.shiftr_div_pow2 by discriminate. symmetry.
        apply Z.div_small. change (2 ^ (- -52))%Z with 4503599627370496%Z.
        split; [apply Pos2Z.is_nonneg|exact Hp].
      * rewrite Z.compare_lt_iff in Ec.
        assert (He : (53 <= - e)%Z) by (clear - Ec; lia).
        replace (0 <=? e)%Z with false
          by (symmetry; apply Z.leb_gt; clear - Ec; lia).
        replace (Z.shiftr (Z.pos m) (- e)) with 0%Z; [reflexivity|].
        rewrite Z.shiftr_div_pow2 by (clear - He; lia). symmetry.
        apply Z.div_small. split; [apply Pos2Z.is_nonneg|].
        eapply Z.lt_le_trans; [exact Hm|].
        apply Z.pow_le_mono_r; [reflexivity|exact He].
Qed.

(** ** The list of alerts *)

Lemma pushAlert_in (msg : string) (alerts : list string) :
  In msg (pushAlert msg alerts).
Proof.
  unfold pushAlert. destruct (existsb (String.eqb msg) alerts) eqn:E.
  - apply existsb_exists in E. destruct E as (x & Hin & Hx).
    apply String.eqb_eq in Hx. subst x. exact Hin.
  - apply in_or_app. right. left. reflexivity.
Qed.

Lemma pushAlert_cases (msg : string) (alerts : list string) (x : string) :
  In x (pushAlert msg alerts) <-> x = msg \/ In x alerts.
Proof.
  split.
  - unfold pushAlert. destruct (existsb (String.eqb msg) alerts).
    + intros H. right. exact H.
    + intros H. apply in_app_or in H. destruct H as [H|[H|[]]].
      * right. exact H.
      * left. symmetry. exact H.
  - intros [->|H]; [apply pushAlert_in|].
    unfold pushAlert. destruct (existsb (String.eqb msg) alerts); [exact H|].
    apply in_or_app. left. exact H.
Qed.

Lemma NoDup_snoc {A : Type} (l : list A) (x : A) :
  NoDup l -> ~ In x l -> NoDup (l ++ [x])%list.
Proof.
  intros Hn Hx. induction Hn as [|a l Ha Hn IH]; cbn [app].
  - constructor; [intros []|constructor].
  - constructor.
    + intros H. apply in_app_or in H. destruct H as [H|[H|[]]].
      * contradiction.
      * apply Hx. left. symmetry. exact H.
    + apply IH. intros H. apply Hx. right. exact H.
Qed.

Lemma pushAlert_NoDup (msg : string) (alerts : list string) :
  NoDup alerts -> NoDup (pushAlert msg alerts).
Proof.
  intros Hn. unfold pushAlert.
  destruct (existsb (String.eqb msg) alerts) eqn:E; [exact Hn|].
  apply NoDup_snoc; [exact Hn|]. intros Hin.
  assert (existsb (String.eqb msg) alerts = true); [|congruence].
  apply existsb_exists. exists msg. split; [exact Hin|apply String.eqb_refl].
Qed.

Lemma pushAlert_length (msg : string) (alerts : list string) :
  (List.length (pushAlert msg alerts) <= S (List.length alerts))%nat.
Proof.
  unfold pushAlert. destruct (existsb (String.eqb msg) alerts); [lia|].
  rewrite length_app. cbn. lia.
Qed.

Lemma pushed_cases (c : bool) (msg : string) (alerts : list string)
      (x : string) :
  In x (if c then pushAlert msg alerts else alerts)
  <-> In x alerts \/ c = true /\ x = msg.
Proof.
  destruct c.
  - rewrite pushAlert_cases. intuition.
  - intuition discriminate.
Qed.

Lemma pushed_NoDup (c : bool) (msg : string) (alerts : list string) :
  NoDup alerts -> NoDup (if c then pushAlert msg alerts else alerts).
Proof. destruct c; [apply pushAlert_NoDup|trivial]. Qed.

Lemma pushed_length (c : bool) (msg : string) (alerts : list string)
      (n : nat) :
  (List.length alerts <= n)%nat ->
  (List.length (if c then pushAlert msg alerts else alerts) <= S n)%nat.
Proof.
  intros H. destruct c; [|lia].
  pose proof (pushAlert_length msg alerts). lia.
Qed.

(** The alerts raised by the line [ln] at index [idx]. *)
Lemma lineAlerts_cases (all : list Material.t) (alerts : list string)
      (ln : Line.t) (idx : nat) (x : string) :
  In x (lineAlerts all alerts ln idx)
  <-> In x alerts
      \/ densityOutOfRange all ln = true /\ x = densityAlert idx
      \/ quantityTooHigh all ln = true /\ x = quantityAlert idx
      \/ unitsBelowOne ln = true /\ x = unitsAlert idx.
Proof.
  unfold lineAlerts. cbv zeta. rewrite !pushed_cases. tauto.
Qed.

Lemma lineAlerts_NoDup (all : list Material.t) (alerts : list string)
      (ln : Line.t) (idx : nat) :
  NoDup alerts -> NoDup (lineAlerts all alerts ln idx).
Proof.
  intros H. unfold lineAlerts. cbv zeta. repeat apply pushed_NoDup. exact H.
Qed.

Lemma lineAlerts_length (all : list Material.t) (alerts : list string)
      (ln : Line.t) (idx : nat) :
  (List.length (lineAlerts all alerts ln idx) <= 3 + List.length alerts)%nat.
Proof.
  unfold lineAlerts. cbv zeta.
  change (3 + List.length alerts)%nat with (S (S (S (List.length alerts)))).
  repeat apply pushed_length. apply le_n.
Qed.

Lemma loop_cases (all : list Material.t) (xs : list Line.t) (i : nat)
      (alerts : list string) (x : string) :
  In x (reduce (lineAlerts all) xs i alerts)
  <-> In x alerts
      \/ exists k ln,
           nth_error xs k = Some ln
           /\ (densityOutOfRange all ln = true /\ x = densityAlert (i + k)
               \/ quantityTooHigh all ln = true /\ x = quantityAlert (i + k)
               \/ unitsBelowOne ln = true /\ x = unitsAlert (i + k)).
Proof.
  revert i alerts. induction xs as [|ln xs IH]; intros i alerts; cbn [reduce].
  - split; [auto|]. intros [H|(k & l & H & _)]; [exact H|].
    destruct k; discriminate H.
  - rewrite IH, lineAlerts_cases. split.
    + intros [[H|H]|(k & l & Hk & H)].
      * left. exact H.
      * right. exists O, ln. rewrite Nat.add_0_r. split; [reflexivity|exact H].
      * right. exists (S k), l. rewrite Nat.add_succ_r. split; assumption.
    + intros [H|(k & l & Hk & H)]; [left; left; exact H|].
      destruct k as [|k].
      * cbn in Hk. injection Hk as <-. rewrite Nat.add_0_r in H.
        left. right. exact H.
      * right. exists k, l. rewrite Nat.add_succ_r in H. split; assumption.
Qed.

Lemma loop_NoDup (all : list Material.t) (xs : list Line.t) (i : nat)
      (alerts : list string) :
  NoDup alerts -> NoDup (reduce (lineAlerts all) xs i alerts).
Proof.
  revert i alerts. induction xs as [|ln xs IH]; intros i alerts H; cbn [reduce].
  - exact H.
  - apply IH, lineAlerts_NoDup, H.
Qed.

Lemma loop_length (all : list Material.t) (xs : list Line.t) (i : nat)
      (alerts : list string) :
  (List.length (reduce (lineAlerts all) xs i alerts)
   <= 3 * List.length xs + List.length alerts)%nat.
Proof.
  revert i alerts. induction xs as [|ln xs IH]; intros i alerts; cbn [reduce].
  - cbn. lia.
  - eapply Nat.le_trans; [apply IH|].
    pose proof (lineAlerts_length all alerts ln i). cbn [List.length]. lia.
Qed.

(** X14.  The alerts of a render are exactly the messages whose test
    holds: for each line the density out of range, the quantity very
    high and the units below 1, under the number of the line, then the
    price below the cost, the overage above 1000 and the negative
    labour.  No message is listed twice, and there are at most three
    per line and three more. *)
Theorem alerts_exact (st : State) :
  (forall x,
     In x (alerts st)
     <-> (exists k ln,
            nth_error (lines st) k = Some ln
            /\ (densityOutOfRange (allMaterials st) ln = true
                /\ x = densityAlert k
                \/ quantityTooHigh (allMaterials st) ln = true
                   /\ x = quantityAlert k
                \/ unitsBelowOne ln = true /\ x = unitsAlert k))
         \/ (Num.truthy (priceP st) && (priceP st <? totalCost st) = true
             /\ x = priceAlert)
         \/ ((overPctTotal st >? lit "1000") = true /\ x = overAlert)
         \/ ((laborCost st <? Num.zero) = true /\ x = laborAlert))
  /\ NoDup (alerts st)
  /\ (List.length (alerts st) <= 3 * List.length (lines st) + 3)%nat.
Proof.
  unfold alerts. cbv zeta. split; [|split].
  - intros x. rewrite !pushed_cases, loop_cases. cbn [In plus]. tauto.
  - repeat apply pushed_NoDup. apply loop_NoDup. constructor.
  - replace (3 * List.length (lines st) + 3)%nat
      with (S (S (S (3 * List.length (lines st) + 0)))) by lia.
    repeat apply pushed_length.
    apply (loop_length (allMaterials st) (lines st) 0 []).
Qed.

Lemma alert_in (st : State) (x : string) :
  In x (alerts st)
  <-> In x (reduce (lineAlerts (allMaterials st)) (lines st) 0 [])
      \/ (Num.truthy (priceP st) && (priceP st <? totalCost st) = true
          /\ x = priceAlert)
      \/ ((overPctTotal st >? lit "1000") = true /\ x = overAlert)
      \/ ((laborCost st <? Num.zero) = true /\ x = laborAlert).
Proof. unfold alerts. cbv zeta. rewrite !pushed_cases. tauto. Qed.

Lemma line_alert_shape (all : list Material.t) (xs : list Line.t) (x : string) :
  In x (reduce (lineAlerts all) xs 0 []) -> exists s, x = "Línea " ++ s.
Proof.
  rewrite loop_cases. intros [[]|(k & ln & _ & H)].
  destruct H as [[_ ->]|[[_ ->]|[_ ->]]]; eexists; reflexivity.
Qed.

(** X15.  The alert of a price below the cost is raised exactly when
    the price is not zero and below the total cost; it is there
    whenever the diagnosis is [Precio sospechoso], and the diagnosis is
    [Precio sospechoso] whenever it is there and the total cost is
    above zero.  The alert of a negative labour is raised exactly when
    the labour cost is below zero, which takes a labour override that
    reads as a negative number: the estimate is never below zero. *)
Theorem alerts_of_totals (st : State) :
  (In priceAlert (alerts st)
   <-> Num.truthy (priceP st) && (priceP st <? totalCost st) = true)
  /\ (diagnosis st = "Precio sospechoso" -> In priceAlert (alerts st))
  /\ (In priceAlert (alerts st) -> (totalCost st >? Num.zero) = true ->
      diagnosis st = "Precio sospechoso")
  /\ (In laborAlert (alerts st) <-> (laborCost st <? Num.zero) = true)
  /\ (In laborAlert (alerts st) ->
      (Str.parseFloat (laborOverride st) <? Num.zero) = true).
Proof.
  assert (Hp : In priceAlert (alerts st)
               <-> Num.truthy (priceP st) && (priceP st <? totalCost st) = true).
  { rewrite alert_in. split.
    - intros [H|[[H _]|[[_ H]|[_ H]]]]; try discriminate H; [|exact H].
      apply line_alert_shape in H. destruct H as (s & H).
      cbn in H. discriminate H.
    - intros H. right. left. split; [exact H|reflexivity]. }
  assert (Hl : In laborAlert (alerts st) <-> (laborCost st <? Num.zero) = true).
  { rewrite alert_in. split.
    - intros [H|[[_ H]|[[_ H]|[H _]]]]; try discriminate H; [|exact H].
      apply line_alert_shape in H. destruct H as (s & H).
      cbn in H. discriminate H.
    - intros H. right. right. right. split; [exact H|reflexivity]. }
  split; [exact Hp|]. split; [|split; [|split; [exact Hl|]]].
  - intros Hd. apply Hp. unfold diagnosis in Hd.
    destruct (Num.truthy (priceP st)); [|discriminate Hd].
    cbn [negb orb andb] in *.
    destruct (totalCost st <=? Num.zero); [discriminate Hd|].
    destruct (priceP st <? totalCost st); [reflexivity|].
    destruct (overPctTotal st >? lit "40"); [discriminate Hd|].
    destruct (overPctTotal st >? lit "20"); discriminate Hd.
  - intros Hin Hc. apply Hp in Hin. apply andb_prop in Hin.
    destruct Hin as [Ht Hlt]. unfold diagnosis.
    rewrite Ht, Hlt, (gtb_zero_not_leb _ Hc). reflexivity.
  - intros Hin. apply Hl in Hin. unfold laborCost, toNumber in *.
    destruct (Num.isFinite (Str.parseFloat (laborOverride st)));
      [exact Hin|].
    exfalso. unfold laborEstimated, suggestedHours in Hin.
    destruct (pieceType st), (complexity st); vm_compute in Hin;
      discriminate Hin.
Qed.

(** X16.  Two entries that the costing repairs are reported all the
    same.  Units that read below 1 raise the alert of the line, which
    is yet costed with 1 unit.  A density that is not a number raises
    the alert of the density, since the validation reads it as 0,
    while the costing of a line given by dimensions takes 2.7 for
    it. *)
Theorem alerts_of_repaired_entries (st : State) (k : nat) (ln : Line.t) :
  nth_error (lines st) k = Some ln ->
  ((toNumber (Line.qty ln) (lit "1") <? lit "1") = true ->
   In (unitsAlert k) (alerts st)
   /\ Part.qty (calcLine (allMaterials st) ln) = lit "1")
  /\ (Num.isFinite (Str.parseFloat (Line.density ln)) = false ->
      In (densityAlert k) (alerts st)
      /\ toNumber (Line.density ln) DEFAULT_DENSITY = DEFAULT_DENSITY).
Proof.
  intros Hk. split.
  - intros Hq. split.
    + apply alert_in. left. apply loop_cases. right. exists k, ln.
      split; [exact Hk|]. right. right. split; [exact Hq|reflexivity].
    + unfold calcLine. cbn [Part.qty].
      apply max_one_floor_below; [| |exact Hq].
      * apply toNumber_isFinite. reflexivity.
      * apply toNumber_wellFormed. reflexivity.
  - intros Hd. split.
    + apply alert_in. left. apply loop_cases. right. exists k, ln.
      split; [exact Hk|]. left. split; [|reflexivity].
      unfold densityOutOfRange, toNumber. cbv zeta. rewrite Hd.
      destruct (Material.unit _ =? "€/ct"); reflexivity.
    + unfold toNumber. rewrite Hd. reflexivity.
Qed.

Lemma alerts_of_repaired_entries_witness :
  let st := mkState [] anillo_fino media ""
                    [dimensionsLine "gold_18k" "" "box" "10" "10" "10" "" "" ""]
                    "" in
  In (densityAlert 0) (alerts st).
Proof.
  intros st.
  destruct (alerts_of_repaired_entries st 0 _ eq_refl) as (_ & H).
  apply H. reflexivity.
Defined.
(* ================================================================== *)
(** * Labour *)
(* ================================================================== *)

(** X17.  The labour cost is always a finite Number.  It is the
    estimate, the rate of 60 per hour times the suggested hours,
    whenever the override does not read as a finite number, as when it
    is empty or reads [Infinity].  The estimate lies between 30 and
    390 and does not decrease when the complexity goes from [baja] to
    [media] to [alta]. *)
Theorem laborCost_finite (st : State) :
  Num.isFinite (laborCost st) = true
  /\ (Num.isFinite (Str.parseFloat (laborOverride st)) = false ->
      laborCost st = DEFAULT_RATE_EUR_H * suggestedHours st)
  /\ (lit "30" <=? laborEstimated st) = true
  /\ (laborEstimated st <=? lit "390") = true
  /\ (forall c c',
        (c, c') = (baja, media) \/ (c, c') = (media, alta) ->
        (DEFAULT_RATE_EUR_H * SUGGESTED_HOURS (pieceType st) c
         <=? DEFAULT_RATE_EUR_H * SUGGESTED_HOURS (pieceType st) c') = true).
Proof.
  split; [|split; [|split; [|split]]].
  - apply toNumber_isFinite. unfold laborEstimated, suggestedHours.
    destruct (pieceType st), (complexity st); reflexivity.
  - intros H. unfold laborCost, toNumber. rewrite H. reflexivity.
  - unfold laborEstimated, suggestedHours.
    destruct (pieceType st), (complexity st); vm_compute; reflexivity.
  - unfold laborEstimated, suggestedHours.
    destruct (pieceType st), (complexity st); vm_compute; reflexivity.
  - intros c c' [H|H]; injection H as -> ->;
      destruct (pieceType st); vm_compute; reflexivity.
Qed.

(* ================================================================== *)
(** * Repeated saves *)
(* ================================================================== *)

Local Close Scope num_scope.
Local Open Scope nat_scope.

Lemma firstn_app_firstn {A : Type} (m n : nat) (a b : list A) :
  m <= n -> firstn m (a ++ firstn n b)%list = firstn m (a ++ b)%list.
Proof.
  revert m. induction a as [|x a IH]; intros m H; cbn [app].
  - rewrite firstn_firstn. f_equal. lia.
  - destruct m as [|m]; [reflexivity|].
    cbn [firstn]. f_equal. apply IH. lia.
Qed.

Lemma saveAll_capped {Entry : Type} (history entries : list Entry) :
  saveAll (firstn 500 history) entries
  = firstn 500 (rev entries ++ history)%list.
Proof.
  revert history. induction entries as [|e entries IH]; intros history.
  - reflexivity.
  - change (saveAll (firstn 500 history) (e :: entries))
      with (saveAll (firstn 500 (e :: firstn 500 history)) entries).
    rewrite IH. cbn [rev]. rewrite <- !app_assoc. cbn [app].
    replace (rev entries ++ e :: firstn 500 history)%list
      with ((rev entries ++ [e]) ++ firstn 500 history)%list
      by (rewrite <- app_assoc; reflexivity).
    rewrite firstn_app_firstn by lia.
    rewrite <- app_assoc. reflexivity.
Qed.

(** X18.  Saving entries one after the other leaves the history with
    the saved entries, newest first, followed by the history there
    was, cut at 500 entries: the 500 most recent ones, whatever the
    length of the history that was loaded. *)
Theorem saveAll_newest_first {Entry : Type} (history : list Entry) (e : Entry)
        (entries : list Entry) :
  saveAll history (e :: entries)
  = firstn 500 (rev (e :: entries) ++ history)%list.
Proof.
  change (saveAll history (e :: entries))
    with (saveAll (firstn 500 (e :: history)) entries).
  rewrite saveAll_capped. cbn [rev]. rewrite <- app_assoc. reflexivity.
Qed.

Local Close Scope nat_scope.
Local Open Scope num_scope.

(* ================================================================== *)
(** * White space around an entry *)
(* ================================================================== *)

Lemma trimStart_blank_app (ws s : string) :
  Str.trimStart ws = "" -> Str.trimStart (ws ++ s) = Str.trimStart s.
Proof.
  induction ws as [|c r IH]; intros H; [reflexivity|].
  cbn [append Str.trimStart] in *.
  destruct (Str.isWhiteSpace c); [apply IH; exact H|discriminate H].
Qed.

Lemma trimStart_app (s ws : string) :
  Str.trimStart s <> "" -> Str.trimStart (s ++ ws) = Str.trimStart s ++ ws.
Proof.
  induction s as [|c r IH]; intros H; [contradiction H; reflexivity|].
  cbn [append Str.trimStart] in *.
  destruct (Str.isWhiteSpace c); [apply IH; exact H|reflexivity].
Qed.

Lemma reverse_app (a b acc : string) :
  Str.reverse (a ++ b) acc = Str.reverse b (Str.reverse a acc).
Proof.
  revert acc. induction a as [|c r IH]; intros acc; [reflexivity|].
  cbn [append Str.reverse]. apply IH.
Qed.

Lemma trimStart_reverse_blank (ws acc : string) :
  Str.trimStart ws = "" ->
  Str.trimStart (Str.reverse ws acc) = Str.trimStart acc.
Proof.
  revert acc. induction ws as [|c r IH]; intros acc H; [reflexivity|].
  cbn [Str.reverse]. cbn [Str.trimStart] in H.
  destruct (Str.isWhiteSpace c) eqn:E; [|discriminate H].
  rewrite IH by exact H. cbn [Str.trimStart]. rewrite E. reflexivity.
Qed.

Lemma trimEnd_app_blank (s ws : string) :
  Str.trimStart ws = "" -> Str.trimEnd (s ++ ws) = Str.trimEnd s.
Proof.
  intros H. unfold Str.trimEnd.
  rewrite reverse_app, trimStart_reverse_blank by exact H. reflexivity.
Qed.

Lemma trim_outer_blank (before s after : string) :
  Str.trimStart before = "" -> Str.trimStart after = "" ->
  Str.trim (before ++ s ++ after) = Str.trim s.
Proof.
  intros Hb Ha. unfold Str.trim. rewrite trimStart_blank_app by exact Hb.
  destruct (string_dec (Str.trimStart s) "") as [E|E].
  - rewrite trimStart_blank_app by exact E. rewrite Ha, E. reflexivity.
  - rewrite trimStart_app by exact E. apply trimEnd_app_blank. exact Ha.
Qed.

(** X19.  White space around an entry does not count.  An alias
    resolves to the same material with white space before and after
    it, and a numeric field reads as the same Number with white space
    before it. *)
Theorem outer_white_space_ignored (before after : string) :
  Str.trimStart before = "" -> Str.trimStart after = "" ->
  (forall txt,
     detectMaterialFromAlias (before ++ txt ++ after)
     = detectMaterialFromAlias txt)
  /\ (forall v d, toNumber (before ++ v) d = toNumber v d).
Proof.
  intros Hb Ha. split.
  - intros txt. unfold detectMaterialFromAlias.
    rewrite trim_outer_blank by assumption. reflexivity.
  - intros v d. unfold toNumber, Str.parseFloat.
    rewrite trimStart_blank_app by exact Hb. reflexivity.
Qed.

Lemma outer_white_space_ignored_witness :
  detectMaterialFromAlias "  oro 18k " = detectMaterialFromAlias "oro 18k"
  /\ toNumber " 12" Num.zero = toNumber "12" Num.zero.
Proof.
  destruct (outer_white_space_ignored "  " " " eq_refl eq_refl) as (H1 & H2).
  split; [exact (H1 "oro 18k")|].
  destruct (outer_white_space_ignored " " "" eq_refl eq_refl) as (_ & H3).
  exact (H3 "12" Num.zero).
Defined.
(* ================================================================== *)
(** * Export *)
(* ================================================================== *)

Local Close Scope num_scope.

Lemma append_assoc' (a b c : string) : (a ++ b) ++ c = a ++ (b ++ c).
Proof. induction a as [|x a IH]; cbn [append]; [reflexivity|]. rewrite IH. reflexivity. Qed.

Lemma append_inv_head (a b c : string) : a ++ b = a ++ c -> b = c.
Proof.
  induction a as [|x a IH]; cbn [append]; intros H; [exact H|].
  injection H as H. apply IH. exact H.
Qed.

Lemma string_tail_inj (c : ascii) (a b : string) :
  String c a = String c b -> a = b.
Proof. intros H. injection H as H. exact H. Qed.

(** A cell between its quotes is read back without its rest, provided
    the rest does not begin with a quote. *)
Lemma doubleQuotes_inj (s s' rest rest' : string) :
  (forall r, rest <> String quote r) ->
  (forall r, rest' <> String quote r) ->
  doubleQuotes s ++ String quote rest = doubleQuotes s' ++ String quote rest' ->
  s = s' /\ rest = rest'.
Proof.
  intros Hr Hr'. revert s'.
  induction s as [|c t IH]; intros [|c' t']; cbn [doubleQuotes append].
  - intros H. injection H as H. split; [reflexivity|exact H].
  - destruct (c' =? quote)%char eqn:E; cbn [append]; intros H.
    + injection H as H. exfalso. exact (Hr _ H).
    + injection H as H _. rewrite <- H, Ascii.eqb_refl in E. discriminate E.
  - destruct (c =? quote)%char eqn:E; cbn [append]; intros H.
    + injection H as H. exfalso. symmetry in H. exact (Hr' _ H).
    + injection H as H _. rewrite H, Ascii.eqb_refl in E. discriminate E.
  - destruct (c =? quote)%char eqn:E, (c' =? quote)%char eqn:E';
      cbn [append]; intros H.
    + injection H as H. apply IH in H. destruct H as [-> ->].
      apply Ascii.eqb_eq in E, E'. subst. split; reflexivity.
    + injection H as H _. rewrite <- H, Ascii.eqb_refl in E'. discriminate E'.
    + injection H as H _. rewrite H, Ascii.eqb_refl in E. discriminate E.
    + injection H as -> H. apply IH in H. destruct H as [-> ->].
      split; reflexivity.
Qed.

(** The text of a table of cells, and what follows its first cell. *)
Lemma body_first_cell (c : string) (cs : list string) (css : list (list string)) :
  join newline (map (fun cs => join "," (map esc cs)) ((c :: cs) :: css))
  = String quote
      (doubleQuotes c
       ++ String quote
            match cs, css with
            | [], [] => EmptyString
            | [], _ :: _ =>
                newline
                ++ join newline (map (fun cs => join "," (map esc cs)) css)
            | _ :: _, _ =>
                ","
                ++ join newline
                     (map (fun cs => join "," (map esc cs)) (cs :: css))
            end).
Proof.
  destruct cs as [|c1 cs]; destruct css as [|r css]; cbn [map join];
    unfold esc; cbn [append]; rewrite ?append_assoc'; cbn [append];
    reflexivity.
Qed.

Lemma body_inj (n : nat) (css css' : list (list string)) :
  (List.length (List.concat css) <= n)%nat ->
  Forall (fun cs => cs <> []) css -> Forall (fun cs => cs <> []) css' ->
  join newline (map (fun cs => join "," (map esc cs)) css)
  = join newline (map (fun cs => join "," (map esc cs)) css') ->
  css = css'.
Proof.
  revert css css'. induction n as [|n IH]; intros css css' Hn Hne Hne' H.
  - destruct css as [|[|c cs] css].
    + destruct css' as [|[|c' cs'] css']; [reflexivity| |].
      * inversion Hne' as [|? ? Hc _]. contradiction Hc. reflexivity.
      * rewrite body_first_cell in H. discriminate H.
    + inversion Hne as [|? ? Hc _]. contradiction Hc. reflexivity.
    + cbn in Hn. lia.
  - destruct css as [|[|c cs] css].
    + destruct css' as [|[|c' cs'] css']; [reflexivity| |].
      * inversion Hne' as [|? ? Hc _]. contradiction Hc. reflexivity.
      * rewrite body_first_cell in H. discriminate H.
    + inversion Hne as [|? ? Hc _]. contradiction Hc. reflexivity.
    + destruct css' as [|[|c' cs'] css'].
      * rewrite body_first_cell in H. discriminate H.
      * inversion Hne' as [|? ? Hc _]. contradiction Hc. reflexivity.
      * rewrite !body_first_cell in H. injection H as H.
        inversion Hne as [|? ? _ Hne1]. inversion Hne' as [|? ? _ Hne1']. subst.
        apply doubleQuotes_inj in H.
        -- destruct H as [-> H].
           destruct cs as [|c1 cs], cs' as [|c1' cs'].
           ++ destruct css as [|r css], css' as [|r' css'];
                try discriminate H; [reflexivity|].
              apply string_tail_inj in H. f_equal.
              apply IH; [| | |exact H]; try assumption.
              cbn in Hn. cbn. lia.
           ++ destruct css; discriminate H.
           ++ destruct css'; discriminate H.
           ++ apply string_tail_inj in H.
              assert (E : (c1 :: cs) :: css = (c1' :: cs') :: css').
              { apply IH; [| | |exact H].
                - cbn in Hn. cbn. lia.
                - constructor; [discriminate|assumption].
                - constructor; [discriminate|assumption]. }
              injection E as -> -> ->. reflexivity.
        -- intros r. destruct cs; [destruct css|]; discriminate.
        -- intros r. destruct cs'; [destruct css'|]; discriminate.
Qed.

Section ExportFacts.
Variable numberToString : num -> string.
Variable memberToString : string -> string.

(** X20.  Two tables under the same names that export to the same text
    hold the same texts in all their cells: every cell goes between
    double quotes with its own double quotes doubled, so the commas,
    quotes and line breaks of a text are not taken for separators. *)
Theorem toCSV_keeps_cells (r0 r0' : row) (rows rows' : list row) :
  map fst r0 = map fst r0' -> map fst r0 <> [] ->
  toCSV numberToString memberToString (r0 :: rows)
  = toCSV numberToString memberToString (r0' :: rows') ->
  map (fun r => map (cellText numberToString memberToString r) (map fst r0))
      (r0 :: rows)
  = map (fun r => map (cellText numberToString memberToString r) (map fst r0))
        (r0' :: rows').
Proof.
  intros Hh Hne. unfold toCSV. rewrite <- Hh. cbv zeta.
  set (headers := map fst r0) in *.
  set (cell := cellText numberToString memberToString).
  change (join newline [join "," headers; ?b])
    with (join "," headers ++ newline ++ b).
  intros H. apply append_inv_head, append_inv_head in H.
  assert (E : forall rs,
             map (fun r => join "," (map (fun h => esc (cell r h)) headers)) rs
             = map (fun cs => join "," (map esc cs))
                   (map (fun r => map (cell r) headers) rs)).
  { intros rs. rewrite map_map. apply map_ext. intros r.
    rewrite map_map. reflexivity. }
  rewrite !E in H.
  assert (Hrows : forall rs,
             Forall (fun cs : list string => cs <> [])
                    (map (fun r => map (cell r) headers) rs)).
  { intros rs. apply Forall_forall. intros cs Hin.
    apply in_map_iff in Hin. destruct Hin as (r & <- & _).
    destruct headers; [contradiction Hne; reflexivity|discriminate]. }
  eapply body_inj; [apply le_n|apply Hrows|apply Hrows|exact H].
Qed.

(** X21.  Saving the appraisal puts an entry at the front of the
    history, and the export reads this entry as it was computed: its
    row has the ten columns of the export, with the time, the currency
    that was selected, or the current one when it was empty, the
    description with the number of lines, the Numbers of the subtotal,
    the labour, the total cost, the price and the two shares, and the
    diagnosis; none of the defaults for a missing field is taken, and a
    Number that is 0 is exported as it is.  The export of a history
    that is not empty begins with the line of the ten names. *)
Theorem exportCSV_of_saved (now currency shown : string) (st : State)
        (history : list Entry.t) :
  let names :=
    [ "Fecha"; "Divisa"; "Descripcion"; "SubtotalMateriales"; "ManoObra";
      "CosteTotal"; "PrecioPieza"; "PctMateriales"; "PctTotal";
      "Diagnostico" ] in
  (exists h,
     saveCurrentToHistory now currency st history = h :: firstn 499 history
     /\ map fst (exportRow shown h) = names
     /\ map (cellText numberToString memberToString (exportRow shown h)) names
        = [ now;
            if currency =? "" then shown else currency;
            "Pieza multi-material ("
            ++ decimal (List.length (lines st)) ++ " líneas)";
            numberToString (subtotal st);
            numberToString (laborCost st);
            numberToString (totalCost st);
            numberToString (priceP st);
            numberToString (pctMaterials st);
            numberToString (pctTotal st);
            diagnosis st ])
  /\ (forall h rest,
        exists body,
          exportCSV numberToString memberToString shown (h :: rest)
          = join "," names ++ newline ++ body).
Proof.
  cbv zeta. split.
  - unfold saveCurrentToHistory. rewrite saveHistory_cons.
    eexists. split; [reflexivity|]. split; [reflexivity|].
    unfold exportRow, cellText.
    cbn [map ownValue String.eqb Ascii.eqb Bool.eqb Entry.ts Entry.currency
         Entry.desc Entry.subtotalMaterials Entry.subtotal Entry.laborCost
         Entry.totalCost Entry.piecePrice Entry.pctMaterials Entry.pctTotal
         Entry.diagnosis coalesce].
    unfold orElse, truthyValue. cbn [append String.eqb negb].
    destruct (currency =? "") eqn:Ec; cbn [negb];
      destruct (diagnosis st =? "") eqn:Ed; cbn [negb];
        try reflexivity;
        apply String.eqb_eq in Ed; rewrite Ed; reflexivity.
  - intros h rest. eexists. reflexivity.
Qed.

End ExportFacts.

Lemma toCSV_keeps_cells_witness :
  let r := [("a", Text "x,y"); ("b", Number (lit "1"))] in
  let r' := [("a", Text "x,y"); ("b", Text "1")] in
  let cell := cellText (fun _ => "1") (fun _ => "") in
  [map (cell r) ["a"; "b"]] = [map (cell r') ["a"; "b"]].
Proof.
  intros r r' cell.
  apply (toCSV_keeps_cells (fun _ => "1") (fun _ => "") r r' [] []).
  - reflexivity.
  - discriminate.
  - reflexivity.
Defined.

Local Open Scope num_scope.
(* ================================================================== *)
(** * Custom materials *)
(* ================================================================== *)

Lemma custom_key_fresh (now : N) :
  ~ In ("custom_" ++ decimalN now) (map Material.key MATERIALS).
Proof.
  intros H. cbn in H.
  repeat (destruct H as [H|H]; [discriminate H|]). exact H.
Qed.

(** X22.  A custom material is added after the ones there are, under a
    key that is not one of the catalogue.  It is priced per carat when
    the confirmation is accepted and per gram otherwise.  Its density
    is the Number the answer reads as, and 2.7 when the dialog is
    cancelled or the answer is empty or reads as no finite Number; it
    is always finite.  Every line whose key already names a material is
    costed as before; and the new key resolves to the new material
    unless an earlier custom material has the same key. *)
Theorem addCustomMaterial_keeps_lines (custom : list Material.t)
        (name : string) (perCarat : bool) (densityText : option string)
        (now : N) :
  name <> "" ->
  let custom' :=
    addCustomMaterial (Some name) perCarat densityText now custom in
  exists m,
    custom' = (custom ++ [m])%list
    /\ Material.key m = "custom_" ++ decimalN now
    /\ ~ In (Material.key m) (map Material.key MATERIALS)
    /\ Material.unit m = (if perCarat then "€/ct" else "€/g")
    /\ unitFor m = (if perCarat then "ct" else "g")
    /\ Material.density m
       = match densityText with
         | Some answer =>
             if Num.isFinite (Str.parseFloat answer)
             then Str.parseFloat answer else lit "2.7"
         | None => lit "2.7"
         end
    /\ Num.isFinite (Material.density m) = true
    /\ (forall ln,
          In (Line.materialKey ln) (map Material.key (MATERIALS ++ custom)) ->
          calcLine (MATERIALS ++ custom') ln = calcLine (MATERIALS ++ custom) ln)
    /\ (~ In (Material.key m) (map Material.key custom) ->
        findMaterial (MATERIALS ++ custom') (Material.key m) = m).
Proof.
  intros Hname. cbn zeta. unfold addCustomMaterial.
  destruct name as [|c name]; [contradiction Hname; reflexivity|].
  cbv zeta.
  set (m := Material.mk _ _ _).
  exists m. split; [reflexivity|]. split; [reflexivity|].
  split; [apply custom_key_fresh|].
  split; [reflexivity|].
  split; [destruct perCarat; reflexivity|].
  split.
  { unfold m. cbn [Material.density].
    destruct densityText as [[|c' answer]|]; reflexivity. }
  split; [apply toNumber_isFinite; reflexivity|].
  split.
  - intros ln Hin. apply calcLine_material; try reflexivity.
    destruct (find_by_key _ _ Hin) as (x & E & _).
    unfold findMaterial. rewrite app_assoc, find_app, E. reflexivity.
  - intros Hout. unfold findMaterial. rewrite app_assoc, find_app.
    assert (E : find (fun x => Material.key x =? Material.key m)
                     (MATERIALS ++ custom) = None).
    { destruct (find _ (MATERIALS ++ custom)) as [x|] eqn:E; [|reflexivity].
      exfalso. pose proof (find_key _ _ _ E) as Hk.
      apply find_some in E. destruct E as [E _].
      apply in_app_or in E. destruct E as [E|E].
      - apply (custom_key_fresh now). change (In (Material.key m) (map Material.key MATERIALS)).
        rewrite <- Hk. apply in_map. exact E.
      - apply Hout. rewrite <- Hk. apply in_map. exact E. }
    rewrite E. cbn [find]. rewrite String.eqb_refl. reflexivity.
Qed.

Lemma addCustomMaterial_keeps_lines_witness :
  exists m,
    addCustomMaterial (Some "jade") true (Some "abc") 1700000000000%N [] = [m]
    /\ Material.unit m = "€/ct"
    /\ Material.density m = lit "2.7".
Proof.
  destruct (addCustomMaterial_keeps_lines [] "jade" true (Some "abc")
              1700000000000%N)
    as (m & E & _ & _ & Hu & _ & Hd & _); [discriminate|].
  exists m. split; [exact E|]. split; [exact Hu|exact Hd].
Defined.

(* ================================================================== *)
(** * Samples *)
(* ================================================================== *)

(** The checks the source runs once per session, but the three that
    round a percentage. *)
Example light_tests :
  (Num.abs (volumeFromBoxMM (lit "10") (lit "10") (lit "10") - lit "1")
   <? lit "1e-9") = true
  /\ (Num.abs (volumeFromCylinderMM (lit "10") (lit "10") - PI * lit "0.25")
      <? lit "1e-6") = true
  /\ (Num.abs (estimateDiamondCarats (lit "6.5") (lit "4") - lit "1.0309")
      <? lit "1e-3") = true
  /\ (Num.abs (toGrams "1" "ozt" - lit "31.103") <? lit "1e-6") = true
  /\ (Num.abs (toGrams "10" "dwt" - lit "15.55") <? lit "1e-2") = true
  /\ detectMaterialFromAlias "750/1000" = Some "gold_18k".
Proof. vm_compute. repeat split. Qed.

(** The worked example of the specification: subtotal 1000, labour 90
    and price 1400. *)
Example percentages_sample :
  let st :=
    mkState [] anillo_fino media "90" [weightLine "10" "100" "g" "1"] "1400" in
  subtotal st = lit "1000" /\ totalCost st = lit "1090"
  /\ Num.floor (pctMaterials st) = lit "71"
  /\ Num.floor (pctTotal st) = lit "77"
  /\ Num.floor (overPctTotal st) = lit "28"
  /\ diagnosis st = "Posible sobrevaloración".
Proof. vm_compute. repeat split. Qed.

(** The conversion of decimal numerals and the four operations agree
    with the binary64 arithmetic of the kernel on the constants of the
    source. *)
Module Kernel.
Import PrimFloat FloatOps.
#[local] Set Warnings "-inexact-float".

Example literals_agree :
  map lit
      [ "1.555"; "31.103"; "0.0061"; "0.2"; "2.7"; "3.141592653589793";
        "19.32"; "10.36"; "21.45"; "3.52"; "1e308"; "1e-9"; "-5"; "60" ]
  = map Prim2SF
      [ 1.555; 31.103; 0.0061; 0.2; 2.7; 3.141592653589793;
        19.32; 10.36; 21.45; 3.52; 1e308; 1e-9; -5; 60 ]%float.
Proof. vm_compute. reflexivity. Qed.

Example operations_agree :
  [ toGrams "10" "dwt";
    estimateDiamondCarats (lit "6.5") (lit "4");
    volumeFromCylinderMM (lit "10") (lit "10");
    ((lit "1400" - lit "1090") / lit "1090") * lit "100";
    lit "1e308" * lit "31.103";
    Num.zero * (lit "1e308" * lit "31.103") ]%num
  = map Prim2SF
      [ 10 * 1.555;
        0.0061 * (6.5 * 6.5) * 4;
        3.141592653589793 * (10 / 20) * (10 / 20) * (10 / 10);
        ((1400 - 1090) / 1090) * 100;
        1e308 * 31.103;
        0 * (1e308 * 31.103) ]%float.
Proof. vm_compute. reflexivity. Qed.

End Kernel.
